(** * Outlook bulk e-mail sender: the delivery pipeline of [email_sender.py]

    A shallow embedding of [EmailSender._render_template],
    [EmailSender.send_email] and [EmailSender.send_bulk_emails], with the
    properties of the delivery pipeline stated against it.

    Conventions of the embedding.
    - A Python [str] is a [string]; [str.replace] is [replace] below.
    - A Python [dict] keeps insertion order, and [_render_template] iterates
      over it, so a dict is an association list ([Dict]) with Python's
      update-in-place-or-append assignment ([dict_set]).
    - Dict objects live in a heap and are passed by reference ([loc]):
      [_render_template] assigns into the dict it is given.
    - The JSON sections [config['email']] and [config['settings']] are finite
      maps; a missing key is a [KeyError].
    - Effects (log lines, SMTP operations, [time.sleep], the results ledger,
      the heap) are threaded through a state-and-exception monad [M]. What
      the run prints on the console ([print], the [tqdm] progress bar) is
      left out. *)

From Stdlib Require Import ZArith Ascii String List DecimalString.
From stdpp Require Import base list strings gmap.

Local Open Scope Z_scope.

(** ** Python strings *)

Module PyStr.

(** [s.startswith(p)] *)
Fixpoint startswith (p s : string) : bool :=
  match p, s with
  | EmptyString, _ => true
  | String a p', String b s' => if Ascii.eqb a b then startswith p' s' else false
  | String _ _, EmptyString => false
  end.

(** The scan of [str.replace] for a non-empty [old]: [skip] counts the
    characters of a match that are still to be stepped over. *)
Fixpoint replace_scan (old new : string) (skip : nat) (s : string) : string :=
  match s with
  | EmptyString => EmptyString
  | String c s' =>
      match skip with
      | S k => replace_scan old new k s'
      | O =>
          if startswith old s
          then new +:+ replace_scan old new (String.length old - 1)%nat s'
          else String c (replace_scan old new O s')
      end
  end.

(** [new.join(s)] with [new] also put in front and at the end, which is
    what [s.replace('', new)] returns. *)
Fixpoint intersperse (new s : string) : string :=
  match s with
  | EmptyString => new
  | String c s' => new +:+ String c (intersperse new s')
  end.

(** [s.replace(old, new)]: every non-overlapping occurrence of [old], found
    from the left, is replaced by [new]. *)
Definition replace (old new s : string) : string :=
  match old with
  | EmptyString => intersperse new s
  | String _ _ => replace_scan old new O s
  end.


(** Character-wise substitution, the reading of a single-character
    [replace] that the filename clean-up relies on. *)
Fixpoint map_chars (f : ascii -> ascii) (s : string) : string :=
  match s with
  | EmptyString => EmptyString
  | String c s' => String (f c) (map_chars f s')
  end.

Fixpoint all_chars (P : ascii -> bool) (s : string) : bool :=
  match s with
  | EmptyString => true
  | String c s' => P c && all_chars P s'
  end.

End PyStr.

Import PyStr.

(** ** Python values, dicts and exceptions *)

(** A cell of the recipient table after [pd.read_excel]: text, a number, or
    a missing value ([NaN], for which [pd.notna] is false). *)
Inductive value :=
| VStr (s : string)
| VInt (n : Z).

Inductive cell :=
| Val (v : value)
| NaN.

(** [str(v)] *)
Definition str (v : value) : string :=
  match v with
  | VStr s => s
  | VInt n => NilZero.string_of_int (Z.to_int n)
  end.

(** An insertion-ordered dict with string keys. *)
Definition dict (V : Type) := list (string * V).

Fixpoint dict_get {V} (k : string) (d : dict V) : option V :=
  match d with
  | [] => None
  | (k', v) :: d' => if String.eqb k k' then Some v else dict_get k d'
  end.

(** [d[k] = v]: an existing key keeps its position, a new key goes last. *)
Fixpoint dict_set {V} (k : string) (v : V) (d : dict V) : dict V :=
  match d with
  | [] => [(k, v)]
  | (k', v') :: d' =>
      if String.eqb k k' then (k', v) :: d' else (k', v') :: dict_set k v d'
  end.

Definition keys {V} (d : dict V) : list string := map fst d.

Abbreviation Dict := (dict value).

(** A row of the DataFrame (a pandas Series: labels and cells in column
    order), and the DataFrame as [df.iterrows()] yields it: index label and
    row. The index labels are those of the spreadsheet rows, so they have
    gaps once [load_excel] has dropped rows. *)
Definition Row := list (string * cell).
Definition DataFrame := list (Z * Row).

(** [row.to_dict()] *)
Definition to_dict (row : Row) : dict cell :=
  fold_left (fun d kv => dict_set (fst kv) (snd kv) d) row [].

(** [{k: (v if pd.notna(v) else '') for k, v in data.items()}] *)
Definition fill_missing (data : dict cell) : Dict :=
  fold_left
    (fun d kv => dict_set (fst kv)
                   (match snd kv with Val v => v | NaN => VStr "" end) d)
    data [].

(** The exception classes that matter here. [Exception_] is the root
    [Exception]; [SMTPAuthenticationError] derives from [SMTPException].
    Interrupts (which are not [Exception]s) are outside the model. *)
Inductive exn_class :=
| Exception_
| SMTPException
| SMTPAuthenticationError
| KeyError
| AttributeError
| ValueError.

Definition issubclass (c base : exn_class) : bool :=
  match base, c with
  | Exception_, _ => true
  | SMTPException, (SMTPException | SMTPAuthenticationError) => true
  | SMTPAuthenticationError, SMTPAuthenticationError => true
  | KeyError, KeyError => true
  | AttributeError, AttributeError => true
  | ValueError, ValueError => true
  | _, _ => false
  end.

(** A raised exception: its class and [str(e)]. *)
Record exn := Exn { exn_class_of : exn_class; exn_str : string }.

Definition isinstance (e : exn) (base : exn_class) : bool :=
  issubclass (exn_class_of e) base.

Definition key_error (k : string) : exn := Exn KeyError ("'" +:+ k +:+ "'").

Definition no_replace_attribute : exn :=
  Exn AttributeError "'int' object has no attribute 'replace'".

Definition negative_sleep : exn :=
  Exn ValueError "sleep length must be non-negative".

Inductive Exc (A : Type) :=
| Ok (a : A)
| Raise (e : exn).
Arguments Ok {A} a.
Arguments Raise {A} e.

(** [v.replace(old, new)] for a dict value: only a [str] has the method. *)
Definition value_replace (v : value) (old new : string) : Exc value :=
  match v with
  | VStr s => Ok (VStr (replace old new s))
  | VInt _ => Raise no_replace_attribute
  end.

(** ** Configuration, messages and the outside world *)

Record SmtpConfig := {
  server : string;
  port : Z;
  use_tls : option bool  (* read with [.get('use_tls', True)] *)
}.

(** [self.config], the parsed [config.json]. *)
Record Config := {
  smtp_cfg : SmtpConfig;             (* config['smtp'] *)
  email_cfg : gmap string string;    (* config['email'] *)
  settings_cfg : gmap string Z       (* config['settings'] *)
}.

Definition bytes := list Byte.byte.

(** The MIME message [send_email] assembles. *)
Record Message := {
  msg_from : string;
  msg_to : value;
  msg_subject : string;
  msg_html : string;
  msg_attachment : option (string * bytes)   (* filename, content *)
}.

Inductive smtp_op :=
| OpConnect (host : string) (p : Z)     (* smtplib.SMTP(server, port) *)
| OpStartTLS                            (* server.starttls() *)
| OpLogin (user pass : string)          (* server.login(email, password) *)
| OpSendMessage (m : Message)           (* server.send_message(msg) *)
| OpQuit.                               (* server.quit() *)

Inductive level := INFO | WARNING | ERROR.

(** The two places of the pipeline that call [time.sleep]. *)
Inductive sleep_site :=
| RetryBackoff      (* between failed attempts *)
| InterRecipient.   (* between recipients *)

(** What an observer of the run sees, oldest first. *)
Inductive event :=
| EvLog (l : level) (line : string)
| EvSmtp (call : nat) (op : smtp_op)
| EvSleep (site : sleep_site) (secs : Z).

(** A row of [self.results]. *)
Record Result := {
  r_email : value;
  r_nombre : value;
  r_status : string;
  r_timestamp : string;
  r_error : option string
}.

Definition loc := nat.

Record World := {
  heap : gmap loc Dict;      (* the dict objects *)
  calls : nat;               (* calls of send_email made so far *)
  trace : list event;
  results : list Result      (* self.results *)
}.

(** [self]: configuration, credentials, template and PDF generator. The PDF
    generator is the collaborator of [pdf_generator.py]: from the record it
    returns the document's bytes or raises. *)
Record Sender := {
  config : Config;
  email : string;
  password : string;
  email_template : string;
  generate_personalized_pdf : Dict -> Exc bytes
}.

(** The environment: what each SMTP operation does during the n-th call of
    [send_email] ([None]: it succeeds), and the wall clock as formatted by
    [datetime.now().strftime]. *)
Record Env := {
  smtp : nat -> smtp_op -> option exn;
  now : list event -> string
}.

Definition empty_world : World :=
  {| heap := ∅; calls := 0%nat; trace := []; results := [] |}.

Definition set_heap (h : gmap loc Dict) (w : World) : World :=
  {| heap := h; calls := calls w; trace := trace w; results := results w |}.

Definition set_calls (n : nat) (w : World) : World :=
  {| heap := heap w; calls := n; trace := trace w; results := results w |}.

Definition emit (e : event) (w : World) : World :=
  {| heap := heap w; calls := calls w; trace := trace w ++ [e];
     results := results w |}.

Definition push_result (r : Result) (w : World) : World :=
  {| heap := heap w; calls := calls w; trace := trace w;
     results := results w ++ [r] |}.

(** The dict object at [l]. *)
Definition deref (l : loc) (w : World) : Dict := default [] (heap w !! l).

(** ** The state-and-exception monad *)

Definition M (A : Type) := World -> Exc A * World.

Definition ret {A} (a : A) : M A := fun w => (Ok a, w).

Definition raise {A} (e : exn) : M A := fun w => (Raise e, w).

Definition bind {A B} (m : M A) (k : A -> M B) : M B :=
  fun w =>
    match m w with
    | (Ok a, w') => k a w'
    | (Raise e, w') => (Raise e, w')
    end.

(** [try: m  except <handler>]: the handler sees the state the failing
    statement left behind. *)
Definition try_except {A} (m : M A) (handler : exn -> M A) : M A :=
  fun w =>
    match m w with
    | (Ok a, w') => (Ok a, w')
    | (Raise e, w') => handler e w'
    end.

Definition lift {A} (r : Exc A) : M A := fun w => (r, w).

Notation "'let!' x ':=' m 'in' k" := (bind m (fun x => k))
  (at level 10, x pattern, m at level 100, k at level 200).

Notation "m ';!' k" := (bind m (fun _ => k))
  (at level 100, k at level 200, right associativity).

(** ** Primitive actions *)

(** [self.logger.info/warning/error(line)] *)
Definition log (l : level) (line : string) : M unit :=
  fun w => (Ok tt, emit (EvLog l line) w).

(** [time.sleep(secs)] *)
Definition sleep (site : sleep_site) (secs : Z) : M unit :=
  fun w =>
    if secs <? 0 then (Raise negative_sleep, w)
    else (Ok tt, emit (EvSleep site secs) w).

(** [section[k]] on a JSON object of the configuration. *)
Definition config_get {V} (section : gmap string V) (k : string) : M V :=
  fun w =>
    match section !! k with
    | Some v => (Ok v, w)
    | None => (Raise (key_error k), w)
    end.

(** A fresh dict object holding [d]. *)
Definition new_dict (d : Dict) : M loc :=
  fun w =>
    let l := fresh (dom (heap w)) in
    (Ok l, set_heap (<[l := d]> (heap w)) w).

(** [data[k]] *)
Definition dict_getitem (data : loc) (k : string) : M value :=
  fun w =>
    match dict_get k (deref data w) with
    | Some v => (Ok v, w)
    | None => (Raise (key_error k), w)
    end.

(** [data.get(k, dflt)] *)
Definition dict_get_default (data : loc) (k : string) (dflt : value) : M value :=
  fun w => (Ok (default dflt (dict_get k (deref data w))), w).

(** [data[k] = v] *)
Definition dict_setitem (data : loc) (k : string) (v : value) : M unit :=
  fun w =>
    (Ok tt, set_heap (<[data := dict_set k v (deref data w)]> (heap w)) w).

(** [data.items()], read when the loop starts. *)
Definition dict_items (data : loc) : M (list (string * value)) :=
  fun w => (Ok (deref data w), w).

(** The [stats] dict that [send_bulk_emails] returns. *)
Record Stats := { total : Z; success : Z; failed : Z }.

(** ** The sender *)

Section Pipeline.

Context (self : Sender) (env : Env).

(** [f"{{{{{key}}}}}"] *)
Definition placeholder (key : string) : string := "{{" +:+ key +:+ "}}".

(** The loop of [_render_template] over [data.items()]. *)
Definition substitute (items : list (string * value)) (rendered : string)
  : string :=
  fold_left
    (fun rendered kv => replace (placeholder (fst kv)) (str (snd kv)) rendered)
    items rendered.

(** [EmailSender._render_template] *)
Definition _render_template (template : string) (data : loc) : M string :=
  let rendered := template in
  let! from_name := config_get (email_cfg (config self)) "from_name" in
  dict_setitem data "from_name" (VStr from_name) ;!
  let! items := dict_items data in
  ret (substitute items rendered).

(** One operation on the SMTP connection during the current call. *)
Definition smtp_do (call : nat) (op : smtp_op) : M unit :=
  fun w =>
    match smtp env call op with
    | None => (Ok tt, emit (EvSmtp call op) w)
    | Some e => (Raise e, emit (EvSmtp call op) w)
    end.

(** The number of this call of [send_email], counted from 0. *)
Definition enter_send_email : M nat :=
  fun w => (Ok (calls w), set_calls (S (calls w)) w).

(** [if pdf_data:] *)
Definition truthy (pdf_data : option bytes) : bool :=
  match pdf_data with
  | Some (_ :: _) => true
  | _ => false
  end.

(** The [try] block of [send_email], lines 212-243. *)
Definition send_email_try (call : nat) (to_email : value)
    (subject html_body : string) (pdf_data : option bytes)
    (pdf_filename : string) : M (bool * option string) :=
  let! from_name := config_get (email_cfg (config self)) "from_name" in
  let msg :=
    {| msg_from := from_name +:+ " <" +:+ email self +:+ ">";
       msg_to := to_email;
       msg_subject := subject;
       msg_html := html_body;
       msg_attachment :=
         if truthy pdf_data
         then Some (pdf_filename, default [] pdf_data)
         else None |} in
  let smtp_config := smtp_cfg (config self) in
  smtp_do call (OpConnect (server smtp_config) (port smtp_config)) ;!
  (if default true (use_tls smtp_config)
   then smtp_do call OpStartTLS
   else ret tt) ;!
  smtp_do call (OpLogin (email self) (password self)) ;!
  smtp_do call (OpSendMessage msg) ;!
  smtp_do call OpQuit ;!
  log INFO ("✅ Email enviado a: " +:+ str to_email) ;!
  ret (true, None).

(** The [except] clauses of [send_email], lines 245-256, tried in order. *)
Definition send_email_except (to_email : value) (e : exn)
  : M (bool * option string) :=
  if isinstance e SMTPAuthenticationError then
    let error := "Error de autenticación: " +:+ exn_str e in
    log ERROR ("❌ " +:+ error +:+ " - " +:+ str to_email) ;!
    ret (false, Some error)
  else if isinstance e SMTPException then
    let error := "Error SMTP: " +:+ exn_str e in
    log ERROR ("❌ " +:+ error +:+ " - " +:+ str to_email) ;!
    ret (false, Some error)
  else if isinstance e Exception_ then
    let error := "Error inesperado: " +:+ exn_str e in
    log ERROR ("❌ " +:+ error +:+ " - " +:+ str to_email) ;!
    ret (false, Some error)
  else raise e.

(** [EmailSender.send_email] *)
Definition send_email (to_email : value) (subject html_body : string)
    (pdf_data : option bytes) (pdf_filename : string)
  : M (bool * option string) :=
  let! call := enter_send_email in
  try_except
    (send_email_try call to_email subject html_body pdf_data pdf_filename)
    (send_email_except to_email).

(** [range(n)] *)
Definition range (n : Z) : list Z := map Z.of_nat (seq 0 (Z.to_nat n)).

(** Lines 286-295: the PDF and its file name. *)
Definition make_attachment (data : loc) : M (option bytes * string) :=
  try_except
    (let! d := dict_items data in
     let! pdf_data := lift (generate_personalized_pdf self d) in
     let! title := dict_get_default data "nombre_pdf" (VStr "documento") in
     let! t1 := lift (value_replace title "/" "_") in
     let! t2 := lift (value_replace t1 "\" "_") in
     let! safe_pdf_name := lift (value_replace t2 ":" "_") in
     let! nombre := dict_getitem data "nombre" in
     let! n1 := lift (value_replace nombre " " "_") in
     let! n2 := lift (value_replace n1 "/" "_") in
     let! n3 := lift (value_replace n2 "\" "_") in
     let! safe_nombre := lift (value_replace n3 ":" "_") in
     let pdf_filename := str safe_pdf_name +:+ "_" +:+ str safe_nombre +:+ ".pdf" in
     ret (Some pdf_data, pdf_filename))
    (fun e =>
       if isinstance e Exception_ then
         let! to := dict_getitem data "email" in
         log ERROR ("Error generando PDF para " +:+ str to +:+ ": " +:+ exn_str e) ;!
         ret (None, "documento.pdf")
       else raise e).

(** Lines 306-319: the attempts of one recipient. [success] and
    [error_msg] are the loop's variables, [attempts] what is left of
    [range(max_retries)]. *)
Fixpoint attempt_loop (attempts : list Z) (max_retries : Z) (data : loc)
    (subject html_body : string) (pdf_data : option bytes)
    (pdf_filename : string) (success : bool) (error_msg : option string)
  : M (bool * option string) :=
  match attempts with
  | [] => ret (success, error_msg)
  | attempt :: rest =>
      let! to_email := dict_getitem data "email" in
      let! r := send_email to_email subject html_body pdf_data pdf_filename in
      let '(success, error_msg) := r in
      if success then ret (success, error_msg)        (* break *)
      else
        (if attempt <? max_retries - 1
         then sleep RetryBackoff 2
         else ret tt) ;!
        attempt_loop rest max_retries data subject html_body
          pdf_data pdf_filename success error_msg
  end.

(** Lines 302-319. *)
Definition deliver (data : loc) (subject html_body : string)
    (pdf_data : option bytes) (pdf_filename : string)
  : M (bool * option string) :=
  let! max_retries := config_get (settings_cfg (config self)) "max_retries" in
  let success := false in
  let error_msg := None in
  attempt_loop (range max_retries) max_retries data subject html_body
    pdf_data pdf_filename success error_msg.

(** Lines 321-334: the ledger row and the counters. *)
Definition record_result (data : loc) (success : bool)
    (error_msg : option string) (success_count failed_count : Z)
  : M (Z * Z) :=
  let! e := dict_getitem data "email" in
  let! n := dict_getitem data "nombre" in
  let! result := (fun w =>
    (Ok {| r_email := e;
           r_nombre := n;
           r_status := if success then "Éxito" else "Error";
           r_timestamp := now env (trace w);
           r_error := if negb success then error_msg else Some "" |}, w)) in
  (fun w => (Ok tt, push_result result w)) ;!
  if success then ret (success_count + 1, failed_count)
  else ret (success_count, failed_count + 1).

(** The body of the loop over [df.iterrows()], lines 281-339. *)
Definition process_row (total : Z) (idx : Z) (row : Row)
    (success_count failed_count : Z) : M (Z * Z) :=
  let! data := new_dict (fill_missing (to_dict row)) in
  let! att := make_attachment data in
  let '(pdf_data, pdf_filename) := att in
  let! html_body := _render_template (email_template self) data in
  let! subject_template := config_get (email_cfg (config self)) "subject" in
  let! subject := _render_template subject_template data in
  let! sent := deliver data subject html_body pdf_data pdf_filename in
  let '(success, error_msg) := sent in
  let! counts := record_result data success error_msg success_count failed_count in
  (if idx <? total - 1
   then
     let! delay := config_get (settings_cfg (config self)) "delay_between_emails" in
     sleep InterRecipient delay
   else ret tt) ;!
  ret counts.

Fixpoint rows_loop (total : Z) (rows : DataFrame)
    (success_count failed_count : Z) : M (Z * Z) :=
  match rows with
  | [] => ret (success_count, failed_count)
  | (idx, row) :: rest =>
      let! counts := process_row total idx row success_count failed_count in
      rows_loop total rest (fst counts) (snd counts)
  end.

(** [EmailSender.send_bulk_emails] *)
Definition send_bulk_emails (df : DataFrame) (preview_mode : bool) : M Stats :=
  let df := if preview_mode then take 1 df else df in
  let total := Z.of_nat (length df) in
  let success_count := 0 in
  let failed_count := 0 in
  let! counts := rows_loop total df success_count failed_count in
  let stats := {| total := total; success := fst counts; failed := snd counts |} in
  ret stats.

End Pipeline.

(** ** Vocabulary of the properties *)


Definition is_brace (c : ascii) : bool :=
  Ascii.eqb c "{" || Ascii.eqb c "}".

Definition brace_free (s : string) : bool :=
  all_chars (fun c => negb (is_brace c)) s.






(** The file-name clean-up, character by character. *)
Definition clean_title_char (c : ascii) : ascii :=
  if Ascii.eqb c "/" || Ascii.eqb c "\" || Ascii.eqb c ":" then "_"%char else c.

Definition clean_name_char (c : ascii) : ascii :=
  if Ascii.eqb c " " then "_"%char else clean_title_char c.

Definition is_path_char (c : ascii) : bool :=
  Ascii.eqb c "/" || Ascii.eqb c "\" || Ascii.eqb c ":".

(** Counting the waits of a trace. *)
Definition is_sleep_at (site : sleep_site) (e : event) : bool :=
  match e, site with
  | EvSleep RetryBackoff _, RetryBackoff => true
  | EvSleep InterRecipient _, InterRecipient => true
  | _, _ => false
  end.

Definition waits (site : sleep_site) (t : list event) : nat :=
  length (filter (fun e => is_sleep_at site e = true) t).

(** The durations slept at [site], in order. *)
Definition wait_secs (site : sleep_site) (t : list event) : list Z :=
  omap (fun e => match e with
                 | EvSleep s secs => if is_sleep_at site e then Some secs else None
                 | _ => None
                 end) t.

(** The messages handed to [server.send_message]. *)
Definition sent_messages (t : list event) : list Message :=
  omap (fun e => match e with
                 | EvSmtp _ (OpSendMessage m) => Some m
                 | _ => None
                 end) t.

(** What the call of [send_email] numbered [call] returns. It depends on
    the call's number and arguments only (see [send_email_run]). *)
Definition attempt_result (self : Sender) (env : Env) (call : nat)
    (to_email : value) (subject html_body : string)
    (pdf_data : option bytes) (pdf_filename : string) : bool * option string :=
  match fst (send_email self env to_email subject html_body pdf_data
               pdf_filename (set_calls call empty_world)) with
  | Ok r => r
  | Raise _ => (false, None)
  end.

(** The record a row of the table becomes. *)
Definition record_of (row : Row) : Dict := fill_missing (to_dict row).

(** The error classes of a send attempt, and the detail string each one
    carries. [send_email] returns [(bool, Optional[str])]: the class shows
    in the prefix of the detail. *)
Inductive error_class := AuthError | TransportError | UnexpectedError.

Definition classify (c : exn_class) : error_class :=
  match c with
  | SMTPAuthenticationError => AuthError
  | SMTPException => TransportError
  | _ => UnexpectedError
  end.

Definition detail_of (k : error_class) (e : exn) : string :=
  match k with
  | AuthError => "Error de autenticación: "
  | TransportError => "Error SMTP: "
  | UnexpectedError => "Error inesperado: "
  end +:+ exn_str e.

(** Events that are not waits. *)
Definition no_sleep (e : event) : bool :=
  match e with
  | EvSleep _ _ => false
  | _ => true
  end.

(** Every back-off wait of the trace lasts [secs] seconds. *)
Definition backoff_is (secs : Z) (t : list event) : Prop :=
  forall s, In (EvSleep RetryBackoff s) t -> s = secs.

(** The attachment a call of [send_email] puts into its message. *)
Definition attachment_of (pdf_data : option bytes) (pdf_filename : string)
  : option (string * bytes) :=
  if truthy pdf_data then Some (pdf_filename, default [] pdf_data) else None.

(** [w'] is [w] after [j] more calls of [send_email] and the events [tr],
    with the same dicts and the same ledger. *)
Definition extends (w w' : World) (j : nat) (tr : list event) : Prop :=
  heap w' = heap w /\ calls w' = (calls w + j)%nat
  /\ trace w' = trace w ++ tr /\ results w' = results w.

(** Whatever happens, [m] only adds events that satisfy [Q]. *)
Definition keeps {A} (Q : event -> Prop) (m : M A) : Prop :=
  forall w, exists tr, trace (snd (m w)) = trace w ++ tr /\ Forall Q tr.

(** A back-off wait lasts two seconds. *)
Definition backoff_fixed (e : event) : Prop :=
  match e with
  | EvSleep RetryBackoff secs => secs = 2
  | _ => True
  end.

(** A message handed to the server carries no attachment. *)
Definition without_attachment (e : event) : Prop :=
  match e with
  | EvSmtp _ (OpSendMessage msg) => msg_attachment msg = None
  | _ => True
  end.



(** ** Sample data *)

Definition demo_config : Config :=
  {| smtp_cfg := {| server := "smtp.office365.com"; port := 587;
                    use_tls := Some true |};
     email_cfg := <["from_name" := "Equipo"]> (<["subject" := "Hola {{nombre}}"]> ∅);
     settings_cfg :=
       <["max_retries" := 3]> (<["delay_between_emails" := 1]>
         (<["retry_backoff_seconds" := 7]> ∅)) |}.

Definition demo_pdf : bytes := [Byte.x25; Byte.x50; Byte.x44; Byte.x46].

Definition demo_sender : Sender :=
  {| config := demo_config;
     email := "ventas@outlook.com";
     password := "secreto";
     email_template := "<p>Hola {{nombre}}</p><p>{{from_name}}</p>";
     generate_personalized_pdf := fun _ => Ok demo_pdf |}.

(** A server on which everything works. *)
Definition env_up : Env :=
  {| smtp := fun _ _ => None; now := fun _ => "2024-01-01 00:00:00" |}.

(** A world whose only dict object, at location 0, is [d]. *)
Definition world_with (d : Dict) : World :=
  set_heap (<[0%nat := d]> ∅) empty_world.




(** A record without a document title. *)
Definition ana_record : Dict :=
  [("email", VStr "ana@example.com"); ("nombre", VStr "Ana")].

(** The record of the specification's file-name example. *)
Definition joann_record : Dict :=
  [("email", VStr "jo@example.com"); ("nombre", VStr "Jo\Ann");
   ("nombre_pdf", VStr "Q1/Report:Final")].

(** A server that refuses the login during the first two calls of
    [send_email] and works afterwards, and one that always refuses it. *)
Definition refuse_login (op : smtp_op) : option exn :=
  match op with
  | OpLogin _ _ => Some (Exn SMTPException "Connection unexpectedly closed")
  | _ => None
  end.

Definition env_flaky : Env :=
  {| smtp := fun call op => if (call <? 2)%nat then refuse_login op else None;
     now := fun _ => "2024-01-01 00:00:00" |}.

Definition env_down : Env :=
  {| smtp := fun _ op => refuse_login op;
     now := fun _ => "2024-01-01 00:00:00" |}.

(** Rows of the recipients' table. *)
Definition row_ana : Row :=
  [("email", Val (VStr "ana@example.com")); ("nombre", Val (VStr "Ana"))].

Definition row_luis : Row :=
  [("email", Val (VStr "luis@example.com")); ("nombre", Val (VStr "Luis"))].

(** A recipient record has an 'email' and a 'nombre'. *)
Definition has_recipient (row : Row) : Prop :=
  (exists e, dict_get "email" (record_of row) = Some e)
  /\ (exists n, dict_get "nombre" (record_of row) = Some n).

(** The ledger rows of each status. *)
Definition successes (rs : list Result) : Z :=
  Z.of_nat (length (filter (fun r => r_status r = "Éxito") rs)).

Definition failures (rs : list Result) : Z :=
  Z.of_nat (length (filter (fun r => r_status r = "Error") rs)).

(** The table after [load_excel] dropped the sheet's first row (its
    address was invalid): the index labels are those of the sheet, 1 and
    2. And the same recipients when no row was dropped. *)
Definition df_gap : DataFrame := [(1, row_ana); (2, row_luis)].
Definition df_full : DataFrame := [(0, row_ana); (1, row_luis)].

(** A sender whose PDF generator always raises. *)
Definition sender_without_pdf : Sender :=
  {| config := demo_config;
     email := "ventas@outlook.com";
     password := "secreto";
     email_template := "<p>Hola {{nombre}}</p><p>{{from_name}}</p>";
     generate_personalized_pdf := fun _ => Raise (Exn Exception_ "no font") |}.

(** ** Regular expressions, as [re] matches them *)

Inductive regex :=
| Void
| Eps
| Class (cls : ascii -> bool)     (* [...] *)
| Cat (r1 r2 : regex)
| Alt (r1 r2 : regex)             (* r1|r2 *)
| Star (r : regex).               (* r* *)

(** [r+] and [r{n,}] *)
Definition plus (r : regex) : regex := Cat r (Star r).

Fixpoint at_least (n : nat) (r : regex) : regex :=
  match n with
  | O => Star r
  | S k => Cat r (at_least k r)
  end.

Fixpoint nullable (r : regex) : bool :=
  match r with
  | Void => false
  | Eps => true
  | Class _ => false
  | Cat r1 r2 => nullable r1 && nullable r2
  | Alt r1 r2 => nullable r1 || nullable r2
  | Star _ => true
  end.

(** What is left of [r] to match after reading [c]. *)
Fixpoint deriv (c : ascii) (r : regex) : regex :=
  match r with
  | Void => Void
  | Eps => Void
  | Class cls => if cls c then Eps else Void
  | Cat r1 r2 =>
      if nullable r1
      then Alt (Cat (deriv c r1) r2) (deriv c r2)
      else Cat (deriv c r1) r2
  | Alt r1 r2 => Alt (deriv c r1) (deriv c r2)
  | Star r1 => Cat (deriv c r1) (Star r1)
  end.

(** [r] matches the whole of [s]. *)
Fixpoint fullmatch (r : regex) (s : string) : bool :=
  match s with
  | EmptyString => nullable r
  | String c s' => fullmatch (deriv c r) s'
  end.

(** [s] without its final character when that is a line feed. *)
Fixpoint chop_newline (s : string) : option string :=
  match s with
  | EmptyString => None
  | String c EmptyString => if Ascii.eqb c "010" then Some EmptyString else None
  | String c s' => option_map (String c) (chop_newline s')
  end.

(** [re.match('^' r '$', s)]: the match starts at the beginning of [s];
    [$] holds at the end of [s] and also just before a line feed that ends
    [s]. *)
Definition re_match (r : regex) (s : string) : bool :=
  fullmatch r s
  || match chop_newline s with
     | Some s' => fullmatch r s'
     | None => false
     end.

(** The strings of a regular expression. *)
Inductive lang : regex -> string -> Prop :=
| lang_eps : lang Eps ""
| lang_class cls c : cls c = true -> lang (Class cls) (String c "")
| lang_cat r1 r2 s1 s2 :
    lang r1 s1 -> lang r2 s2 -> lang (Cat r1 r2) (s1 +:+ s2)
| lang_alt_l r1 r2 s : lang r1 s -> lang (Alt r1 r2) s
| lang_alt_r r1 r2 s : lang r2 s -> lang (Alt r1 r2) s
| lang_star_nil r : lang (Star r) ""
| lang_star_cons r s1 s2 :
    lang r s1 -> lang (Star r) s2 -> lang (Star r) (s1 +:+ s2).

(** ** Loading the recipients *)

Definition in_range (lo hi c : ascii) : bool := Ascii.leb lo c && Ascii.leb c hi.

Definition is_letter (c : ascii) : bool :=
  in_range "a" "z" c || in_range "A" "Z" c.

Definition is_digit (c : ascii) : bool := in_range "0" "9" c.

(** [[a-zA-Z0-9._%+\-]] *)
Definition local_char (c : ascii) : bool :=
  is_letter c || is_digit c || Ascii.eqb c "." || Ascii.eqb c "_"
  || Ascii.eqb c "%" || Ascii.eqb c "+" || Ascii.eqb c "-".

(** [[a-zA-Z0-9.\-]] *)
Definition domain_char (c : ascii) : bool :=
  is_letter c || is_digit c || Ascii.eqb c "." || Ascii.eqb c "-".

(** [[a-zA-Z0-9._%+\-]+@[a-zA-Z0-9.\-]+\.[a-zA-Z]{2,}], the pattern of
    [load_excel] between its [^] and [$]. *)
Definition email_pattern : regex :=
  Cat (plus (Class local_char))
    (Cat (Class (Ascii.eqb "@"))
       (Cat (plus (Class domain_char))
          (Cat (Class (Ascii.eqb "."))
             (at_least 2 (Class is_letter))))).

(** The table [pd.read_excel] returns: column labels, and the rows with
    their index labels. *)
Record Table := { columns : list string; body : DataFrame }.

(** [df[name]]: the cells of a column. *)
Definition cell_at (name : string) (row : Row) : cell :=
  default NaN (dict_get name row).

Definition column (name : string) (rows : DataFrame) : list cell :=
  map (fun ir => cell_at name (snd ir)) rows.

Definition is_text (c : cell) : bool :=
  match c with
  | Val (VStr _) => true
  | _ => false
  end.

(** Whether pandas gives the column the [object] dtype, on which [.str]
    works: an empty column, or one with text in it. A column of numbers
    and missing values only is numeric. *)
Definition object_dtype (col : list cell) : bool :=
  match col with
  | [] => true
  | _ => existsb is_text col
  end.

(** [series.str.match(pattern, na=False)] on one cell: a cell that is not
    text gives a missing value, which [na=False] turns into [False]. *)
Definition str_match (r : regex) (c : cell) : bool :=
  match c with
  | Val (VStr s) => re_match r s
  | _ => false
  end.

Definition no_str_accessor : exn :=
  Exn AttributeError "Can only use .str accessor with string values!".

(** [df['email'].str.match(email_pattern, na=False)] *)
Definition match_emails (rows : DataFrame) : Exc (list bool) :=
  if object_dtype (column "email" rows)
  then Ok (map (str_match email_pattern) (column "email" rows))
  else Raise no_str_accessor.

(** [df[mask]]: the rows whose mask is true, with their index labels. *)
Fixpoint select (rows : DataFrame) (mask : list bool) : DataFrame :=
  match rows, mask with
  | ir :: rows', b :: mask' =>
      if b then ir :: select rows' mask' else select rows' mask'
  | _, _ => []
  end.

(** [repr] of a list of plain names, such as ['email', 'nombre']. *)
Fixpoint join_names (names : list string) : string :=
  match names with
  | [] => ""
  | [x] => "'" +:+ x +:+ "'"
  | x :: rest => "'" +:+ x +:+ "', " +:+ join_names rest
  end.

Definition repr_names (names : list string) : string :=
  "[" +:+ join_names names +:+ "]".

(** What [pd.read_excel] does with a path. *)
Inductive read_result :=
| ReadOk (t : Table)
| ReadNotFound (e : exn)      (* FileNotFoundError *)
| ReadFailed (e : exn).       (* any other exception *)

(** What [load_excel] needs from outside: the ['files'] section of the
    configuration, the spreadsheet reader, and the text [repr] gives to a
    list of cells. *)
Record Host := {
  files_cfg : gmap string string;
  read_excel : string -> read_result;
  repr_cells : list cell -> string
}.

(** [EmailSender.load_excel] *)
Definition load_excel (host : Host) (excel_path : option string) : M Table :=
  let! excel_path :=
    match excel_path with
    | None => config_get (files_cfg host) "excel_path"
    | Some p => ret p
    end in
  log INFO ("Cargando Excel: " +:+ excel_path) ;!
  let! df :=
    match read_excel host excel_path with
    | ReadOk t => ret t
    | ReadNotFound e =>
        log ERROR ("Archivo Excel no encontrado: " +:+ excel_path) ;! raise e
    | ReadFailed e =>
        log ERROR ("Error al leer Excel: " +:+ exn_str e) ;! raise e
    end in
  let required_columns := ["email"; "nombre"] in
  let missing_columns :=
    List.filter (fun col => negb (existsb (String.eqb col) (columns df)))
      required_columns in
  match missing_columns with
  | _ :: _ =>
      raise (Exn ValueError ("❌ Columnas faltantes en Excel: "
                             +:+ repr_names missing_columns))
  | [] =>
      let! mask := lift (match_emails (body df)) in
      let invalid_emails := select (body df) (map negb mask) in
      let! df :=
        match invalid_emails with
        | _ :: _ =>
            log WARNING ("Emails inválidos encontrados: "
                         +:+ repr_cells host (column "email" invalid_emails)) ;!
            let! mask := lift (match_emails (body df)) in
            ret {| columns := columns df; body := select (body df) mask |}
        | [] => ret df
        end in
      log INFO ("✅ Excel cargado: " +:+ str (VInt (Z.of_nat (length (body df))))
                +:+ " destinatarios válidos") ;!
      ret df
  end.

(** local@domain.tld: a non-empty local part, a non-empty domain and a
    final label of at least two letters. *)
Definition address_shape (s : string) : Prop :=
  exists L D T,
    s = L +:+ "@" +:+ D +:+ "." +:+ T
    /\ L <> "" /\ all_chars local_char L = true
    /\ D <> "" /\ all_chars domain_char D = true
    /\ (2 <= String.length T)%nat /\ all_chars is_letter T = true.

Fixpoint count_char (a : ascii) (s : string) : nat :=
  match s with
  | EmptyString => O
  | String c s' => ((if Ascii.eqb c a then 1 else 0) + count_char a s')%nat
  end.

(** The row's address passes the check of [load_excel]. *)
Definition valid_row (ir : Z * Row) : bool :=
  str_match email_pattern (cell_at "email" (snd ir)).

(** Every row of the table has the table's columns. *)
Definition table_ok (t : Table) : Prop :=
  Forall (fun ir => keys (snd ir) = columns t) (body t).

(** A sheet of three rows, the first with an invalid address. *)
Definition row_bad : Row :=
  [("email", Val (VStr "not-an-email")); ("nombre", Val (VStr "Eva"))].

Definition sheet : Table :=
  {| columns := ["email"; "nombre"];
     body := [(0, row_bad); (1, row_ana); (2, row_luis)] |}.

Definition sheet_without_names : Table :=
  {| columns := ["email"]; body := [(0, [("email", Val (VStr "ana@example.com"))])] |}.

Definition host_of (t : Table) : Host :=
  {| files_cfg := <["excel_path" := "destinatarios.xlsx"]> ∅;
     read_excel := fun _ => ReadOk t;
     repr_cells := fun _ => "[...]" |}.

(** The path [load_excel] reads: its argument, or the configured one. *)
Definition excel_path_of (host : Host) (excel_path : option string)
  : option string :=
  match excel_path with
  | Some p => Some p
  | None => files_cfg host !! "excel_path"
  end.

(** The log lines of a successful [load_excel]: the announcement, the
    warning when rows are dropped, the count. *)
Definition load_lines (host : Host) (p : string) (t : Table) : list event :=
  [EvLog INFO ("Cargando Excel: " +:+ p)]
  ++ match List.filter (fun ir => negb (valid_row ir)) (body t) with
     | [] => []
     | dropped =>
         [EvLog WARNING ("Emails inválidos encontrados: "
                         +:+ repr_cells host (column "email" dropped))]
     end
  ++ [EvLog INFO ("✅ Excel cargado: "
                  +:+ str (VInt (Z.of_nat
                        (length (List.filter valid_row (body t)))))
                  +:+ " destinatarios válidos")].

(** [v if pd.notna(v) else ''] *)
Definition blank_if_missing (c : cell) : value :=
  match c with
  | Val v => v
  | NaN => VStr ""
  end.

(** The required columns that a table lacks, as [load_excel] lists them. *)
Definition missing_required (t : Table) : list string :=
  List.filter (fun col => negb (existsb (String.eqb col) (columns t)))
    ["email"; "nombre"].

(** ** The preview of [main] *)

(** [test_data] of the [--preview] branch. *)
Definition test_data (address : string) : Dict :=
  [("email", VStr address);
   ("nombre", VStr "Usuario de Prueba");
   ("empresa", VStr "Empresa de Prueba");
   ("ciudad", VStr "Ciudad de Prueba");
   ("mensaje_personalizado", VStr "Este es un email de prueba del sistema.");
   ("nombre_pdf", VStr "Documento de Prueba")].

(** The [if args.preview:] branch of [main], lines 411-445, for the address
    given on the command line. *)
Definition main_preview (self : Sender) (env : Env) (address : string)
  : M (bool * option string) :=
  let! test_data := new_dict (test_data address) in
  let! d := dict_items test_data in
  let! pdf_data := lift (generate_personalized_pdf self d) in
  let! html_body := _render_template self (email_template self) test_data in
  let! subject_template := config_get (email_cfg (config self)) "subject" in
  let! subject := _render_template self subject_template test_data in
  send_email self env (VStr address) subject html_body (Some pdf_data)
    "prueba.pdf".

(** ** More vocabulary *)

(** Whatever happens, [m] makes at most [n] calls of [send_email]. *)
Definition spends {A} (n : nat) (m : M A) : Prop :=
  forall w, (calls w <= calls (snd (m w)) <= calls w + n)%nat.

(** The message a call of [send_email] assembles. *)
Definition message_of (self : Sender) (from_name : string) (to_email : value)
    (subject html_body : string) (pdf_data : option bytes)
    (pdf_filename : string) : Message :=
  {| msg_from := from_name +:+ " <" +:+ email self +:+ ">";
     msg_to := to_email;
     msg_subject := subject;
     msg_html := html_body;
     msg_attachment := attachment_of pdf_data pdf_filename |}.

(** The operations of a session, in the order [send_email] performs
    them. *)
Definition session (self : Sender) (msg : Message) : list smtp_op :=
  [OpConnect (server (smtp_cfg (config self))) (port (smtp_cfg (config self)))]
  ++ (if default true (use_tls (smtp_cfg (config self)))
      then [OpStartTLS] else [])
  ++ [OpLogin (email self) (password self); OpSendMessage msg; OpQuit].

(** The operations reached when each one may fail: all up to the first
    that raises, that one included. *)
Fixpoint attempted (server : smtp_op -> option exn) (ops : list smtp_op)
  : list smtp_op :=
  match ops with
  | [] => []
  | op :: rest =>
      op :: match server op with
            | None => attempted server rest
            | Some _ => []
            end
  end.

(** The calls of [send_email] a trace shows, through their operations. *)
Definition smtp_ops (t : list event) : list smtp_op :=
  omap (fun e => match e with EvSmtp _ op => Some op | _ => None end) t.

(** More sample data. *)
Definition row_without_name : Row :=
  [("email", Val (VStr "ana@example.com"))].

Definition row_without_email : Row :=
  [("nombre", Val (VStr "Ana"))].

Definition config_with (retries delay : Z) : Config :=
  {| smtp_cfg := {| server := "smtp.office365.com"; port := 587;
                    use_tls := Some true |};
     email_cfg := <["from_name" := "Equipo"]> (<["subject" := "Hola {{nombre}}"]> ∅);
     settings_cfg :=
       <["max_retries" := retries]> (<["delay_between_emails" := delay]> ∅) |}.

Definition sender_with (retries delay : Z) : Sender :=
  {| config := config_with retries delay;
     email := "ventas@outlook.com";
     password := "secreto";
     email_template := "<p>Hola {{nombre}}</p><p>{{from_name}}</p>";
     generate_personalized_pdf := fun _ => Ok demo_pdf |}.

(** The configured number of attempts per recipient (none when the
    setting is missing or not positive). *)
Definition retries (self : Sender) : nat :=
  Z.to_nat (default 0 (settings_cfg (config self) !! "max_retries")).


(** A record whose document title is a number, as a numeric spreadsheet
    cell gives. *)
Definition numbered_record : Dict :=
  [("email", VStr "ana@example.com"); ("nombre", VStr "Ana");
   ("nombre_pdf", VInt 2024)].

(** No character of a file name is a path or drive separator. *)
Definition path_free (name : string) : bool :=
  all_chars (fun c => negb (is_path_char c)) name.

(** What is left of the loop body once the attempts of a row are over:
    lines 321-339. *)
Definition after_delivery (self : Sender) (env : Env) (total idx : Z)
    (data : loc) (sent : bool * option string) (sc fc : Z) : M (Z * Z) :=
  let! counts := record_result env data (fst sent) (snd sent) sc fc in
  (if idx <? total - 1
   then
     let! delay := config_get (settings_cfg (config self)) "delay_between_emails" in
     sleep InterRecipient delay
   else ret tt) ;!
  ret counts.

(** The rows a run processes. *)
Definition processed (df : DataFrame) (preview_mode : bool) : DataFrame :=
  if preview_mode then take 1 df else df.

(** A ledger row of a recipient for whom no attempt was made. *)
Definition never_attempted (r : Result) : Prop :=
  r_status r = "Error" /\ r_error r = None.
(** ** Python strings: facts about [replace] *)

Section StringFacts.

Lemma append_cons (c : ascii) (a b : string) :
  String c a +:+ b = String c (a +:+ b).
Proof. reflexivity. Qed.

Lemma append_nil_l (a : string) : "" +:+ a = a.
Proof. reflexivity. Qed.

Lemma append_assoc (a b c : string) : (a +:+ b) +:+ c = a +:+ (b +:+ c).
Proof.
  induction a as [|x a IH]; [reflexivity |].
  now rewrite !append_cons, IH.
Qed.



Example replace_every_occurrence :
  replace "{{x}}" "1" "{{x}}+{{x}}={{y}}" = "1+1={{y}}".
Proof. reflexivity. Qed.

Example replace_leftmost_first : replace "aa" "b" "aaaaa" = "bba".
Proof. reflexivity. Qed.

Example replace_empty_pattern : replace "" "-" "abc" = "-a-b-c-".
Proof. reflexivity. Qed.






(** Replacing one character by one character is a character map. *)
Lemma replace_char (a b : ascii) (s : string) :
  replace (String a "") (String b "") s
  = map_chars (fun c => if Ascii.eqb c a then b else c) s.
Proof.
  unfold replace. induction s as [|c s IH]; [reflexivity |].
  cbn [replace_scan map_chars startswith String.length].
  rewrite (Ascii.eqb_sym c a).
  destruct (Ascii.eqb a c); cbn [Nat.sub]; rewrite IH; reflexivity.
Qed.

Lemma map_chars_compose (f g : ascii -> ascii) (s : string) :
  map_chars f (map_chars g s) = map_chars (fun c => f (g c)) s.
Proof. induction s as [|c s IH]; simpl; [reflexivity | now rewrite IH]. Qed.

Lemma map_chars_ext (f g : ascii -> ascii) (s : string) :
  (forall c, f c = g c) -> map_chars f s = map_chars g s.
Proof.
  intros H. induction s as [|c s IH]; simpl; [reflexivity |].
  now rewrite H, IH.
Qed.

Lemma all_chars_map (P : ascii -> bool) (f : ascii -> ascii) (s : string) :
  (forall c, P (f c) = true) -> all_chars P (map_chars f s) = true.
Proof.
  intros H. induction s as [|c s IH]; simpl; [reflexivity |].
  now rewrite H, IH.
Qed.

Lemma all_chars_append (P : ascii -> bool) (a b : string) :
  all_chars P (a +:+ b) = all_chars P a && all_chars P b.
Proof.
  induction a as [|c a IH]; [reflexivity |].
  rewrite append_cons. simpl. now rewrite IH, andb_assoc.
Qed.


Lemma brace_free_append (a b : string) :
  brace_free (a +:+ b) = brace_free a && brace_free b.
Proof. apply all_chars_append. Qed.







End StringFacts.

(** ** Dicts *)

Section DictFacts.

Context {V : Type}.
Implicit Types (d : dict V) (k : string) (v : V).

Lemma dict_get_set d k k0 v :
  dict_get k (dict_set k0 v d)
  = if String.eqb k k0 then Some v else dict_get k d.
Proof.
  induction d as [|[k1 v1] d IH]; simpl.
  - destruct (String.eqb k k0); reflexivity.
  - destruct (String.eqb_spec k0 k1) as [->|Hne]; simpl.
    + destruct (String.eqb k k1); reflexivity.
    + rewrite IH. destruct (String.eqb_spec k k1) as [->|]; [|reflexivity].
      destruct (String.eqb_spec k1 k0); [congruence | reflexivity].
Qed.

Lemma dict_get_set_same d k v : dict_get k (dict_set k v d) = Some v.
Proof. now rewrite dict_get_set, String.eqb_refl. Qed.

Lemma dict_get_set_other d k k0 v :
  k <> k0 -> dict_get k (dict_set k0 v d) = dict_get k d.
Proof.
  intros H. rewrite dict_get_set.
  destruct (String.eqb_spec k k0); [congruence | reflexivity].
Qed.

Lemma dict_get_In d k v : dict_get k d = Some v -> In (k, v) d.
Proof.
  induction d as [|[k1 v1] d IH]; simpl; [discriminate |].
  destruct (String.eqb_spec k k1) as [->|Hne]; intros H.
  - left. congruence.
  - right. now apply IH.
Qed.



End DictFacts.

(** ** Rendering *)

Section RenderFacts.









Context (self : Sender).

Lemma deref_set_heap (l : loc) (d : Dict) (w : World) :
  deref l (set_heap (<[l := d]> (heap w)) w) = d.
Proof. unfold deref. cbn [heap set_heap]. now rewrite lookup_insert_eq. Qed.

Lemma deref_set_heap_other (l l' : loc) (d : Dict) (w : World) :
  l' <> l -> deref l' (set_heap (<[l := d]> (heap w)) w) = deref l' w.
Proof.
  intros H. unfold deref. cbn [heap set_heap].
  now rewrite lookup_insert_ne.
Qed.

(** What one call of [_render_template] does. *)
Lemma render_run (F tpl : string) (l : loc) (w : World) :
  email_cfg (config self) !! "from_name" = Some F ->
  _render_template self tpl l w
  = (Ok (substitute (dict_set "from_name" (VStr F) (deref l w)) tpl),
     set_heap (<[l := dict_set "from_name" (VStr F) (deref l w)]> (heap w)) w).
Proof.
  intros H. unfold _render_template, bind, config_get, dict_setitem,
    dict_items, ret.
  rewrite H. now rewrite deref_set_heap.
Qed.

End RenderFacts.

(** ** The renderer's contract *)







(** C10. [_render_template] assigns into the mapping it is given: after the
    call the caller's dict binds 'from_name' to the configured sender name,
    whatever it held before; its other keys, and other dicts, are as they
    were; and the next rendering of the same dict (the subject, after the
    body) reads the dict as the first call left it. *)
Theorem render_sets_from_name (self : Sender) (F : string) (tpl : string)
    (l : loc) (w : World) :
  email_cfg (config self) !! "from_name" = Some F ->
  exists rendered w',
    _render_template self tpl l w = (Ok rendered, w')
    /\ dict_get "from_name" (deref l w') = Some (VStr F)
    /\ (forall k, k <> "from_name" ->
          dict_get k (deref l w') = dict_get k (deref l w))
    /\ (forall l', l' <> l -> deref l' w' = deref l' w)
    /\ (forall tpl2,
          exists w'', _render_template self tpl2 l w'
                      = (Ok (substitute (deref l w') tpl2), w'')
                      /\ deref l w'' = deref l w').
Proof.
  intros HF. rewrite (render_run self F) by exact HF.
  eexists _, _. split; [reflexivity |].
  rewrite deref_set_heap. repeat split.
  - apply dict_get_set_same.
  - intros k Hk. now apply dict_get_set_other.
  - intros l' Hl'. now apply deref_set_heap_other.
  - intros tpl2. rewrite (render_run self F) by exact HF.
    eexists. rewrite !deref_set_heap.
    assert (Hidem : dict_set "from_name" (VStr F)
                      (dict_set "from_name" (VStr F) (deref l w))
                    = dict_set "from_name" (VStr F) (deref l w)).
    { generalize (deref l w). intros d.
      induction d as [|[k v] d IH]; [reflexivity |].
      cbn [dict_set]. destruct (String.eqb_spec "from_name" k) as [<-|Hne].
      - cbn [dict_set]. now rewrite String.eqb_refl.
      - cbn [dict_set]. destruct (String.eqb_spec "from_name" k); [congruence |].
        now rewrite IH. }
    rewrite Hidem. split; reflexivity.
Qed.

Lemma render_sets_from_name_witness :
  exists rendered w',
    _render_template demo_sender "De: {{from_name}}" 0%nat
      (world_with [("from_name", VStr "Otro"); ("nombre", VStr "Ana")])
    = (Ok rendered, w')
    /\ dict_get "from_name" (deref 0%nat w') = Some (VStr "Equipo").
Proof.
  destruct (render_sets_from_name demo_sender "Equipo" "De: {{from_name}}" 0%nat
              (world_with [("from_name", VStr "Otro"); ("nombre", VStr "Ana")])
              eq_refl)
    as (rendered & w' & Hrun & Hfrom & _).
  exists rendered, w'. split; assumption.
Defined.

(** ** One send attempt *)

Section SendFacts.

Context (self : Sender) (env : Env).

Lemma isinstance_root (e : exn) : isinstance e Exception_ = true.
Proof. reflexivity. Qed.

(** The [except] clauses map every exception to an outcome. *)
Lemma send_email_except_run (to_email : value) (e : exn) (w : World) :
  send_email_except to_email e w
  = (Ok (false, Some (detail_of (classify (exn_class_of e)) e)),
     emit (EvLog ERROR ("❌ " +:+ detail_of (classify (exn_class_of e)) e
                        +:+ " - " +:+ str to_email)) w).
Proof. destruct e as [[] msg]; reflexivity. Qed.

(** When the [try] block completes it returns [(True, None)]. *)
Lemma send_email_try_ok (call : nat) (to_email : value)
    (subject html_body : string) (pdf_data : option bytes)
    (pdf_filename : string) (w w' : World) (r : bool * option string) :
  send_email_try self env call to_email subject html_body pdf_data
    pdf_filename w = (Ok r, w') ->
  r = (true, None).
Proof.
  unfold send_email_try, bind, config_get, smtp_do, log, ret.
  destruct (email_cfg (config self) !! "from_name") as [F|]; [|discriminate].
  repeat match goal with
  | |- context [match smtp env ?n ?op with _ => _ end] =>
      destruct (smtp env n op) as [?e|]
  | |- context [default true ?x] => destruct (default true x)
  end; intros H; inversion H; reflexivity.
Qed.

(** What a call of [send_email] does: it returns, its outcome is that of
    the call's number, and it touches the call counter and the trace
    only, without any wait. *)
Lemma send_email_run (to_email : value) (subject html_body : string)
    (pdf_data : option bytes) (pdf_filename : string) (w : World) :
  exists tr,
    send_email self env to_email subject html_body pdf_data pdf_filename w
    = (Ok (attempt_result self env (calls w) to_email subject html_body
             pdf_data pdf_filename),
       {| heap := heap w; calls := S (calls w); trace := trace w ++ tr;
          results := results w |})
    /\ forallb no_sleep tr = true
    /\ (forall m, In m (sent_messages tr) ->
          msg_attachment m = attachment_of pdf_data pdf_filename).
Proof.
  unfold attempt_result, send_email, try_except, bind, enter_send_email.
  cbn [calls set_calls empty_world].
  unfold send_email_try, send_email_except, bind, config_get, smtp_do, log,
    ret, raise, emit.
  cbn [calls set_calls empty_world heap trace results fst snd].
  destruct (email_cfg (config self) !! "from_name") as [F|].
  2:{ cbn. eexists. split; [reflexivity |]. split; [reflexivity |].
      intros m []. }
  repeat match goal with
  | |- context [match smtp env ?n ?op with _ => _ end] =>
      destruct (smtp env n op) as [?e|]
  | |- context [default true ?x] => destruct (default true x)
  end;
  repeat match goal with
  | |- context [isinstance ?e Exception_] => rewrite (isinstance_root e)
  | |- context [isinstance ?e ?c] => destruct (isinstance e c)
  end;
  cbn [calls set_calls empty_world heap trace results fst snd];
  (eexists; split;
   [rewrite <- ?app_assoc; cbn [app]; reflexivity
   | split;
     [reflexivity
     | cbn; intros m Hm;
       repeat (destruct Hm as [<-|Hm]; [reflexivity |]); destruct Hm]]).
Qed.

End SendFacts.

(** C8. A call of [send_email] never raises. If its [try] block completes,
    the outcome is success with no error; if the block raises, the outcome
    is a failure whose detail string names the class of the failure and the
    exception's text: an authentication error, another SMTP error, or
    anything else. *)
Theorem send_email_never_raises (self : Sender) (env : Env)
    (to_email : value) (subject html_body : string)
    (pdf_data : option bytes) (pdf_filename : string) (w : World) :
  match fst (send_email_try self env (calls w) to_email subject html_body
               pdf_data pdf_filename (set_calls (S (calls w)) w)) with
  | Ok _ =>
      fst (send_email self env to_email subject html_body pdf_data
             pdf_filename w) = Ok (true, None)
  | Raise e =>
      fst (send_email self env to_email subject html_body pdf_data
             pdf_filename w)
      = Ok (false, Some (detail_of (classify (exn_class_of e)) e))
  end.
Proof.
  unfold send_email, try_except, bind, enter_send_email.
  destruct (send_email_try self env (calls w) to_email subject html_body
              pdf_data pdf_filename (set_calls (S (calls w)) w))
    as [[r|e] w1] eqn:Htry; cbn [fst].
  - apply send_email_try_ok in Htry. now subst r.
  - rewrite send_email_except_run. reflexivity.
Qed.

(** ** The attachment *)

Section AttachmentFacts.

Context (self : Sender).

Lemma world_eta (w : World) :
  {| heap := heap w; calls := calls w; trace := trace w ++ [];
     results := results w |} = w.
Proof. destruct w. cbn. now rewrite app_nil_r. Qed.

Lemma clean_title_replace (t : string) :
  replace ":" "_" (replace "\" "_" (replace "/" "_" t))
  = map_chars clean_title_char t.
Proof.
  rewrite !replace_char, !map_chars_compose. apply map_chars_ext.
  intros c. unfold clean_title_char.
  destruct (Ascii.eqb_spec c "/") as [->|]; [reflexivity |].
  destruct (Ascii.eqb_spec c "\") as [->|]; [reflexivity |].
  destruct (Ascii.eqb_spec c ":") as [->|]; reflexivity.
Qed.

Lemma clean_name_replace (n : string) :
  replace ":" "_" (replace "\" "_" (replace "/" "_" (replace " " "_" n)))
  = map_chars clean_name_char n.
Proof.
  rewrite !replace_char, !map_chars_compose. apply map_chars_ext.
  intros c. unfold clean_name_char, clean_title_char.
  destruct (Ascii.eqb_spec c " ") as [->|]; [reflexivity |].
  destruct (Ascii.eqb_spec c "/") as [->|]; [reflexivity |].
  destruct (Ascii.eqb_spec c "\") as [->|]; [reflexivity |].
  destruct (Ascii.eqb_spec c ":") as [->|]; reflexivity.
Qed.

Lemma clean_title_no_path_char (c : ascii) :
  negb (is_path_char (clean_title_char c)) = true.
Proof.
  unfold clean_title_char, is_path_char.
  destruct (Ascii.eqb c "/") eqn:E1; [reflexivity |].
  destruct (Ascii.eqb c "\") eqn:E2; [reflexivity |].
  destruct (Ascii.eqb c ":") eqn:E3; [reflexivity |].
  cbn [orb]. now rewrite E1, E2, E3.
Qed.

Lemma clean_name_no_path_char (c : ascii) :
  negb (is_path_char (clean_name_char c)) = true.
Proof.
  unfold clean_name_char.
  destruct (Ascii.eqb c " "); [reflexivity |].
  apply clean_title_no_path_char.
Qed.

(** The PDF step when everything in it works. *)
Lemma make_attachment_made (data : loc) (w : World) (pdf : bytes)
    (n : string) :
  generate_personalized_pdf self (deref data w) = Ok pdf ->
  dict_get "nombre" (deref data w) = Some (VStr n) ->
  (forall z, dict_get "nombre_pdf" (deref data w) <> Some (VInt z)) ->
  make_attachment self data w
  = (Ok (Some pdf,
         map_chars clean_title_char
           (str (default (VStr "documento")
                   (dict_get "nombre_pdf" (deref data w))))
         +:+ "_" +:+ map_chars clean_name_char n +:+ ".pdf"),
     w).
Proof.
  intros Hgen Hn Ht.
  unfold make_attachment, try_except, bind, dict_items, lift,
    dict_get_default, dict_getitem, ret.
  rewrite Hgen, Hn.
  destruct (dict_get "nombre_pdf" (deref data w)) as [[t|z]|] eqn:E;
    cbn [default from_option id value_replace str].
  - now rewrite clean_title_replace, clean_name_replace.
  - exfalso. now apply (Ht z).
  - now rewrite clean_title_replace, clean_name_replace.
Qed.

(** The PDF step when the generator raises. *)
Lemma make_attachment_failed (data : loc) (w : World) (e : exn)
    (to : value) :
  generate_personalized_pdf self (deref data w) = Raise e ->
  dict_get "email" (deref data w) = Some to ->
  make_attachment self data w
  = (Ok (None, "documento.pdf"),
     emit (EvLog ERROR ("Error generando PDF para " +:+ str to +:+ ": "
                        +:+ exn_str e)) w).
Proof.
  intros Hgen Hto.
  unfold make_attachment, try_except, bind, dict_items, lift,
    dict_getitem, log, ret.
  rewrite Hgen, isinstance_root, Hto. reflexivity.
Qed.

(** In every case the step returns, having at most logged a line. *)
Lemma make_attachment_run (data : loc) (w : World) (to : value) :
  dict_get "email" (deref data w) = Some to ->
  exists r tr,
    make_attachment self data w
    = (Ok r, {| heap := heap w; calls := calls w; trace := trace w ++ tr;
                results := results w |})
    /\ forallb no_sleep tr = true
    /\ sent_messages tr = []
    /\ (forall e, generate_personalized_pdf self (deref data w) = Raise e ->
        r = (None, "documento.pdf")).
Proof.
  intros Hto.
  unfold make_attachment, try_except, bind, dict_items, lift,
    dict_get_default, dict_getitem, log, ret, raise, emit.
  destruct (generate_personalized_pdf self (deref data w)) as [pdf|e].
  2:{ rewrite isinstance_root, Hto. eexists _, _. split; [reflexivity |].
      repeat split. }
  destruct (default (VStr "documento") (dict_get "nombre_pdf" (deref data w)))
    as [t|z]; cbn [value_replace].
  2:{ rewrite isinstance_root, Hto. eexists _, _. split; [reflexivity |].
      repeat split. }
  destruct (dict_get "nombre" (deref data w)) as [[n|z]|];
    cbn [value_replace]; rewrite ?isinstance_root, ?Hto;
    eexists _, _;
    (split; [try reflexivity; rewrite world_eta; reflexivity |]);
    repeat split; try (intros; discriminate).
Qed.

End AttachmentFacts.

Example filename_of_specification_example :
  fst (make_attachment demo_sender 0%nat (world_with joann_record))
  = Ok (Some demo_pdf, "Q1_Report_Final_Jo_Ann.pdf").
Proof. reflexivity. Qed.

(** C5, as stated, fails: for a record without document title the file name
    is "documento_Ana.pdf", not "documento.pdf". *)
Lemma filename_without_title :
  dict_get "nombre_pdf" ana_record = None
  /\ fst (make_attachment demo_sender 0%nat (world_with ana_record))
     = Ok (Some demo_pdf, "documento_Ana.pdf")
  /\ "documento_Ana.pdf" <> "documento.pdf".
Proof. repeat split. discriminate. Qed.

(** C5, amended. When the PDF is generated, the file name is
    title_name.pdf: the title is the record's 'nombre_pdf', or "documento"
    when the record has none, with '/', '\' and ':' replaced by '_'; the
    name is the record's 'nombre' with ' ', '/', '\' and ':' replaced by
    '_'; neither part keeps a '/', '\' or ':'. *)
Theorem attachment_filename (self : Sender) (data : loc) (w : World)
    (pdf : bytes) (n : string) :
  generate_personalized_pdf self (deref data w) = Ok pdf ->
  dict_get "nombre" (deref data w) = Some (VStr n) ->
  (forall z, dict_get "nombre_pdf" (deref data w) <> Some (VInt z)) ->
  let title :=
    str (default (VStr "documento") (dict_get "nombre_pdf" (deref data w))) in
  make_attachment self data w
  = (Ok (Some pdf,
         map_chars clean_title_char title +:+ "_"
         +:+ map_chars clean_name_char n +:+ ".pdf"), w)
  /\ all_chars (fun c => negb (is_path_char c))
       (map_chars clean_title_char title) = true
  /\ all_chars (fun c => negb (is_path_char c))
       (map_chars clean_name_char n) = true.
Proof.
  intros Hgen Hn Ht title. split; [now apply make_attachment_made |].
  split; apply all_chars_map.
  - apply clean_title_no_path_char.
  - apply clean_name_no_path_char.
Qed.

Lemma attachment_filename_witness :
  make_attachment demo_sender 0%nat (world_with joann_record)
  = (Ok (Some demo_pdf, "Q1_Report_Final_Jo_Ann.pdf"), world_with joann_record).
Proof.
  apply (attachment_filename demo_sender 0%nat (world_with joann_record)
           demo_pdf "Jo\Ann").
  - reflexivity.
  - reflexivity.
  - intros z. vm_compute. discriminate.
Defined.

(** ** Traces *)

Section TraceFacts.

Lemma waits_app (site : sleep_site) (t1 t2 : list event) :
  waits site (t1 ++ t2) = (waits site t1 + waits site t2)%nat.
Proof. unfold waits. now rewrite filter_app, length_app. Qed.

Lemma waits_no_sleep (site : sleep_site) (t : list event) :
  forallb no_sleep t = true -> waits site t = 0%nat.
Proof.
  unfold waits. induction t as [|e t IH]; [reflexivity |].
  cbn [forallb]. intros H. apply andb_prop in H as [He Ht].
  rewrite filter_cons. destruct e; try discriminate;
    destruct site; cbn; now apply IH.
Qed.

Lemma waits_backoff_one (secs : Z) :
  waits RetryBackoff [EvSleep RetryBackoff secs] = 1%nat.
Proof. reflexivity. Qed.

Lemma extends_refl (w : World) : extends w w 0 [].
Proof.
  unfold extends. rewrite app_nil_r, Nat.add_0_r. repeat split; reflexivity.
Qed.

Lemma extends_trans (w w1 w2 : World) (j1 j2 : nat) (t1 t2 : list event) :
  extends w w1 j1 t1 -> extends w1 w2 j2 t2 ->
  extends w w2 (j1 + j2) (t1 ++ t2).
Proof.
  intros (Hh1 & Hc1 & Ht1 & Hr1) (Hh2 & Hc2 & Ht2 & Hr2).
  unfold extends. rewrite Hh2, Hc2, Ht2, Hr2, Hh1, Hc1, Ht1, Hr1.
  rewrite app_assoc. repeat split; try reflexivity. lia.
Qed.

Lemma extends_emit (w : World) (e : event) : extends w (emit e w) 0 [e].
Proof.
  unfold extends. cbn. rewrite Nat.add_0_r. repeat split; reflexivity.
Qed.

Lemma deref_heap (l : loc) (w w' : World) :
  heap w' = heap w -> deref l w' = deref l w.
Proof. unfold deref. now intros ->. Qed.

End TraceFacts.

(** ** The attempts of one recipient *)

Section RetryFacts.

Context (self : Sender) (env : Env).
Context (m : Z) (data : loc) (subject html_body : string)
        (pdf_data : option bytes) (pdf_filename : string) (to : value).

Local Abbreviation loop := (fun attempts =>
  attempt_loop self env attempts m data subject html_body pdf_data
    pdf_filename).
Local Abbreviation outcome := (fun call =>
  attempt_result self env call to subject html_body pdf_data pdf_filename).

(** One turn of the loop. *)
Lemma attempt_loop_cons (a : Z) (rest : list Z) (succ : bool)
    (err : option string) (w : World) :
  dict_get "email" (deref data w) = Some to ->
  exists w1 tr,
    extends w w1 1 tr /\ forallb no_sleep tr = true
    /\ loop (a :: rest) succ err w
       = if fst (outcome (calls w)) then (Ok (outcome (calls w)), w1)
         else loop rest (fst (outcome (calls w))) (snd (outcome (calls w)))
                (if a <? m - 1 then emit (EvSleep RetryBackoff 2) w1 else w1).
Proof.
  intros Hto.
  destruct (send_email_run self env to subject html_body pdf_data
              pdf_filename w) as (tr & Heq & Hns & _).
  eexists _, tr. split; [|split; [exact Hns |]].
  2:{ cbn [attempt_loop]. unfold bind at 1, dict_getitem. rewrite Hto.
      unfold bind at 1. rewrite Heq.
      destruct (attempt_result self env (calls w) to subject html_body
                  pdf_data pdf_filename) as [[|] e']; cbn [fst snd].
      - reflexivity.
      - destruct (a <? m - 1); reflexivity. }
  unfold extends. cbn. repeat split; try reflexivity. lia.
Qed.

(** The loop always returns, and leaves dicts and ledger alone. *)
Lemma attempt_loop_total (attempts : list Z) (succ : bool)
    (err : option string) (w : World) :
  dict_get "email" (deref data w) = Some to ->
  exists r w' j tr,
    loop attempts succ err w = (Ok r, w') /\ extends w w' j tr
    /\ (attempts <> [] -> (1 <= j)%nat).
Proof.
  revert succ err w.
  induction attempts as [|a rest IH]; intros succ err w Hto.
  - exists (succ, err), w, 0%nat, []. split; [reflexivity |].
    split; [apply extends_refl | congruence].
  - destruct (attempt_loop_cons a rest succ err w Hto)
      as (w1 & tr & Hext & _ & Heq).
    rewrite Heq. destruct (fst (outcome (calls w))) eqn:Hfst.
    + eexists _, w1, _, _. split; [reflexivity |].
      split; [exact Hext | lia].
    + set (w2 := if a <? m - 1 then emit (EvSleep RetryBackoff 2) w1 else w1).
      assert (Hext2 : exists t2, extends w1 w2 0 t2).
      { subst w2. destruct (a <? m - 1).
        - eexists. apply extends_emit.
        - eexists. apply extends_refl. }
      destruct Hext2 as (t2 & Hext2).
      pose proof (extends_trans _ _ _ _ _ _ _ Hext Hext2) as Hext12.
      destruct (IH false (snd (outcome (calls w))) w2)
        as (r & w' & j & tr' & Hrun & Hext' & _).
      { rewrite (deref_heap data w w2); [exact Hto | apply Hext12]. }
      eexists r, w', _, _. split; [exact Hrun |].
      split; [exact (extends_trans _ _ _ _ _ _ _ Hext12 Hext') | lia].
Qed.

(** All attempts fail: the loop makes them all, waits between them, and
    returns the outcome of the last one. *)
Lemma attempt_loop_all_fail (len : nat) :
  forall (k : nat) (succ : bool) (err : option string) (w : World),
  dict_get "email" (deref data w) = Some to ->
  Z.of_nat (k + len) = m ->
  (forall i, (i < len)%nat -> fst (outcome (calls w + i)%nat) = false) ->
  exists w' tr,
    loop (map Z.of_nat (seq k len)) succ err w
    = (Ok (match len with
           | O => (succ, err)
           | S n => outcome (calls w + n)%nat
           end), w')
    /\ extends w w' len tr
    /\ waits RetryBackoff tr = (len - 1)%nat.
Proof.
  induction len as [|len IH]; intros k succ err w Hto Hm Hfail.
  - exists w, []. split; [reflexivity |]. split; [apply extends_refl | reflexivity].
  - cbn [seq map].
    destruct (attempt_loop_cons (Z.of_nat k) (map Z.of_nat (seq (S k) len))
                succ err w Hto) as (w1 & tr & Hext & Hns & Heq).
    rewrite Heq.
    pose proof (Hfail 0%nat ltac:(lia)) as H0.
    rewrite Nat.add_0_r in H0. rewrite H0.
    destruct len as [|len'].
    + (* the last attempt: no wait *)
      assert (Hlt : (Z.of_nat k <? m - 1) = false) by (apply Z.ltb_ge; lia).
      rewrite Hlt. cbn [seq map attempt_loop]. unfold ret.
      exists w1, tr. rewrite Nat.add_0_r.
      rewrite <- H0 at 1. rewrite <- surjective_pairing.
      split; [reflexivity |]. split; [exact Hext |].
      now rewrite waits_no_sleep.
    + assert (Hlt : (Z.of_nat k <? m - 1) = true) by (apply Z.ltb_lt; lia).
      rewrite Hlt.
      set (w2 := emit (EvSleep RetryBackoff 2) w1).
      pose proof (extends_trans _ _ _ _ _ _ _ Hext (extends_emit w1 (EvSleep RetryBackoff 2)))
        as Hext2.
      fold w2 in Hext2.
      destruct (IH (S k) false (snd (outcome (calls w))) w2)
        as (w' & tr' & Hrun & Hext' & Hwaits).
      { rewrite (deref_heap data w w2); [exact Hto | apply Hext2]. }
      { lia. }
      { intros i Hi. destruct Hext2 as (_ & Hc & _). rewrite Hc.
        replace (calls w + (1 + 0) + i)%nat with (calls w + S i)%nat by lia.
        apply Hfail. lia. }
      exists w', ((tr ++ [EvSleep RetryBackoff 2]) ++ tr').
      split.
      { rewrite Hrun. destruct Hext2 as (_ & Hc & _). rewrite Hc.
        do 2 f_equal. f_equal. lia. }
      split.
      { replace (S (S len')) with ((1 + 0) + S len')%nat by lia.
        exact (extends_trans _ _ _ _ _ _ _ Hext2 Hext'). }
      rewrite !waits_app, Hwaits, waits_backoff_one.
      rewrite (waits_no_sleep _ _ Hns). lia.
Qed.

(** Attempt [j] is the first to succeed: the loop stops there, after [j]
    waits. *)
Lemma attempt_loop_first_success (j : nat) :
  forall (len k : nat) (succ : bool) (err : option string) (w : World),
  dict_get "email" (deref data w) = Some to ->
  (j < len)%nat ->
  Z.of_nat (k + len) <= m ->
  (forall i, (i < j)%nat -> fst (outcome (calls w + i)%nat) = false) ->
  fst (outcome (calls w + j)%nat) = true ->
  exists w' tr,
    loop (map Z.of_nat (seq k len)) succ err w
    = (Ok (outcome (calls w + j)%nat), w')
    /\ extends w w' (S j) tr
    /\ waits RetryBackoff tr = j.
Proof.
  induction j as [|j IH]; intros len k succ err w Hto Hj Hm Hfail Hok;
    (destruct len as [|len]; [lia |]); cbn [seq map];
    destruct (attempt_loop_cons (Z.of_nat k) (map Z.of_nat (seq (S k) len))
                succ err w Hto) as (w1 & tr & Hext & Hns & Heq);
    rewrite Heq.
  - rewrite Nat.add_0_r in *. rewrite Hok.
    exists w1, tr. split; [reflexivity |]. split; [exact Hext |].
    now apply waits_no_sleep.
  - pose proof (Hfail 0%nat ltac:(lia)) as H0.
    rewrite Nat.add_0_r in H0. rewrite H0.
    assert (Hlt : (Z.of_nat k <? m - 1) = true) by (apply Z.ltb_lt; lia).
    rewrite Hlt.
    set (w2 := emit (EvSleep RetryBackoff 2) w1).
    pose proof (extends_trans _ _ _ _ _ _ _ Hext (extends_emit w1 (EvSleep RetryBackoff 2)))
      as Hext2.
    fold w2 in Hext2.
    assert (Hc : calls w2 = S (calls w)).
    { destruct Hext2 as (_ & Hc & _). rewrite Hc. lia. }
    destruct (IH len (S k) false (snd (outcome (calls w))) w2)
      as (w' & tr' & Hrun & Hext' & Hwaits).
    { rewrite (deref_heap data w w2); [exact Hto | apply Hext2]. }
    { lia. }
    { lia. }
    { intros i Hi. rewrite Hc.
      replace (S (calls w) + i)%nat with (calls w + S i)%nat by lia.
      apply Hfail. lia. }
    { rewrite Hc.
      now replace (S (calls w) + j)%nat with (calls w + S j)%nat by lia. }
    exists w', ((tr ++ [EvSleep RetryBackoff 2]) ++ tr').
    split.
    { rewrite Hrun, Hc. do 3 f_equal. lia. }
    split.
    { replace (S (S j)) with ((1 + 0) + S j)%nat by lia.
      exact (extends_trans _ _ _ _ _ _ _ Hext2 Hext'). }
    rewrite !waits_app, Hwaits, waits_backoff_one.
    rewrite (waits_no_sleep _ _ Hns). lia.
Qed.

End RetryFacts.

(** ** Delivery and the ledger *)

Section DeliveryFacts.

Context (self : Sender) (env : Env).

Lemma record_result_run (data : loc) (succ : bool) (err : option string)
    (sc fc : Z) (w : World) (e n : value) :
  dict_get "email" (deref data w) = Some e ->
  dict_get "nombre" (deref data w) = Some n ->
  record_result env data succ err sc fc w
  = (Ok (if succ then (sc + 1, fc) else (sc, fc + 1)),
     push_result
       {| r_email := e; r_nombre := n;
          r_status := if succ then "Éxito" else "Error";
          r_timestamp := now env (trace w);
          r_error := if negb succ then err else Some "" |} w).
Proof.
  intros He Hn. unfold record_result, bind, dict_getitem, ret.
  rewrite He, Hn. destruct succ; reflexivity.
Qed.

Lemma range_seq (m : Z) : range m = map Z.of_nat (seq 0 (Z.to_nat m)).
Proof. reflexivity. Qed.

Lemma deliver_unfold (m : Z) (data : loc) (subject html_body : string)
    (pdf_data : option bytes) (pdf_filename : string) (w : World) :
  settings_cfg (config self) !! "max_retries" = Some m ->
  deliver self env data subject html_body pdf_data pdf_filename w
  = attempt_loop self env (map Z.of_nat (seq 0 (Z.to_nat m))) m data subject
      html_body pdf_data pdf_filename false None w.
Proof.
  intros Hm. unfold deliver, bind, config_get. now rewrite Hm.
Qed.

End DeliveryFacts.

(** C2. With [max_retries >= 1]: when attempt j is the first to succeed,
    the loop stops there (j + 1 calls of [send_email]), exactly j back-off
    waits have occurred and the ledger row is a success; in particular,
    success on the last attempt comes after [max_retries - 1] waits. When
    all [max_retries] attempts fail, the ledger row is a failure carrying
    the last attempt's error detail, after [max_retries] calls and exactly
    [max_retries - 1] waits: none after the last attempt. *)
Theorem retry_policy (self : Sender) (env : Env) (data : loc)
    (subject html_body : string) (pdf_data : option bytes)
    (pdf_filename : string) (w : World) (m : Z) (to nombre : value)
    (sc fc : Z) :
  settings_cfg (config self) !! "max_retries" = Some m ->
  1 <= m ->
  dict_get "email" (deref data w) = Some to ->
  dict_get "nombre" (deref data w) = Some nombre ->
  let outcome i :=
    attempt_result self env (calls w + i) to subject html_body pdf_data
      pdf_filename in
  let run :=
    (let! sent := deliver self env data subject html_body pdf_data
                    pdf_filename in
     record_result env data (fst sent) (snd sent) sc fc) w in
  (forall j, (j < Z.to_nat m)%nat ->
     (forall i, (i < j)%nat -> fst (outcome i) = false) ->
     fst (outcome j) = true ->
     exists r w',
       run = (Ok (sc + 1, fc), w')
       /\ results w' = results w ++ [r]
       /\ r_status r = "Éxito"
       /\ calls w' = (calls w + S j)%nat
       /\ waits RetryBackoff (trace w')
          = (waits RetryBackoff (trace w) + j)%nat)
  /\ ((forall i, (i < Z.to_nat m)%nat -> fst (outcome i) = false) ->
      exists r w',
        run = (Ok (sc, fc + 1), w')
        /\ results w' = results w ++ [r]
        /\ r_status r = "Error"
        /\ r_error r = snd (outcome (Z.to_nat m - 1)%nat)
        /\ calls w' = (calls w + Z.to_nat m)%nat
        /\ waits RetryBackoff (trace w')
           = (waits RetryBackoff (trace w) + (Z.to_nat m - 1))%nat).
Proof.
  intros Hm Hm1 Hto Hnombre outcome run. subst run. unfold bind.
  rewrite (deliver_unfold self env m) by exact Hm.
  split.
  - intros j Hj Hfail Hok.
    destruct (attempt_loop_first_success self env m data subject html_body
                pdf_data pdf_filename to j (Z.to_nat m) 0 false None w
                Hto Hj ltac:(lia) Hfail Hok)
      as (w' & tr & Hrun & (Hh & Hc & Ht & Hr) & Hwaits).
    rewrite Hrun.
    rewrite (record_result_run env data _ _ sc fc w' to nombre)
      by (rewrite (deref_heap data w w'); assumption).
    fold (outcome j). rewrite Hok.
    eexists _, _. split; [reflexivity |]. cbn [results push_result calls trace].
    rewrite Hr, Hc, Ht, waits_app, Hwaits. repeat split; reflexivity.
  - intros Hfail.
    destruct (attempt_loop_all_fail self env m data subject html_body
                pdf_data pdf_filename to (Z.to_nat m) 0 false None w
                Hto ltac:(lia) Hfail)
      as (w' & tr & Hrun & (Hh & Hc & Ht & Hr) & Hwaits).
    rewrite Hrun.
    destruct (Z.to_nat m) as [|n] eqn:Hn; [lia |].
    rewrite (record_result_run env data _ _ sc fc w' to nombre)
      by (rewrite (deref_heap data w w'); assumption).
    fold (outcome n). rewrite (Hfail n) by lia.
    eexists _, _. split; [reflexivity |]. cbn [results push_result calls trace].
    rewrite Hr, Hc, Ht, waits_app, Hwaits.
    replace (S n - 1)%nat with n by lia.
    repeat split; reflexivity.
Qed.

Lemma retry_policy_witness :
  exists r w',
    (let! sent := deliver demo_sender env_flaky 0%nat "Hola" "<p>Hola</p>"
                    None "documento.pdf" in
     record_result env_flaky 0%nat (fst sent) (snd sent) 0 0)
      (world_with ana_record)
    = (Ok (0 + 1, 0), w')
    /\ results w' = results (world_with ana_record) ++ [r]
    /\ r_status r = "Éxito"
    /\ calls w' = (calls (world_with ana_record) + 3)%nat
    /\ waits RetryBackoff (trace w')
       = (waits RetryBackoff (trace (world_with ana_record)) + 2)%nat.
Proof.
  destruct (retry_policy demo_sender env_flaky 0%nat "Hola" "<p>Hola</p>"
              None "documento.pdf" (world_with ana_record) 3
              (VStr "ana@example.com") (VStr "Ana") 0 0
              eq_refl ltac:(lia) eq_refl eq_refl) as [Hfirst _].
  apply (Hfirst 2%nat).
  - vm_compute. lia.
  - intros [|[|i]] Hi; [reflexivity | reflexivity | lia].
  - reflexivity.
Defined.

(** ** What a run can add to the trace *)

Section Keeps.

Context (Q : event -> Prop).

Lemma keeps_silent {A} (m : M A) :
  (forall w, trace (snd (m w)) = trace w) -> keeps Q m.
Proof.
  intros H w. exists []. rewrite H, app_nil_r. split; [reflexivity | constructor].
Qed.

Lemma keeps_ret {A} (a : A) : keeps Q (ret a).
Proof. now apply keeps_silent. Qed.

Lemma keeps_raise {A} (e : exn) : keeps Q (@raise A e).
Proof. now apply keeps_silent. Qed.

Lemma keeps_lift {A} (r : Exc A) : keeps Q (lift r).
Proof. now apply keeps_silent. Qed.

Lemma keeps_bind {A B} (m : M A) (k : A -> M B) :
  keeps Q m -> (forall a, keeps Q (k a)) -> keeps Q (bind m k).
Proof.
  intros Hm Hk w. unfold bind.
  destruct (Hm w) as (t1 & E1 & F1).
  destruct (m w) as [[a|e] w1]; cbn [snd] in *.
  - destruct (Hk a w1) as (t2 & E2 & F2).
    exists (t1 ++ t2). rewrite E2, E1, app_assoc.
    split; [reflexivity | now apply Forall_app].
  - now exists t1.
Qed.

Lemma keeps_try {A} (m : M A) (h : exn -> M A) :
  keeps Q m -> (forall e, keeps Q (h e)) -> keeps Q (try_except m h).
Proof.
  intros Hm Hh w. unfold try_except.
  destruct (Hm w) as (t1 & E1 & F1).
  destruct (m w) as [[a|e] w1]; cbn [snd] in *.
  - now exists t1.
  - destruct (Hh e w1) as (t2 & E2 & F2).
    exists (t1 ++ t2). rewrite E2, E1, app_assoc.
    split; [reflexivity | now apply Forall_app].
Qed.

Lemma keeps_event {A} (m : M A) (e : event) :
  Q e -> (forall w, snd (m w) = emit e w) -> keeps Q m.
Proof.
  intros He H w. exists [e]. rewrite H.
  split; [reflexivity | now repeat constructor].
Qed.

Lemma keeps_log (l : level) (line : string) :
  Q (EvLog l line) -> keeps Q (log l line).
Proof. intros H. now apply (keeps_event _ (EvLog l line)). Qed.

Lemma keeps_sleep (site : sleep_site) (secs : Z) :
  Q (EvSleep site secs) -> keeps Q (sleep site secs).
Proof.
  intros H w. unfold sleep. destruct (secs <? 0).
  - exists []. cbn. rewrite app_nil_r. split; [reflexivity | constructor].
  - exists [EvSleep site secs]. split; [reflexivity | now repeat constructor].
Qed.

Lemma keeps_smtp_do (env : Env) (call : nat) (op : smtp_op) :
  Q (EvSmtp call op) -> keeps Q (smtp_do env call op).
Proof.
  intros H. apply (keeps_event _ (EvSmtp call op)); [exact H |].
  intros w. unfold smtp_do. now destruct (smtp env call op).
Qed.

Lemma keeps_config_get {V} (section : gmap string V) (k : string) :
  keeps Q (config_get section k).
Proof.
  apply keeps_silent. intros w. unfold config_get.
  now destruct (section !! k).
Qed.

Lemma keeps_dict_getitem (data : loc) (k : string) :
  keeps Q (dict_getitem data k).
Proof.
  apply keeps_silent. intros w. unfold dict_getitem.
  now destruct (dict_get k (deref data w)).
Qed.

Context (self : Sender) (env : Env).
Hypothesis Q_log : forall l line, Q (EvLog l line).
Hypothesis Q_backoff : Q (EvSleep RetryBackoff 2).

Lemma keeps_render (tpl : string) (data : loc) :
  keeps Q (_render_template self tpl data).
Proof.
  apply keeps_silent. intros w.
  unfold _render_template, bind, config_get, dict_setitem, dict_items, ret.
  now destruct (email_cfg (config self) !! "from_name").
Qed.

Lemma keeps_make_attachment (data : loc) :
  keeps Q (make_attachment self data).
Proof.
  unfold make_attachment. apply keeps_try.
  - repeat first
      [ apply keeps_ret | apply keeps_lift | apply keeps_dict_getitem
      | now apply keeps_silent
      | apply keeps_bind; [|intros ?] ].
  - intros e. destruct (isinstance e Exception_); [|apply keeps_raise].
    apply keeps_bind; [apply keeps_dict_getitem | intros to].
    apply keeps_bind; [apply keeps_log, Q_log | intros _; apply keeps_ret].
Qed.

(** The messages of a call carry what [attachment_of] says. *)
Lemma keeps_send_email (to_email : value) (subject html_body : string)
    (pdf_data : option bytes) (pdf_filename : string) :
  (forall call msg,
     msg_attachment msg = attachment_of pdf_data pdf_filename ->
     Q (EvSmtp call (OpSendMessage msg))) ->
  (forall call op, (forall msg, op <> OpSendMessage msg) -> Q (EvSmtp call op)) ->
  keeps Q (send_email self env to_email subject html_body pdf_data
             pdf_filename).
Proof.
  intros Hmsg Hop. unfold send_email.
  apply keeps_bind; [now apply keeps_silent | intros call].
  apply keeps_try.
  - unfold send_email_try.
    apply keeps_bind; [apply keeps_config_get | intros F].
    apply keeps_bind; [apply keeps_smtp_do, Hop; discriminate | intros _].
    apply keeps_bind.
    { destruct (default true (use_tls (smtp_cfg (config self))));
        [apply keeps_smtp_do, Hop; discriminate | apply keeps_ret]. }
    intros _.
    apply keeps_bind; [apply keeps_smtp_do, Hop; discriminate | intros _].
    apply keeps_bind; [apply keeps_smtp_do, Hmsg; reflexivity | intros _].
    apply keeps_bind; [apply keeps_smtp_do, Hop; discriminate | intros _].
    apply keeps_bind; [apply keeps_log, Q_log | intros _; apply keeps_ret].
  - intros e. unfold send_email_except.
    repeat match goal with
    | |- context [isinstance ?e ?c] => destruct (isinstance e c)
    end;
    try apply keeps_raise;
    (apply keeps_bind; [apply keeps_log, Q_log | intros _; apply keeps_ret]).
Qed.

Lemma keeps_attempt_loop (attempts : list Z) (m : Z) (data : loc)
    (subject html_body : string) (pdf_data : option bytes)
    (pdf_filename : string) (succ : bool) (err : option string) :
  (forall call msg,
     msg_attachment msg = attachment_of pdf_data pdf_filename ->
     Q (EvSmtp call (OpSendMessage msg))) ->
  (forall call op, (forall msg, op <> OpSendMessage msg) -> Q (EvSmtp call op)) ->
  keeps Q (attempt_loop self env attempts m data subject html_body pdf_data
             pdf_filename succ err).
Proof.
  intros Hmsg Hop. revert succ err.
  induction attempts as [|a rest IH]; intros succ err; cbn [attempt_loop].
  - apply keeps_ret.
  - apply keeps_bind; [apply keeps_dict_getitem | intros to].
    apply keeps_bind; [now apply keeps_send_email | intros [s e]].
    destruct s; [apply keeps_ret |].
    apply keeps_bind; [|intros _; apply IH].
    destruct (a <? m - 1); [now apply keeps_sleep | apply keeps_ret].
Qed.

Lemma keeps_deliver (data : loc) (subject html_body : string)
    (pdf_data : option bytes) (pdf_filename : string) :
  (forall call msg,
     msg_attachment msg = attachment_of pdf_data pdf_filename ->
     Q (EvSmtp call (OpSendMessage msg))) ->
  (forall call op, (forall msg, op <> OpSendMessage msg) -> Q (EvSmtp call op)) ->
  keeps Q (deliver self env data subject html_body pdf_data pdf_filename).
Proof.
  intros Hmsg Hop. unfold deliver.
  apply keeps_bind; [apply keeps_config_get | intros m].
  now apply keeps_attempt_loop.
Qed.

Hypothesis Q_smtp : forall call op, Q (EvSmtp call op).
Hypothesis Q_delay : forall secs, Q (EvSleep InterRecipient secs).

Lemma keeps_record_result (data : loc) (succ : bool) (err : option string)
    (sc fc : Z) :
  keeps Q (record_result env data succ err sc fc).
Proof.
  unfold record_result.
  apply keeps_bind; [apply keeps_dict_getitem | intros e].
  apply keeps_bind; [apply keeps_dict_getitem | intros n].
  apply keeps_bind; [now apply keeps_silent | intros r].
  apply keeps_bind; [now apply keeps_silent | intros _].
  destruct succ; apply keeps_ret.
Qed.

Lemma keeps_process_row (total idx : Z) (row : Row) (sc fc : Z) :
  keeps Q (process_row self env total idx row sc fc).
Proof.
  unfold process_row.
  apply keeps_bind; [now apply keeps_silent | intros data].
  apply keeps_bind; [apply keeps_make_attachment | intros [pdf fn]].
  apply keeps_bind; [apply keeps_render | intros html].
  apply keeps_bind; [apply keeps_config_get | intros st].
  apply keeps_bind; [apply keeps_render | intros subject].
  apply keeps_bind; [apply keeps_deliver; intros; apply Q_smtp | intros [s e]].
  apply keeps_bind; [apply keeps_record_result | intros counts].
  apply keeps_bind; [|intros _; apply keeps_ret].
  destruct (idx <? total - 1); [|apply keeps_ret].
  apply keeps_bind; [apply keeps_config_get | intros d].
  apply keeps_sleep, Q_delay.
Qed.

Lemma keeps_rows_loop (total : Z) (rows : DataFrame) (sc fc : Z) :
  keeps Q (rows_loop self env total rows sc fc).
Proof.
  revert sc fc. induction rows as [|[idx row] rest IH]; intros sc fc;
    cbn [rows_loop].
  - apply keeps_ret.
  - apply keeps_bind; [apply keeps_process_row | intros counts; apply IH].
Qed.

Lemma keeps_send_bulk_emails (df : DataFrame) (preview_mode : bool) :
  keeps Q (send_bulk_emails self env df preview_mode).
Proof.
  unfold send_bulk_emails.
  apply keeps_bind; [apply keeps_rows_loop | intros counts; apply keeps_ret].
Qed.

End Keeps.

(** ** The back-off between attempts *)

Lemma backoff_fixed_is (tr : list event) :
  Forall backoff_fixed tr -> backoff_is 2 tr.
Proof.
  intros H s Hin. rewrite Forall_forall in H.
  apply (H (EvSleep RetryBackoff s)). now apply list_elem_of_In.
Qed.

Lemma backoff_fixed_secs (tr : list event) :
  Forall backoff_fixed tr ->
  wait_secs RetryBackoff tr = repeat 2 (waits RetryBackoff tr).
Proof.
  unfold wait_secs, waits. induction 1 as [|e tr He _ IH]; [reflexivity |].
  cbn [omap list_omap]. rewrite filter_cons.
  destruct e as [l line|call op|[] secs]; cbn in *; try exact IH.
  subst secs. now rewrite IH.
Qed.

(** C4, as stated, fails: in a run whose configuration sets
    'retry_backoff_seconds' to 7, and in which no setting has the value 2,
    the two waits between the three failed attempts last 2 seconds. *)
Lemma backoff_ignores_configuration :
  settings_cfg (config demo_sender) !! "retry_backoff_seconds" = Some 7
  /\ (forall k secs,
        settings_cfg (config demo_sender) !! k = Some secs -> secs <> 2)
  /\ wait_secs RetryBackoff
       (trace (snd (send_bulk_emails demo_sender env_down [(0, row_ana)]
                      false empty_world)))
     = [2; 2].
Proof.
  split; [reflexivity |]. split; [|reflexivity].
  intros k secs H. cbn in H.
  repeat (apply lookup_insert_Some in H as [[_ <-]|[_ H]]; [lia |]).
  now rewrite lookup_empty in H.
Qed.

(** C4, amended. Between failed attempts the pipeline waits 2 seconds, a
    constant of the code: in every run, with every configuration, each
    back-off wait lasts 2 seconds (no growth, no jitter, and no setting of
    the configuration changes it). *)
Theorem backoff_is_two_seconds (self : Sender) (env : Env) (df : DataFrame)
    (preview_mode : bool) (w : World) :
  exists tr,
    trace (snd (send_bulk_emails self env df preview_mode w)) = trace w ++ tr
    /\ backoff_is 2 tr
    /\ wait_secs RetryBackoff tr = repeat 2 (waits RetryBackoff tr).
Proof.
  destruct (keeps_send_bulk_emails backoff_fixed self env
              ltac:(now intros) ltac:(reflexivity) ltac:(now intros)
              ltac:(now intros) df preview_mode w) as (tr & Htr & Hall).
  exists tr. split; [exact Htr |].
  split; [now apply backoff_fixed_is | now apply backoff_fixed_secs].
Qed.

(** ** One recipient *)

Section RowFacts.

Context (self : Sender) (env : Env).

Lemma bind_ok {A B} (m : M A) (k : A -> M B) (w w1 : World) (a : A) :
  m w = (Ok a, w1) -> bind m k w = k a w1.
Proof. intros H. unfold bind. now rewrite H. Qed.

Lemma dict_set_idem {V} (k : string) (v : V) (d : dict V) :
  dict_set k v (dict_set k v d) = dict_set k v d.
Proof.
  induction d as [|[k1 v1] d IH]; cbn [dict_set].
  - now rewrite String.eqb_refl.
  - destruct (String.eqb k k1) eqn:E; cbn [dict_set]; rewrite E;
      [reflexivity | now rewrite IH].
Qed.

Context (F S : string) (m d : Z).
Hypothesis HF : email_cfg (config self) !! "from_name" = Some F.
Hypothesis HS : email_cfg (config self) !! "subject" = Some S.
Hypothesis Hm : settings_cfg (config self) !! "max_retries" = Some m.
Hypothesis Hd : settings_cfg (config self) !! "delay_between_emails" = Some d.
Hypothesis Hd0 : 0 <= d.

(** What processing one row does, step by step. *)
Lemma process_row_run (total idx : Z) (row : Row) (sc fc : Z) (w : World)
    (e n : value) :
  dict_get "email" (record_of row) = Some e ->
  dict_get "nombre" (record_of row) = Some n ->
  let l := fresh (dom (heap w)) in
  let w0 := set_heap (<[l := record_of row]> (heap w)) w in
  let fields := dict_set "from_name" (VStr F) (record_of row) in
  let html_body := substitute fields (email_template self) in
  let subject := substitute fields S in
  exists att w1 tr_a w3 sent w4 tr_d j w',
    make_attachment self l w0 = (Ok att, w1)
    /\ extends w0 w1 0 tr_a
    /\ forallb no_sleep tr_a = true /\ sent_messages tr_a = []
    /\ deref l w3 = fields /\ calls w3 = calls w /\ trace w3 = trace w1
    /\ deliver self env l subject html_body (fst att) (snd att) w3
       = (Ok sent, w4)
    /\ extends w3 w4 j tr_d
    /\ process_row self env total idx row sc fc w
       = (Ok (if fst sent then (sc + 1, fc) else (sc, fc + 1)), w')
    /\ results w'
       = results w
         ++ [{| r_email := e; r_nombre := n;
                r_status := if fst sent then "Éxito" else "Error";
                r_timestamp := now env (trace w4);
                r_error := if negb (fst sent) then snd sent else Some "" |}]
    /\ trace w'
       = trace w ++ tr_a ++ tr_d
         ++ (if idx <? total - 1 then [EvSleep InterRecipient d] else [])
    /\ calls w' = (calls w + j)%nat
    /\ (1 <= m -> (1 <= j)%nat).
Proof.
  intros He Hn l w0 fields html_body subject.
  assert (Hrec : deref l w0 = record_of row) by apply deref_set_heap.
  destruct (make_attachment_run self l w0 e) as (att & tr_a & Hatt & Hns & Hsm & _).
  { now rewrite Hrec. }
  set (w1 := {| heap := heap w0; calls := calls w0; trace := trace w0 ++ tr_a;
                results := results w0 |}) in *.
  assert (Hrec1 : deref l w1 = record_of row) by exact Hrec.
  pose proof (render_run self F (email_template self) l w1 HF) as Hr1.
  rewrite Hrec1 in Hr1. fold fields in Hr1. fold html_body in Hr1.
  set (w2 := set_heap (<[l := fields]> (heap w1)) w1) in *.
  assert (Hrec2 : deref l w2 = fields) by apply deref_set_heap.
  pose proof (render_run self F S l w2 HF) as Hr2.
  rewrite Hrec2 in Hr2.
  assert (Hidem : dict_set "from_name" (VStr F) fields = fields)
    by apply dict_set_idem.
  rewrite Hidem in Hr2. fold subject in Hr2.
  set (w3 := set_heap (<[l := fields]> (heap w2)) w2) in *.
  assert (Hrec3 : deref l w3 = fields) by apply deref_set_heap.
  assert (He3 : dict_get "email" (deref l w3) = Some e).
  { rewrite Hrec3. unfold fields. now rewrite dict_get_set_other. }
  assert (Hn3 : dict_get "nombre" (deref l w3) = Some n).
  { rewrite Hrec3. unfold fields. now rewrite dict_get_set_other. }
  destruct (attempt_loop_total self env m l subject html_body (fst att)
              (snd att) e (map Z.of_nat (seq 0 (Z.to_nat m))) false None w3 He3)
    as (sent & w4 & j & tr_d & Hloop & Hext4 & Hj).
  rewrite <- (deliver_unfold self env m) in Hloop by exact Hm.
  assert (Hh4 : deref l w4 = deref l w3) by (apply deref_heap, Hext4).
  pose proof (record_result_run env l (fst sent) (snd sent) sc fc w4 e n
                ltac:(now rewrite Hh4) ltac:(now rewrite Hh4)) as Hrr.
  set (r := {| r_email := e; r_nombre := n;
               r_status := if fst sent then "Éxito" else "Error";
               r_timestamp := now env (trace w4);
               r_error := if negb (fst sent) then snd sent else Some "" |}) in *.
  set (w5 := push_result r w4) in *.
  exists att, w1, tr_a, w3, sent, w4, tr_d, j.
  exists (if idx <? total - 1 then emit (EvSleep InterRecipient d) w5 else w5).
  split; [exact Hatt |].
  split. { unfold extends. cbn. rewrite Nat.add_0_r. repeat split; reflexivity. }
  split; [exact Hns |]. split; [exact Hsm |].
  split; [exact Hrec3 |]. split; [reflexivity |]. split; [reflexivity |].
  split; [exact Hloop |]. split; [exact Hext4 |].
  destruct Hext4 as (Hh & Hc & Ht & Hres).
  split.
  { unfold process_row.
    rewrite (bind_ok _ _ w w0 l) by reflexivity.
    rewrite (bind_ok _ _ _ _ _ Hatt). destruct att as [pdf fn].
    rewrite (bind_ok _ _ _ _ _ Hr1).
    rewrite (bind_ok (config_get _ _) _ w2 w2 S)
      by (unfold config_get; now rewrite HS).
    rewrite (bind_ok _ _ _ _ _ Hr2).
    rewrite (bind_ok _ _ _ _ _ Hloop). destruct sent as [succ err].
    rewrite (bind_ok _ _ _ _ _ Hrr). cbn [fst snd].
    destruct (idx <? total - 1).
    - unfold bind, config_get, sleep, ret. rewrite Hd.
      assert (Hneg : (d <? 0) = false) by (apply Z.ltb_ge; lia).
      now rewrite Hneg.
    - reflexivity. }
  split.
  { destruct (idx <? total - 1); cbn [results emit push_result w5];
      now rewrite Hres. }
  split.
  { destruct (idx <? total - 1); cbn [trace emit push_result w5];
      rewrite Ht; cbn [trace set_heap w3 w2 w1 w0];
      rewrite <- ?app_assoc; rewrite ?app_nil_r; reflexivity. }
  split.
  { destruct (idx <? total - 1); cbn [calls emit push_result w5];
      now rewrite Hc. }
  intros Hm1. apply Hj.
  destruct (Z.to_nat m) as [|k] eqn:Hk; [lia | discriminate].
Qed.

End RowFacts.

(** ** The whole run *)

Section BulkFacts.

Context (self : Sender) (env : Env).
Context (F S : string) (m d : Z).
Hypothesis HF : email_cfg (config self) !! "from_name" = Some F.
Hypothesis HS : email_cfg (config self) !! "subject" = Some S.
Hypothesis Hm : settings_cfg (config self) !! "max_retries" = Some m.
Hypothesis Hd : settings_cfg (config self) !! "delay_between_emails" = Some d.
Hypothesis Hd0 : 0 <= d.

Lemma successes_app (a b : list Result) :
  successes (a ++ b) = successes a + successes b.
Proof. unfold successes. rewrite filter_app, length_app. lia. Qed.

Lemma failures_app (a b : list Result) :
  failures (a ++ b) = failures a + failures b.
Proof. unfold failures. rewrite filter_app, length_app. lia. Qed.

Lemma rows_loop_run (total : Z) (rows : DataFrame) :
  forall (sc fc : Z) (w : World),
  Forall (fun ir => has_recipient (snd ir)) rows ->
  exists new w',
    rows_loop self env total rows sc fc w
    = (Ok (sc + successes new, fc + failures new), w')
    /\ results w' = results w ++ new
    /\ map (fun r => Some (r_email r)) new
       = map (fun ir => dict_get "email" (record_of (snd ir))) rows
    /\ map (fun r => Some (r_nombre r)) new
       = map (fun ir => dict_get "nombre" (record_of (snd ir))) rows
    /\ successes new + failures new = Z.of_nat (length new).
Proof.
  induction rows as [|[idx row] rest IH]; intros sc fc w Hrows.
  - exists [], w. cbn. rewrite app_nil_r, !Z.add_0_r. repeat split.
  - apply Forall_cons in Hrows as [[[e He] [n Hn]] Hrest]. cbn [snd] in *.
    destruct (process_row_run self env F S m d HF HS Hm Hd Hd0 total idx row
                sc fc w e n He Hn)
      as (att & w1 & tr_a & w3 & sent & w4 & tr_d & j & w' & _ & _ & _ & _
          & _ & _ & _ & _ & _ & Hrun & Hres & _ & _ & _).
    set (r := {| r_email := e; r_nombre := n;
                 r_status := if fst sent then "Éxito" else "Error";
                 r_timestamp := now env (trace w4);
                 r_error := if negb (fst sent) then snd sent else Some "" |})
      in *.
    destruct (IH (fst (if fst sent then (sc + 1, fc) else (sc, fc + 1)))
                (snd (if fst sent then (sc + 1, fc) else (sc, fc + 1))) w'
                Hrest)
      as (new & w'' & Hloop & Hres' & Hemail & Hnombre & Hsum).
    exists (r :: new), w''.
    change (r :: new) with ([r] ++ new).
    rewrite successes_app, failures_app.
    assert (Hr : successes [r] = (if fst sent then 1 else 0)
                 /\ failures [r] = (if fst sent then 0 else 1)).
    { subst r. destruct (fst sent); split; reflexivity. }
    destruct Hr as [Hrs Hrf]. rewrite Hrs, Hrf.
    split.
    { cbn [rows_loop]. rewrite (bind_ok _ _ _ _ _ Hrun), Hloop.
      destruct (fst sent); cbn [fst snd]; do 3 f_equal; lia. }
    split. { now rewrite Hres', Hres, <- app_assoc. }
    split. { cbn [app map snd]. now rewrite Hemail, He. }
    split. { cbn [app map snd]. now rewrite Hnombre, Hn. }
    cbn [app length]. destruct (fst sent); lia.
Qed.

End BulkFacts.

(** C1. Over recipient records (rows with 'email' and 'nombre'), with the
    configuration the run needs, [send_bulk_emails] returns a summary and
    appends to the ledger exactly one row per processed recipient, in the
    order of the input; the summary's total is the number of recipients
    processed, and its successes and failures, which count the ledger rows
    of each status, add up to it. *)
Theorem bulk_accounting (self : Sender) (env : Env) (F S : string)
    (m d : Z) (df : DataFrame) (preview_mode : bool) (w : World) :
  email_cfg (config self) !! "from_name" = Some F ->
  email_cfg (config self) !! "subject" = Some S ->
  settings_cfg (config self) !! "max_retries" = Some m ->
  settings_cfg (config self) !! "delay_between_emails" = Some d ->
  0 <= d ->
  Forall (fun ir => has_recipient (snd ir)) df ->
  let processed := if preview_mode then take 1 df else df in
  exists stats new w',
    send_bulk_emails self env df preview_mode w = (Ok stats, w')
    /\ results w' = results w ++ new
    /\ length new = length processed
    /\ map (fun r => Some (r_email r)) new
       = map (fun ir => dict_get "email" (record_of (snd ir))) processed
    /\ map (fun r => Some (r_nombre r)) new
       = map (fun ir => dict_get "nombre" (record_of (snd ir))) processed
    /\ success stats = successes new
    /\ failed stats = failures new
    /\ success stats + failed stats = total stats
    /\ total stats = Z.of_nat (length processed).
Proof.
  intros HF HS Hm Hd Hd0 Hdf processed.
  assert (Hproc : Forall (fun ir => has_recipient (snd ir)) processed).
  { subst processed. destruct preview_mode; [|exact Hdf].
    now apply Forall_take. }
  destruct (rows_loop_run self env F S m d HF HS Hm Hd Hd0
              (Z.of_nat (length processed)) processed 0 0 w Hproc)
    as (new & w' & Hloop & Hres & Hemail & Hnombre & Hsum).
  assert (Hlen : length new = length processed).
  { apply (f_equal (@length _)) in Hemail. now rewrite !length_map in Hemail. }
  eexists _, new, w'. split.
  { unfold send_bulk_emails. fold processed.
    rewrite (bind_ok _ _ _ _ _ Hloop). reflexivity. }
  cbn [success failed total fst snd].
  repeat split; try assumption; try lia.
Qed.

Lemma bulk_accounting_witness :
  exists stats new w',
    send_bulk_emails demo_sender env_flaky [(0, row_ana); (1, row_luis)] false
      empty_world = (Ok stats, w')
    /\ results w' = results empty_world ++ new
    /\ length new = 2%nat
    /\ success stats + failed stats = total stats.
Proof.
  destruct (bulk_accounting demo_sender env_flaky "Equipo" "Hola {{nombre}}"
              3 1 [(0, row_ana); (1, row_luis)] false empty_world
              eq_refl eq_refl eq_refl eq_refl ltac:(lia))
    as (stats & new & w' & Hrun & Hres & Hlen & _ & _ & _ & _ & Hsum & _).
  - repeat constructor; cbn; eexists; reflexivity.
  - exists stats, new, w'. repeat split; assumption.
Defined.

(** ** The delay between recipients *)

Section DelayFacts.

Context (self : Sender) (env : Env).
Context (F S : string) (m d : Z).
Hypothesis HF : email_cfg (config self) !! "from_name" = Some F.
Hypothesis HS : email_cfg (config self) !! "subject" = Some S.
Hypothesis Hm : settings_cfg (config self) !! "max_retries" = Some m.
Hypothesis Hd : settings_cfg (config self) !! "delay_between_emails" = Some d.
Hypothesis Hd0 : 0 <= d.

Lemma waits_none (site : sleep_site) (tr : list event) :
  Forall (fun e => is_sleep_at site e = false) tr -> waits site tr = 0%nat.
Proof.
  unfold waits. induction 1 as [|e tr He _ IH]; [reflexivity |].
  rewrite filter_cons. destruct (decide (is_sleep_at site e = true)); congruence.
Qed.

(** What [deliver] added to the trace, as [keeps] describes it. *)
Lemma deliver_added (Q : event -> Prop) (data : loc)
    (subject html_body : string) (pdf_data : option bytes)
    (pdf_filename : string) (w w' : World) (sent : bool * option string)
    (j : nat) (tr : list event) :
  keeps Q (deliver self env data subject html_body pdf_data pdf_filename) ->
  deliver self env data subject html_body pdf_data pdf_filename w
  = (Ok sent, w') ->
  extends w w' j tr ->
  Forall Q tr.
Proof.
  intros Hk Hrun (_ & _ & Ht & _).
  destruct (Hk w) as (tr' & Htr' & HQ).
  rewrite Hrun in Htr'. cbn [snd] in Htr'. rewrite Ht in Htr'.
  apply app_inv_head in Htr'. now subst tr'.
Qed.

(** The delay follows a recipient exactly when the row's index label is
    below [total - 1]. *)
Lemma rows_loop_delays (total : Z) (rows : DataFrame) :
  forall (sc fc : Z) (w : World),
  Forall (fun ir => has_recipient (snd ir)) rows ->
  exists tr,
    trace (snd (rows_loop self env total rows sc fc w)) = trace w ++ tr
    /\ waits InterRecipient tr
       = length (filter (fun ir => fst ir < total - 1) rows).
Proof.
  induction rows as [|[idx row] rest IH]; intros sc fc w Hrows.
  - exists []. cbn. now rewrite app_nil_r.
  - apply Forall_cons in Hrows as [[[e He] [n Hn]] Hrest]. cbn [snd] in *.
    destruct (process_row_run self env F S m d HF HS Hm Hd Hd0 total idx row
                sc fc w e n He Hn)
      as (att & w1 & tr_a & w3 & sent & w4 & tr_d & j & w' & _ & _ & Hns & _
          & _ & _ & _ & Hdel & Hext & Hrun & _ & Htr & _ & _).
    assert (Hnone : waits InterRecipient tr_d = 0%nat).
    { apply waits_none.
      refine (deliver_added _ _ _ _ _ _ _ _ _ _ _ _ Hdel Hext).
      apply keeps_deliver; try reflexivity; intros; reflexivity. }
    cbn [rows_loop]. rewrite (bind_ok _ _ _ _ _ Hrun).
    destruct (IH (fst (if fst sent then (sc + 1, fc) else (sc, fc + 1)))
                (snd (if fst sent then (sc + 1, fc) else (sc, fc + 1))) w'
                Hrest) as (tr & Hrest_tr & Hwaits).
    eexists. rewrite Hrest_tr, Htr, <- !app_assoc.
    split; [reflexivity |].
    rewrite !waits_app, Hwaits, Hnone, (waits_no_sleep _ _ Hns).
    rewrite (filter_cons (fun ir : Z * Row => fst ir < total - 1)). cbn [fst].
    destruct (decide (idx < total - 1)) as [Hlt|Hge].
    + apply Z.ltb_lt in Hlt. rewrite Hlt. reflexivity.
    + assert (Hf : (idx <? total - 1) = false) by (apply Z.ltb_ge; lia).
      rewrite Hf. reflexivity.
Qed.

End DelayFacts.

(** C3. The code departs from the claim: the wait is tied to the row's
    index label, not to its position. With the first sheet row dropped by
    the address check, the two remaining recipients (labels 1 and 2) are
    both delivered and no wait separates them, where the claim asks for
    one; with labels 0 and 1 the same recipients are separated by one
    wait. *)
Theorem delay_skipped_after_dropped_row :
  length df_gap = 2%nat
  /\ fst (send_bulk_emails demo_sender env_up df_gap false empty_world)
     = Ok {| total := 2; success := 2; failed := 0 |}
  /\ waits InterRecipient
       (trace (snd (send_bulk_emails demo_sender env_up df_gap false
                      empty_world))) = 0%nat
  /\ waits InterRecipient
       (trace (snd (send_bulk_emails demo_sender env_up df_full false
                      empty_world))) = 1%nat.
Proof. repeat split. Qed.

(** ** A failing PDF generator *)

Section PdfFailure.

Lemma sent_messages_app (t1 t2 : list event) :
  sent_messages (t1 ++ t2) = sent_messages t1 ++ sent_messages t2.
Proof. unfold sent_messages. apply omap_app. Qed.

Lemma sent_without_attachment (tr : list event) (msg : Message) :
  Forall without_attachment tr -> In msg (sent_messages tr) ->
  msg_attachment msg = None.
Proof.
  unfold sent_messages. induction 1 as [|e tr He _ IH]; [intros [] |].
  cbn [omap list_omap].
  destruct e as [l line|call [| | |m0|]|site secs]; cbn in *; try exact IH.
  intros [<-|Hin]; [exact He | now apply IH].
Qed.

Lemma sent_messages_delay (b : bool) (d : Z) :
  sent_messages (if b then [EvSleep InterRecipient d] else []) = [].
Proof. now destruct b. Qed.

End PdfFailure.



(** ** The address pattern *)

Section RegexFacts.

Lemma append_eq_empty (a b : string) : a +:+ b = "" -> a = "" /\ b = "".
Proof. destruct a; [now intros <- | discriminate]. Qed.

Lemma nullable_lang (r : regex) : nullable r = true <-> lang r "".
Proof.
  split.
  - induction r as [| |cls|r1 IH1 r2 IH2|r1 IH1 r2 IH2|r IH]; cbn [nullable];
      intros H; try discriminate.
    + constructor.
    + apply andb_prop in H as [H1 H2].
      exact (lang_cat r1 r2 "" "" (IH1 H1) (IH2 H2)).
    + apply orb_prop in H as [H|H];
        [apply lang_alt_l | apply lang_alt_r]; auto.
    + constructor.
  - remember "" as s eqn:Hs. induction 1 as
      [|cls c Hc|r1 r2 s1 s2 _ IH1 _ IH2|r1 r2 s _ IH|r1 r2 s _ IH|r
       |r s1 s2 _ _ _ _]; cbn [nullable]; try reflexivity; try discriminate.
    + apply append_eq_empty in Hs as [-> ->]. now rewrite IH1, IH2.
    + now rewrite IH.
    + rewrite IH by assumption. apply orb_true_r.
Qed.

Lemma deriv_sound (c : ascii) (r : regex) :
  forall s, lang (deriv c r) s -> lang r (String c s).
Proof.
  induction r as [| |cls|r1 IH1 r2 IH2|r1 IH1 r2 IH2|r IH]; cbn [deriv];
    intros s H.
  - inversion H.
  - inversion H.
  - destruct (cls c) eqn:Hc; inversion H; subst. now constructor.
  - assert (Hcat : forall t, lang (Cat (deriv c r1) r2) t ->
                             lang (Cat r1 r2) (String c t)).
    { intros t Ht. inversion Ht as [| |? ? s1 s2 H1 H2| | | |]; subst.
      rewrite <- append_cons. constructor; auto. }
    destruct (nullable r1) eqn:Hn; [|now apply Hcat].
    inversion H as [| | |? ? ? H1|? ? ? H2| |]; subst; [now apply Hcat |].
    rewrite <- (append_nil_l (String c s)). constructor; [|auto].
    now apply nullable_lang.
  - inversion H; subst; [apply lang_alt_l | apply lang_alt_r]; auto.
  - inversion H as [| |? ? s1 s2 H1 H2| | | |]; subst.
    rewrite <- append_cons. constructor; auto.
Qed.

Lemma deriv_complete (c : ascii) (r : regex) (t : string) :
  lang r t -> forall s, t = String c s -> lang (deriv c r) s.
Proof.
  induction 1 as
    [|cls c' Hc|r1 r2 s1 s2 H1 IH1 H2 IH2|r1 r2 s' _ IH|r1 r2 s' _ IH|r
     |r s1 s2 H1 IH1 H2 IH2]; intros s Hs; cbn [deriv]; try discriminate.
  - injection Hs as -> <-. rewrite Hc. constructor.
  - destruct s1 as [|c1 s1].
    + rewrite append_nil_l in Hs.
      apply nullable_lang in H1. rewrite H1. apply lang_alt_r. now apply IH2.
    + rewrite append_cons in Hs. injection Hs as -> <-.
      assert (lang (Cat (deriv c r1) r2) (s1 +:+ s2))
        by (constructor; [now apply IH1 | assumption]).
      destruct (nullable r1); [now apply lang_alt_l | assumption].
  - apply lang_alt_l. now apply IH.
  - apply lang_alt_r. now apply IH.
  - destruct s1 as [|c1 s1].
    + rewrite append_nil_l in Hs. now apply IH2.
    + rewrite append_cons in Hs. injection Hs as -> <-.
      constructor; [now apply IH1 | assumption].
Qed.

(** The matcher decides membership. *)
Lemma fullmatch_lang (r : regex) (s : string) :
  fullmatch r s = true <-> lang r s.
Proof.
  revert r. induction s as [|c s IH]; intros r; cbn [fullmatch].
  - apply nullable_lang.
  - rewrite IH. split; [apply deriv_sound |].
    intros H. now apply (deriv_complete c r (String c s)).
Qed.

Lemma lang_class_inv (cls : ascii -> bool) (s : string) :
  lang (Class cls) s -> exists c, s = String c "" /\ cls c = true.
Proof. inversion 1; subst. eauto. Qed.

Lemma lang_cat_inv (r1 r2 : regex) (s : string) :
  lang (Cat r1 r2) s -> exists s1 s2, s = s1 +:+ s2 /\ lang r1 s1 /\ lang r2 s2.
Proof. inversion 1; subst. eauto. Qed.

Lemma lang_star_class (cls : ascii -> bool) (s : string) :
  lang (Star (Class cls)) s <-> all_chars cls s = true.
Proof.
  split.
  - remember (Star (Class cls)) as r eqn:Hr.
    induction 1 as [| | | | | |r s1 s2 H1 _ _ IH2]; try discriminate.
    + reflexivity.
    + injection Hr as ->. apply lang_class_inv in H1 as (c & -> & Hc).
      rewrite append_cons, append_nil_l. cbn [all_chars].
      now rewrite Hc, IH2.
  - induction s as [|c s IH]; cbn [all_chars]; intros H.
    + constructor.
    + apply andb_prop in H as [Hc Hs].
      change (String c s) with (String c "" +:+ s).
      constructor; [now constructor | auto].
Qed.

Lemma lang_plus_class (cls : ascii -> bool) (s : string) :
  lang (plus (Class cls)) s <-> s <> "" /\ all_chars cls s = true.
Proof.
  unfold plus. split.
  - intros H. apply lang_cat_inv in H as (s1 & s2 & -> & H1 & H2).
    apply lang_class_inv in H1 as (c & -> & Hc).
    apply lang_star_class in H2.
    rewrite append_cons, append_nil_l. cbn [all_chars].
    rewrite Hc, H2. now split.
  - intros [Hne H]. destruct s as [|c s]; [congruence |].
    cbn [all_chars] in H. apply andb_prop in H as [Hc Hs].
    change (String c s) with (String c "" +:+ s).
    constructor; [now constructor | now apply lang_star_class].
Qed.

Lemma lang_at_least (n : nat) (cls : ascii -> bool) (s : string) :
  lang (at_least n (Class cls)) s
  <-> (n <= String.length s)%nat /\ all_chars cls s = true.
Proof.
  revert s. induction n as [|n IH]; intros s; cbn [at_least].
  - rewrite lang_star_class. split; [intros H; split; [lia | exact H] | tauto].
  - split.
    + intros H. apply lang_cat_inv in H as (s1 & s2 & -> & H1 & H2).
      apply lang_class_inv in H1 as (c & -> & Hc).
      apply IH in H2 as [Hlen Hall].
      rewrite append_cons, append_nil_l. cbn [all_chars String.length].
      rewrite Hc, Hall. split; [lia | reflexivity].
    + intros [Hlen H]. destruct s as [|c s]; cbn [String.length] in Hlen; [lia |].
      cbn [all_chars] in H. apply andb_prop in H as [Hc Hs].
      change (String c s) with (String c "" +:+ s).
      constructor; [now constructor |]. apply IH. split; [lia | exact Hs].
Qed.

Lemma lang_char (a : ascii) (s : string) :
  lang (Class (Ascii.eqb a)) s <-> s = String a "".
Proof.
  split.
  - intros H. apply lang_class_inv in H as (c & -> & Hc).
    apply Ascii.eqb_eq in Hc. now subst.
  - intros ->. constructor. apply Ascii.eqb_refl.
Qed.

Lemma chop_newline_spec (s s' : string) :
  chop_newline s = Some s' <-> s = s' +:+ String "010" "".
Proof.
  revert s'. induction s as [|c s IH]; intros s'.
  - cbn. split; [discriminate |]. destruct s'; discriminate.
  - destruct s as [|c2 s2].
    + cbn [chop_newline]. destruct (Ascii.eqb_spec c "010") as [->|Hne].
      * split.
        -- now intros [= <-].
        -- destruct s' as [|c' s'']; [reflexivity |].
           rewrite append_cons. intros [= _ H]. destruct s''; discriminate.
      * split; [discriminate |].
        destruct s' as [|c' s'']; [rewrite append_nil_l; congruence |].
        rewrite append_cons. intros [= _ H]. destruct s''; discriminate.
    + change (chop_newline (String c (String c2 s2)))
        with (option_map (String c) (chop_newline (String c2 s2))).
      destruct (chop_newline (String c2 s2)) as [t|] eqn:E; cbn [option_map].
      * pose proof (proj1 (IH t) eq_refl) as E'. split.
        -- intros [= <-]. now rewrite append_cons, <- E'.
        -- destruct s' as [|c' s'']; [rewrite append_nil_l; discriminate |].
           rewrite append_cons. intros [= <- H]. f_equal. f_equal.
           apply IH in H. congruence.
      * split; [discriminate |].
        destruct s' as [|c' s'']; [rewrite append_nil_l; discriminate |].
        rewrite append_cons. intros [= <- H].
        apply IH in H. discriminate.
Qed.

End RegexFacts.

Example address_accepted : re_match email_pattern "user@example.com" = true.
Proof. reflexivity. Qed.

Example addresses_rejected :
  re_match email_pattern "not-an-email" = false
  /\ re_match email_pattern "user@" = false
  /\ re_match email_pattern "user@domain" = false
  /\ re_match email_pattern "a b@example.com" = false.
Proof. repeat split. Qed.

Lemma append_empty (s : string) : s +:+ "" = s.
Proof.
  induction s as [|c s IH]; [reflexivity |]. now rewrite append_cons, IH.
Qed.

Lemma fullmatch_email (t : string) :
  fullmatch email_pattern t = true <-> address_shape t.
Proof.
  rewrite fullmatch_lang. unfold email_pattern, address_shape. split.
  - intros H.
    apply lang_cat_inv in H as (L & r1 & -> & HL & H).
    apply lang_cat_inv in H as (a & r2 & -> & Ha & H).
    apply lang_cat_inv in H as (D & r3 & -> & HD & H).
    apply lang_cat_inv in H as (p & T & -> & Hp & HT).
    apply lang_plus_class in HL as [HL1 HL2].
    apply lang_plus_class in HD as [HD1 HD2].
    apply lang_char in Ha as ->. apply lang_char in Hp as ->.
    apply lang_at_least in HT as [HT1 HT2].
    exists L, D, T. repeat split; assumption.
  - intros (L & D & T & -> & HL1 & HL2 & HD1 & HD2 & HT1 & HT2).
    constructor; [now apply lang_plus_class |].
    constructor; [now apply lang_char |].
    constructor; [now apply lang_plus_class |].
    constructor; [now apply lang_char |].
    apply lang_at_least. now split.
Qed.

Lemma re_match_email (s : string) :
  re_match email_pattern s = true
  <-> exists s' nl,
        s = s' +:+ nl /\ (nl = "" \/ nl = String "010" "") /\ address_shape s'.
Proof.
  unfold re_match. rewrite orb_true_iff, fullmatch_email. split.
  - intros [H|H].
    + exists s, "". rewrite append_empty. auto.
    + destruct (chop_newline s) as [s'|] eqn:E; [|discriminate].
      exists s', (String "010" "").
      split; [now apply chop_newline_spec |]. split; [now right |].
      now apply fullmatch_email.
  - intros (s' & nl & -> & [-> | ->] & H).
    + left. now rewrite append_empty.
    + right. rewrite (proj2 (chop_newline_spec _ s') eq_refl).
      now apply fullmatch_email.
Qed.

(** X1. The address check of [load_excel] accepts exactly the strings of
    the shape local@domain.tld (non-empty local part of letters, digits and
    . _ % + -, non-empty domain of letters, digits, . and -, a final label
    of two letters or more), and such a string followed by one line feed:
    [$] also matches before a final line feed. *)
Theorem address_pattern_shape (s : string) :
  re_match email_pattern s = true
  <-> address_shape s
      \/ exists s', s = s' +:+ String "010" "" /\ address_shape s'.
Proof.
  rewrite re_match_email. split.
  - intros (s' & nl & -> & [-> | ->] & H).
    + left. now rewrite append_empty.
    + right. eauto.
  - intros [H|(s' & -> & H)].
    + exists s, "". rewrite append_empty. auto.
    + exists s', (String "010" ""). auto.
Qed.

Lemma count_char_append (a : ascii) (s t : string) :
  count_char a (s +:+ t) = (count_char a s + count_char a t)%nat.
Proof.
  induction s as [|c s IH]; [reflexivity |].
  rewrite append_cons. cbn [count_char]. rewrite IH. lia.
Qed.

Lemma count_char_outside (cls : ascii -> bool) (a : ascii) (s : string) :
  cls a = false -> all_chars cls s = true -> count_char a s = 0%nat.
Proof.
  intros Ha. induction s as [|c s IH]; [reflexivity |].
  cbn [all_chars count_char]. intros H. apply andb_prop in H as [Hc Hs].
  rewrite (IH Hs). destruct (Ascii.eqb_spec c a) as [->|]; [congruence | reflexivity].
Qed.

(** X2. An address that passes the check holds exactly one '@' and no
    space. *)
Theorem accepted_address_one_at (s : string) :
  re_match email_pattern s = true ->
  count_char "@" s = 1%nat /\ count_char " " s = 0%nat.
Proof.
  intros H. apply re_match_email in H.
  destruct H as (s' & nl & -> & Hnl & L & D & T & -> & _ & HL & _ & HD & _ & HT).
  rewrite !count_char_append.
  rewrite !(count_char_outside local_char _ L), !(count_char_outside domain_char _ D),
    !(count_char_outside is_letter _ T) by (assumption || reflexivity).
  destruct Hnl as [-> | ->]; split; reflexivity.
Qed.

Lemma accepted_address_one_at_witness :
  count_char "@" "user@example.com" = 1%nat
  /\ count_char " " "user@example.com" = 0%nat.
Proof. apply (accepted_address_one_at "user@example.com"). reflexivity. Defined.

(** ** Loading the table *)

Section LoadFacts.

Context (host : Host).

Lemma select_filter (f : Z * Row -> bool) (rows : DataFrame) :
  select rows (map f rows) = List.filter f rows.
Proof.
  induction rows as [|ir rows IH]; [reflexivity |].
  cbn [map select List.filter]. now rewrite IH.
Qed.

Lemma existsb_eqb_In (x : string) (l : list string) :
  In x l -> existsb (String.eqb x) l = true.
Proof.
  intros H. apply existsb_exists. exists x. split; [exact H |].
  apply String.eqb_refl.
Qed.

Lemma filter_all (f : Z * Row -> bool) (rows : DataFrame) :
  List.filter (fun ir => negb (f ir)) rows = [] -> List.filter f rows = rows.
Proof.
  induction rows as [|ir rows IH]; [reflexivity |].
  cbn [List.filter]. destruct (f ir); cbn [negb]; [|discriminate].
  intros H. now rewrite IH.
Qed.

Lemma emit_emit_trace (w : World) (es : list event) (e : event) :
  emit e {| heap := heap w; calls := calls w; trace := trace w ++ es;
            results := results w |}
  = {| heap := heap w; calls := calls w; trace := trace w ++ es ++ [e];
       results := results w |}.
Proof. unfold emit. cbn. now rewrite <- app_assoc. Qed.

(** [load_excel] on a readable table with the required columns and a
    text-typed address column. *)
Lemma load_excel_run (arg : option string) (p : string) (t : Table)
    (w : World) :
  excel_path_of host arg = Some p ->
  read_excel host p = ReadOk t ->
  In "email" (columns t) -> In "nombre" (columns t) ->
  object_dtype (column "email" (body t)) = true ->
  load_excel host arg w
  = (Ok {| columns := columns t; body := List.filter valid_row (body t) |},
     {| heap := heap w; calls := calls w;
        trace := trace w ++ load_lines host p t; results := results w |}).
Proof.
  intros Hp Hread He Hn Hd.
  unfold load_excel.
  assert (Hpath : (match arg with
                   | Some p0 => ret p0
                   | None => config_get (files_cfg host) "excel_path"
                   end) w = (Ok p, w)).
  { destruct arg as [p0|]; cbn in Hp.
    - now injection Hp as ->.
    - unfold config_get. now rewrite Hp. }
  rewrite (bind_ok _ _ _ _ _ Hpath).
  unfold bind at 1. unfold log at 1. cbn iota beta.
  rewrite Hread. unfold bind at 1. unfold ret at 1. cbn iota beta.
  cbn [List.filter]. rewrite !existsb_eqb_In by assumption. cbn [negb].
  unfold bind at 1, lift at 1, match_emails. rewrite Hd. cbn iota beta.
  change (column "email" (body t)) with
    (map (fun ir => cell_at "email" (snd ir)) (body t)).
  rewrite !map_map.
  rewrite (select_filter (fun ir => negb (str_match email_pattern
                                             (cell_at "email" (snd ir))))).
  change (fun ir : Z * Row =>
            negb (str_match email_pattern (cell_at "email" (snd ir))))
    with (fun ir => negb (valid_row ir)).
  unfold load_lines.
  destruct (List.filter (fun ir => negb (valid_row ir)) (body t))
    as [|bad dropped] eqn:Hdrop.
  - rewrite (filter_all valid_row _ Hdrop).
    unfold bind, ret, log, emit. cbn. rewrite <- app_assoc.
    destruct t; reflexivity.
  - unfold bind, ret, log, lift, emit. cbn [fst snd].
    rewrite (select_filter (fun ir => str_match email_pattern
                                        (cell_at "email" (snd ir)))).
    cbn. rewrite <- !app_assoc. reflexivity.
Qed.

End LoadFacts.

Lemma filter_filter_same (f : Z * Row -> bool) (rows : DataFrame) :
  List.filter f (List.filter f rows) = List.filter f rows.
Proof.
  induction rows as [|ir rows IH]; [reflexivity |].
  cbn [List.filter]. destruct (f ir) eqn:E; [|exact IH].
  cbn [List.filter]. now rewrite E, IH.
Qed.

Lemma filter_none_left (f : Z * Row -> bool) (rows : DataFrame) :
  List.filter (fun ir => negb (f ir)) (List.filter f rows) = [].
Proof.
  induction rows as [|ir rows IH]; [reflexivity |].
  cbn [List.filter]. destruct (f ir) eqn:E; [|exact IH].
  cbn [List.filter]. now rewrite E.
Qed.

Lemma valid_rows_object_dtype (rows : DataFrame) :
  object_dtype (column "email" (List.filter valid_row rows)) = true.
Proof.
  unfold object_dtype.
  destruct (List.filter valid_row rows) as [|ir rest] eqn:E; [reflexivity |].
  assert (Hv : valid_row ir = true).
  { assert (Hin : In ir (List.filter valid_row rows)) by (rewrite E; now left).
    now apply filter_In in Hin. }
  cbn [column map existsb]. unfold valid_row, str_match in Hv.
  destruct (cell_at "email" (snd ir)) as [[s|z]|]; try discriminate.
  reflexivity.
Qed.

(** X3. On a readable table with both required columns and text in the
    address column, [load_excel] returns the table's columns and exactly
    the rows whose address passes the check, in their order and under
    their index labels (the index is not renumbered); it writes the
    announcement, a warning when rows were dropped, and the count, and
    touches nothing else. *)
Theorem load_excel_keeps_valid_rows (host : Host) (arg : option string)
    (p : string) (t : Table) (w : World) :
  excel_path_of host arg = Some p ->
  read_excel host p = ReadOk t ->
  In "email" (columns t) -> In "nombre" (columns t) ->
  object_dtype (column "email" (body t)) = true ->
  exists t' w',
    load_excel host arg w = (Ok t', w')
    /\ columns t' = columns t
    /\ body t' = List.filter valid_row (body t)
    /\ Forall (fun ir => valid_row ir = true) (body t')
    /\ extends w w' 0 (load_lines host p t).
Proof.
  intros Hp Hread He Hn Hd.
  eexists _, _. split; [now apply (load_excel_run host arg p t) |].
  cbn [columns body]. repeat split; try reflexivity.
  - apply Forall_forall. intros ir Hin. apply list_elem_of_In in Hin.
    now apply filter_In in Hin.
  - cbn. lia.
Qed.

Lemma load_excel_keeps_valid_rows_witness :
  exists t' w',
    load_excel (host_of sheet) None empty_world = (Ok t', w')
    /\ body t' = [(1, row_ana); (2, row_luis)].
Proof.
  destruct (load_excel_keeps_valid_rows (host_of sheet) None
              "destinatarios.xlsx" sheet empty_world eq_refl eq_refl)
    as (t' & w' & Hrun & _ & Hbody & _).
  - now left.
  - right. now left.
  - reflexivity.
  - exists t', w'. split; [exact Hrun |]. rewrite Hbody. reflexivity.
Defined.

(** X4. Loading is idempotent: when the table that [load_excel] returned is
    read again, it is returned unchanged and no warning is written. *)
Theorem load_excel_idempotent (host : Host) (arg : option string)
    (p : string) (t : Table) (w : World) :
  excel_path_of host arg = Some p ->
  In "email" (columns t) -> In "nombre" (columns t) ->
  let t' := {| columns := columns t; body := List.filter valid_row (body t) |} in
  read_excel host p = ReadOk t' ->
  exists w',
    load_excel host arg w = (Ok t', w')
    /\ trace w'
       = trace w
         ++ [EvLog INFO ("Cargando Excel: " +:+ p);
             EvLog INFO ("✅ Excel cargado: "
                         +:+ str (VInt (Z.of_nat (length (body t'))))
                         +:+ " destinatarios válidos")].
Proof.
  intros Hp He Hn t' Hread.
  rewrite (load_excel_run host arg p t' w Hp Hread He Hn
             (valid_rows_object_dtype (body t))).
  eexists. cbn [columns body t' trace].
  unfold load_lines. cbn [body t'].
  rewrite filter_none_left, filter_filter_same.
  split; reflexivity.
Qed.

Lemma load_excel_idempotent_witness :
  exists w',
    load_excel (host_of {| columns := ["email"; "nombre"];
                           body := [(1, row_ana); (2, row_luis)] |})
      None empty_world
    = (Ok {| columns := ["email"; "nombre"];
             body := [(1, row_ana); (2, row_luis)] |}, w').
Proof.
  destruct (load_excel_idempotent
              (host_of {| columns := ["email"; "nombre"];
                          body := [(1, row_ana); (2, row_luis)] |})
              None "destinatarios.xlsx" sheet empty_world eq_refl)
    as (w' & Hrun & _).
  - now left.
  - right. now left.
  - reflexivity.
  - exists w'. exact Hrun.
Defined.

(** X5. When the table lacks 'email' or 'nombre', [load_excel] raises a
    [ValueError] that names the missing required columns, whatever the rows
    hold: only the announcement has been logged, no row was checked. *)
Theorem load_excel_missing_column (host : Host) (arg : option string)
    (p : string) (t : Table) (w : World) :
  excel_path_of host arg = Some p ->
  read_excel host p = ReadOk t ->
  ~ (In "email" (columns t) /\ In "nombre" (columns t)) ->
  missing_required t <> []
  /\ load_excel host arg w
     = (Raise (Exn ValueError ("❌ Columnas faltantes en Excel: "
                               +:+ repr_names (missing_required t))),
        emit (EvLog INFO ("Cargando Excel: " +:+ p)) w).
Proof.
  intros Hp Hread Hmiss.
  assert (Hne : missing_required t <> []).
  { unfold missing_required. cbn [List.filter].
    destruct (existsb (String.eqb "email") (columns t)) eqn:E1;
      [|discriminate].
    destruct (existsb (String.eqb "nombre") (columns t)) eqn:E2;
      [|discriminate].
    exfalso. apply Hmiss.
    apply existsb_exists in E1 as (x1 & Hx1 & Heq1).
    apply existsb_exists in E2 as (x2 & Hx2 & Heq2).
    apply String.eqb_eq in Heq1, Heq2. subst. now split. }
  split; [exact Hne |].
  unfold load_excel.
  assert (Hpath : (match arg with
                   | Some p0 => ret p0
                   | None => config_get (files_cfg host) "excel_path"
                   end) w = (Ok p, w)).
  { destruct arg as [p0|]; cbn in Hp.
    - now injection Hp as ->.
    - unfold config_get. now rewrite Hp. }
  rewrite (bind_ok _ _ _ _ _ Hpath).
  unfold bind at 1. unfold log at 1. cbn iota beta.
  rewrite Hread. unfold bind at 1. unfold ret at 1. cbn iota beta.
  fold (missing_required t).
  destruct (missing_required t) as [|c rest]; [congruence | reflexivity].
Qed.

Lemma load_excel_missing_column_witness :
  load_excel (host_of sheet_without_names) None empty_world
  = (Raise (Exn ValueError "❌ Columnas faltantes en Excel: ['nombre']"),
     emit (EvLog INFO "Cargando Excel: destinatarios.xlsx") empty_world).
Proof.
  apply (load_excel_missing_column (host_of sheet_without_names) None
           "destinatarios.xlsx" sheet_without_names empty_world eq_refl eq_refl).
  intros [_ [H|[]]]. discriminate.
Defined.

(** ** From rows to records *)

Section RecordFacts.

Context {A B : Type} (f : A -> B).

Local Abbreviation build := (fold_left
  (fun (d : dict B) (kv : string * A) => dict_set (fst kv) (f (snd kv)) d)).

Lemma build_some (l : dict A) :
  forall (d0 : dict B) (k : string),
  In k (keys l) \/ (exists v, dict_get k d0 = Some v) ->
  exists v, dict_get k (build l d0) = Some v.
Proof.
  induction l as [|[k1 a1] l IH]; intros d0 k H; cbn [fold_left fst snd].
  - destruct H as [[]|H]. exact H.
  - apply IH. cbn [keys map fst] in H.
    destruct H as [[<-|H]|[v Hv]].
    + right. rewrite dict_get_set_same. eauto.
    + now left.
    + right. rewrite dict_get_set.
      destruct (String.eqb k k1); eauto.
Qed.

Lemma dict_set_absent (d : dict B) (k : string) (v : B) :
  dict_get k d = None -> dict_set k v d = d ++ [(k, v)].
Proof.
  induction d as [|[k1 v1] d IH]; cbn [dict_get dict_set]; [reflexivity |].
  destruct (String.eqb k k1); [discriminate |].
  intros H. cbn [app]. now rewrite IH.
Qed.

Lemma dict_get_snoc (d : dict B) (k k1 : string) (v : B) :
  dict_get k d = None -> k <> k1 -> dict_get k (d ++ [(k1, v)]) = None.
Proof.
  intros Hd Hne. induction d as [|[k2 v2] d IH]; cbn [app dict_get] in *.
  - destruct (String.eqb_spec k k1); [congruence | reflexivity].
  - destruct (String.eqb k k2); [discriminate | now apply IH].
Qed.

Lemma build_fresh (l : dict A) :
  forall d0 : dict B,
  NoDup (keys l) ->
  (forall k, In k (keys l) -> dict_get k d0 = None) ->
  build l d0 = d0 ++ map (fun kv => (fst kv, f (snd kv))) l.
Proof.
  induction l as [|[k1 a1] l IH]; intros d0 Hnd Hfresh;
    cbn [fold_left map fst snd].
  - now rewrite app_nil_r.
  - cbn [keys map fst] in Hnd. apply NoDup_cons in Hnd as [Hk1 Hnd].
    rewrite dict_set_absent by (apply Hfresh; now left).
    rewrite IH; [now rewrite <- app_assoc | exact Hnd |].
    intros k Hk. apply dict_get_snoc.
    + apply Hfresh. now right.
    + intros ->. apply Hk1. now apply list_elem_of_In.
Qed.

End RecordFacts.

Lemma record_of_has (row : Row) (k : string) :
  In k (keys row) -> exists v, dict_get k (record_of row) = Some v.
Proof.
  intros H. unfold record_of, fill_missing.
  apply (build_some (fun c : cell => match c with Val v => v | NaN => VStr "" end)).
  left. unfold to_dict.
  destruct (build_some (fun c : cell => c) row [] k (or_introl H)) as [v Hv].
  apply dict_get_In in Hv. now apply (in_map fst) in Hv.
Qed.

(** X6. For a row with distinct labels, the record handed to the PDF
    generator and the templates has the row's labels in the row's order;
    only missing cells change: they become the empty text. *)
Theorem record_of_row (row : Row) :
  NoDup (keys row) ->
  record_of row = map (fun kc => (fst kc, blank_if_missing (snd kc))) row.
Proof.
  intros Hnd. unfold record_of, fill_missing, to_dict.
  rewrite (build_fresh (fun c : cell => c) row []) by (auto; reflexivity).
  cbn [app].
  assert (Hid : map (fun kv : string * cell => (fst kv, snd kv)) row = row).
  { rewrite <- (map_id row) at 2. apply map_ext. now intros []. }
  rewrite Hid.
  rewrite (build_fresh
             (fun c : cell => match c with Val v => v | NaN => VStr "" end)
             row []) by (auto; reflexivity).
  reflexivity.
Qed.

Lemma record_of_row_witness :
  record_of [("email", Val (VStr "ana@example.com")); ("empresa", NaN)]
  = [("email", VStr "ana@example.com"); ("empresa", VStr "")].
Proof.
  apply (record_of_row
           [("email", Val (VStr "ana@example.com")); ("empresa", NaN)]).
  repeat constructor; cbn; intros H; inversion H; subst;
    match goal with H' : _ ∈ _ |- _ => inversion H' end.
Defined.

(** ** Loading, then sending *)

Lemma labels_below_last (len : nat) :
  forall (k : nat) (rows : DataFrame),
  map fst rows = map Z.of_nat (seq k (S len)) ->
  length (filter (fun ir => fst ir < Z.of_nat (k + S len) - 1) rows) = len.
Proof.
  induction len as [|len IH]; intros k rows Hrows.
  - destruct rows as [|[i r] [|? ?]]; try discriminate.
    cbn [map seq fst] in Hrows. injection Hrows as ->.
    rewrite (filter_cons (fun ir : Z * Row => fst ir < Z.of_nat (k + 1) - 1)).
    cbn [fst]. destruct (decide (Z.of_nat k < Z.of_nat (k + 1) - 1)); [lia |].
    reflexivity.
  - destruct rows as [|[i r] rows]; [discriminate |].
    cbn [map seq fst] in Hrows. injection Hrows as -> Hrows.
    rewrite (filter_cons (fun ir : Z * Row => fst ir < Z.of_nat (k + S (S len)) - 1)).
    cbn [fst].
    destruct (decide (Z.of_nat k < Z.of_nat (k + S (S len)) - 1)); [|lia].
    cbn [length]. f_equal.
    replace (k + S (S len))%nat with (S k + S len)%nat by lia.
    now apply IH.
Qed.


Section ComposeFacts.

Context (self : Sender) (env : Env).
Context (F S : string) (m d : Z).
Hypothesis HF : email_cfg (config self) !! "from_name" = Some F.
Hypothesis HS : email_cfg (config self) !! "subject" = Some S.
Hypothesis Hm : settings_cfg (config self) !! "max_retries" = Some m.
Hypothesis Hd : settings_cfg (config self) !! "delay_between_emails" = Some d.
Hypothesis Hd0 : 0 <= d.

Lemma loaded_rows_are_recipients (t : Table) :
  table_ok t -> In "email" (columns t) -> In "nombre" (columns t) ->
  Forall (fun ir => has_recipient (snd ir)) (List.filter valid_row (body t)).
Proof.
  intros Hok He Hn. apply Forall_forall. intros ir Hin.
  apply list_elem_of_In, filter_In in Hin as [Hin _].
  unfold table_ok in Hok. rewrite Forall_forall in Hok.
  specialize (Hok ir ltac:(now apply list_elem_of_In)). cbn beta in Hok.
  rewrite <- Hok in He, Hn.
  split; apply record_of_has; assumption.
Qed.

Lemma send_bulk_run (df : DataFrame) (preview_mode : bool) (w : World) :
  let processed := if preview_mode then take 1 df else df in
  Forall (fun ir => has_recipient (snd ir)) processed ->
  exists new w',
    send_bulk_emails self env df preview_mode w
    = (Ok {| total := Z.of_nat (length processed);
             success := successes new; failed := failures new |}, w')
    /\ results w' = results w ++ new
    /\ length new = length processed
    /\ successes new + failures new = Z.of_nat (length new).
Proof.
  intros processed Hproc.
  destruct (rows_loop_run self env F S m d HF HS Hm Hd Hd0
              (Z.of_nat (length processed)) processed 0 0 w Hproc)
    as (new & w' & Hloop & Hres & Hemail & _ & Hsum).
  exists new, w'. split.
  { unfold send_bulk_emails. fold processed.
    rewrite (bind_ok _ _ _ _ _ Hloop). reflexivity. }
  split; [exact Hres |]. split; [|exact Hsum].
  apply (f_equal (@length _)) in Hemail. now rewrite !length_map in Hemail.
Qed.

Lemma send_bulk_delays (df : DataFrame) (preview_mode : bool) (w : World) :
  let processed := if preview_mode then take 1 df else df in
  Forall (fun ir => has_recipient (snd ir)) processed ->
  waits InterRecipient
    (trace (snd (send_bulk_emails self env df preview_mode w)))
  = (waits InterRecipient (trace w)
     + length (filter (fun ir : Z * Row =>
                         (fst ir < Z.of_nat (length processed) - 1)%Z)
                 processed))%nat.
Proof.
  intros processed Hproc.
  destruct (rows_loop_delays self env F S m d HF HS Hm Hd Hd0
              (Z.of_nat (length processed)) processed 0 0 w Hproc)
    as (tr & Htr & Hwaits).
  unfold send_bulk_emails. fold processed. unfold bind.
  destruct (rows_loop self env (Z.of_nat (length processed)) processed 0 0 w)
    as [[counts|e] w1]; cbn [snd ret] in *;
    now rewrite Htr, waits_app, Hwaits.
Qed.

End ComposeFacts.

(** X7. Loading and sending compose: on a table with both required
    columns, text in the address column and rows that have the table's
    columns, what [load_excel] returns is processed by [send_bulk_emails]
    to the end; the summary's total is the number of rows whose address
    passed the check, and the ledger grows by that many rows. *)
Theorem load_then_send (self : Sender) (env : Env) (host : Host)
    (F S : string) (m d : Z) (arg : option string) (p : string) (t : Table)
    (w : World) :
  email_cfg (config self) !! "from_name" = Some F ->
  email_cfg (config self) !! "subject" = Some S ->
  settings_cfg (config self) !! "max_retries" = Some m ->
  settings_cfg (config self) !! "delay_between_emails" = Some d ->
  0 <= d ->
  excel_path_of host arg = Some p ->
  read_excel host p = ReadOk t ->
  In "email" (columns t) -> In "nombre" (columns t) ->
  object_dtype (column "email" (body t)) = true ->
  table_ok t ->
  exists t' w1 stats w2,
    load_excel host arg w = (Ok t', w1)
    /\ send_bulk_emails self env (body t') false w1 = (Ok stats, w2)
    /\ total stats = Z.of_nat (length (List.filter valid_row (body t)))
    /\ success stats + failed stats = total stats
    /\ length (results w2)
       = (length (results w) + length (List.filter valid_row (body t)))%nat.
Proof.
  intros HF HS Hm Hd Hd0 Hp Hread He Hn Hdt Hok.
  rewrite (load_excel_run host arg p t w Hp Hread He Hn Hdt).
  set (w1 := {| heap := heap w; calls := calls w;
                trace := trace w ++ load_lines host p t;
                results := results w |}).
  destruct (send_bulk_run self env F S m d HF HS Hm Hd Hd0
              (List.filter valid_row (body t)) false w1
              (loaded_rows_are_recipients t Hok He Hn))
    as (new & w2 & Hrun & Hres & Hlen & Hsum).
  eexists _, w1, _, w2. split; [reflexivity |]. cbn [body].
  split; [exact Hrun |]. cbn [total success failed].
  split; [reflexivity |]. split; [lia |].
  rewrite Hres, length_app, Hlen. reflexivity.
Qed.

Lemma load_then_send_witness :
  exists t' w1 stats w2,
    load_excel (host_of sheet) None empty_world = (Ok t', w1)
    /\ send_bulk_emails demo_sender env_up (body t') false w1 = (Ok stats, w2)
    /\ total stats = 2.
Proof.
  destruct (load_then_send demo_sender env_up (host_of sheet) "Equipo"
              "Hola {{nombre}}" 3 1 None "destinatarios.xlsx" sheet empty_world
              eq_refl eq_refl eq_refl eq_refl ltac:(lia) eq_refl eq_refl)
    as (t' & w1 & stats & w2 & Hload & Hsend & Htotal & _).
  - now left.
  - right. now left.
  - reflexivity.
  - repeat constructor.
  - exists t', w1, stats, w2. repeat split; assumption.
Defined.

(** X8. The wait after a recipient follows the row's index label: in a run
    over recipient records, the number of inter-recipient waits is the
    number of processed rows whose label is below [total - 1]. *)
Theorem delay_follows_index_label (self : Sender) (env : Env)
    (F S : string) (m d : Z) (df : DataFrame) (preview_mode : bool)
    (w : World) :
  email_cfg (config self) !! "from_name" = Some F ->
  email_cfg (config self) !! "subject" = Some S ->
  settings_cfg (config self) !! "max_retries" = Some m ->
  settings_cfg (config self) !! "delay_between_emails" = Some d ->
  0 <= d ->
  let processed := if preview_mode then take 1 df else df in
  Forall (fun ir => has_recipient (snd ir)) processed ->
  waits InterRecipient
    (trace (snd (send_bulk_emails self env df preview_mode w)))
  = (waits InterRecipient (trace w)
     + length (filter (fun ir : Z * Row =>
                         (fst ir < Z.of_nat (length processed) - 1)%Z)
                 processed))%nat.
Proof.
  intros HF HS Hm Hd Hd0 processed Hproc.
  now apply (send_bulk_delays self env F S m d).
Qed.

Lemma delay_follows_index_label_witness :
  waits InterRecipient
    (trace (snd (send_bulk_emails demo_sender env_up df_gap false empty_world)))
  = (waits InterRecipient (trace empty_world)
     + length (filter (fun ir : Z * Row =>
                         (fst ir < Z.of_nat (length df_gap) - 1)%Z)
                 df_gap))%nat.
Proof.
  apply (delay_follows_index_label demo_sender env_up "Equipo"
           "Hola {{nombre}}" 3 1 df_gap false empty_world
           eq_refl eq_refl eq_refl eq_refl ltac:(lia)).
  repeat constructor; cbn; eexists; reflexivity.
Defined.

(** X9. When the rows carry the labels 0, 1, ..., n-1 (no row was dropped
    before them), a run over these n >= 1 recipients waits exactly n-1
    times between recipients: after every one but the last. *)
Theorem delay_between_consecutive_labels (self : Sender) (env : Env)
    (F subj : string) (m d : Z) (df : DataFrame) (n : nat) (w : World) :
  email_cfg (config self) !! "from_name" = Some F ->
  email_cfg (config self) !! "subject" = Some subj ->
  settings_cfg (config self) !! "max_retries" = Some m ->
  settings_cfg (config self) !! "delay_between_emails" = Some d ->
  0 <= d ->
  Forall (fun ir => has_recipient (snd ir)) df ->
  map fst df = map Z.of_nat (seq 0 (S n)) ->
  waits InterRecipient
    (trace (snd (send_bulk_emails self env df false w)))
  = (waits InterRecipient (trace w) + n)%nat.
Proof.
  intros HF HS Hm Hd Hd0 Hdf Hlabels.
  rewrite (send_bulk_delays self env F subj m d HF HS Hm Hd Hd0 df false w Hdf).
  f_equal.
  assert (Hlen : length df = S n).
  { apply (f_equal (@length _)) in Hlabels.
    now rewrite !length_map, length_seq in Hlabels. }
  rewrite Hlen. now apply (labels_below_last n 0 df).
Qed.

Lemma delay_between_consecutive_labels_witness :
  waits InterRecipient
    (trace (snd (send_bulk_emails demo_sender env_up df_full false empty_world)))
  = (waits InterRecipient (trace empty_world) + 1)%nat.
Proof.
  apply (delay_between_consecutive_labels demo_sender env_up "Equipo"
           "Hola {{nombre}}" 3 1 df_full 1 empty_world
           eq_refl eq_refl eq_refl eq_refl ltac:(lia)).
  - repeat constructor; cbn; eexists; reflexivity.
  - reflexivity.
Defined.

(** ** How many attempts a run can make *)

Section Spends.

Lemma spends_still {A} (m : M A) :
  (forall w, calls (snd (m w)) = calls w) -> spends 0 m.
Proof. intros H w. rewrite H. lia. Qed.

Lemma spends_more {A} (n n' : nat) (m : M A) :
  (n <= n')%nat -> spends n m -> spends n' m.
Proof. intros Hle H w. specialize (H w). lia. Qed.

Lemma spends_bind {A B} (n1 n2 : nat) (m : M A) (k : A -> M B) :
  spends n1 m -> (forall a, spends n2 (k a)) -> spends (n1 + n2) (bind m k).
Proof.
  intros Hm Hk w. unfold bind. specialize (Hm w).
  destruct (m w) as [[a|e] w1]; cbn [snd] in *.
  - specialize (Hk a w1). lia.
  - lia.
Qed.

Lemma spends_then {A B} (n : nat) (m : M A) (k : A -> M B) :
  spends 0 m -> (forall a, spends n (k a)) -> spends n (bind m k).
Proof. intros Hm Hk. now apply (spends_bind 0 n). Qed.

Lemma spends_try {A} (m : M A) (h : exn -> M A) :
  spends 0 m -> (forall e, spends 0 (h e)) -> spends 0 (try_except m h).
Proof.
  intros Hm Hh w. unfold try_except. specialize (Hm w).
  destruct (m w) as [[a|e] w1]; cbn [snd] in *.
  - lia.
  - specialize (Hh e w1). lia.
Qed.

Lemma spends_ret {A} (a : A) : spends 0 (ret a).
Proof. now apply spends_still. Qed.

Lemma spends_config_get {V} (section : gmap string V) (k : string) :
  spends 0 (config_get section k).
Proof.
  apply spends_still. intros w. unfold config_get. now destruct (section !! k).
Qed.

Lemma spends_dict_getitem (data : loc) (k : string) :
  spends 0 (dict_getitem data k).
Proof.
  apply spends_still. intros w. unfold dict_getitem.
  now destruct (dict_get k (deref data w)).
Qed.

Lemma spends_sleep (site : sleep_site) (secs : Z) : spends 0 (sleep site secs).
Proof.
  apply spends_still. intros w. unfold sleep. now destruct (secs <? 0).
Qed.

Context (self : Sender) (env : Env).

Lemma spends_render (tpl : string) (data : loc) :
  spends 0 (_render_template self tpl data).
Proof.
  apply spends_still. intros w.
  unfold _render_template, bind, config_get, dict_setitem, dict_items, ret.
  now destruct (email_cfg (config self) !! "from_name").
Qed.

Lemma spends_make_attachment (data : loc) :
  spends 0 (make_attachment self data).
Proof.
  unfold make_attachment. apply spends_try.
  - repeat first
      [ apply spends_ret | apply spends_dict_getitem
      | now apply spends_still
      | apply spends_then; [|intros ?] ].
  - intros e. destruct (isinstance e Exception_); [|now apply spends_still].
    apply spends_then; [apply spends_dict_getitem | intros to].
    apply spends_then; [now apply spends_still | intros _; apply spends_ret].
Qed.

Lemma spends_send_email (to_email : value) (subject html_body : string)
    (pdf_data : option bytes) (pdf_filename : string) :
  spends 1 (send_email self env to_email subject html_body pdf_data
              pdf_filename).
Proof.
  intros w.
  destruct (send_email_run self env to_email subject html_body pdf_data
              pdf_filename w) as (tr & Heq & _).
  rewrite Heq. cbn. lia.
Qed.

Lemma spends_attempt_loop (attempts : list Z) (m : Z) (data : loc)
    (subject html_body : string) (pdf_data : option bytes)
    (pdf_filename : string) (succ : bool) (err : option string) :
  spends (length attempts)
    (attempt_loop self env attempts m data subject html_body pdf_data
       pdf_filename succ err).
Proof.
  revert succ err.
  induction attempts as [|a rest IH]; intros succ err; cbn [attempt_loop length].
  - apply spends_ret.
  - apply spends_then; [apply spends_dict_getitem | intros to].
    apply (spends_bind 1 (length rest)); [apply spends_send_email |].
    intros [s e]. destruct s.
    + apply (spends_more 0); [lia | apply spends_ret].
    + apply spends_then; [|intros _; apply IH].
      destruct (a <? m - 1); [apply spends_sleep | apply spends_ret].
Qed.

Lemma spends_deliver (data : loc) (subject html_body : string)
    (pdf_data : option bytes) (pdf_filename : string) :
  spends (retries self)
    (deliver self env data subject html_body pdf_data pdf_filename).
Proof.
  intros w. unfold deliver, bind, config_get, retries.
  destruct (settings_cfg (config self) !! "max_retries") as [m|];
    cbn [default from_option id snd].
  - pose proof (spends_attempt_loop (range m) m data subject html_body
                  pdf_data pdf_filename false None w) as H.
    assert (Hlen : length (range m) = Z.to_nat m)
      by (unfold range; now rewrite length_map, length_seq).
    rewrite Hlen in H. exact H.
  - lia.
Qed.

Lemma spends_record_result (data : loc) (succ : bool) (err : option string)
    (sc fc : Z) :
  spends 0 (record_result env data succ err sc fc).
Proof.
  unfold record_result.
  apply spends_then; [apply spends_dict_getitem | intros e].
  apply spends_then; [apply spends_dict_getitem | intros n].
  apply spends_then; [now apply spends_still | intros r].
  apply spends_then; [now apply spends_still | intros _].
  destruct succ; apply spends_ret.
Qed.

Lemma spends_process_row (total idx : Z) (row : Row) (sc fc : Z) :
  spends (retries self) (process_row self env total idx row sc fc).
Proof.
  unfold process_row.
  apply spends_then; [now apply spends_still | intros data].
  apply spends_then; [apply spends_make_attachment | intros [pdf fn]].
  apply spends_then; [apply spends_render | intros html].
  apply spends_then; [apply spends_config_get | intros st].
  apply spends_then; [apply spends_render | intros subject].
  rewrite <- (Nat.add_0_r (retries self)).
  apply spends_bind; [apply spends_deliver | intros [s e]].
  apply spends_then; [apply spends_record_result | intros counts].
  apply spends_then; [|intros _; apply spends_ret].
  destruct (idx <? total - 1); [|apply spends_ret].
  apply spends_then; [apply spends_config_get | intros d].
  apply spends_sleep.
Qed.

Lemma spends_rows_loop (total : Z) (rows : DataFrame) (sc fc : Z) :
  spends (length rows * retries self) (rows_loop self env total rows sc fc).
Proof.
  revert sc fc. induction rows as [|[idx row] rest IH]; intros sc fc;
    cbn [rows_loop length].
  - apply spends_ret.
  - cbn [Nat.mul]. apply spends_bind; [apply spends_process_row |].
    intros counts. apply IH.
Qed.

End Spends.

(** X10. In every run, finished or aborted, [send_bulk_emails] calls
    [send_email] at most [max_retries] times per processed recipient. *)
Theorem attempts_bounded (self : Sender) (env : Env) (df : DataFrame)
    (preview_mode : bool) (w : World) :
  let processed := if preview_mode then take 1 df else df in
  (calls w <= calls (snd (send_bulk_emails self env df preview_mode w))
   <= calls w + length processed * retries self)%nat.
Proof.
  intros processed. unfold send_bulk_emails. fold processed.
  rewrite <- (Nat.add_0_r (length processed * retries self)).
  apply spends_bind; [apply spends_rows_loop | intros counts; apply spends_ret].
Qed.

(** ** The SMTP session of one call *)

Section SessionFacts.

Context (self : Sender) (env : Env).
Context (to_email : value) (subject html_body : string)
        (pdf_data : option bytes) (pdf_filename : string).

Lemma smtp_ops_app (t1 t2 : list event) :
  smtp_ops (t1 ++ t2) = smtp_ops t1 ++ smtp_ops t2.
Proof. unfold smtp_ops. apply omap_app. Qed.

Lemma smtp_ops_map (call : nat) (ops : list smtp_op) :
  smtp_ops (map (EvSmtp call) ops) = ops.
Proof.
  induction ops as [|op ops IH]; [reflexivity |].
  cbn. f_equal. exact IH.
Qed.

(** The events of a call: the operations of the session up to the first
    that raises, then one log line. *)
Lemma send_email_events (F : string) (w : World) :
  email_cfg (config self) !! "from_name" = Some F ->
  exists lvl line,
    trace (snd (send_email self env to_email subject html_body pdf_data
                  pdf_filename w))
    = trace w
      ++ map (EvSmtp (calls w))
           (attempted (smtp env (calls w))
              (session self (message_of self F to_email subject html_body
                               pdf_data pdf_filename)))
      ++ [EvLog lvl line]
    /\ (fst (send_email self env to_email subject html_body pdf_data
               pdf_filename w) = Ok (true, None)
        <-> Forall (fun op => smtp env (calls w) op = None)
              (session self (message_of self F to_email subject html_body
                               pdf_data pdf_filename))).
Proof.
  intros HF.
  unfold send_email, try_except, bind, enter_send_email.
  cbn [calls set_calls].
  unfold send_email_try, send_email_except, bind, config_get, smtp_do, log,
    ret, raise, emit, session, message_of, attachment_of.
  cbn [calls set_calls heap trace results fst snd].
  rewrite HF.
  destruct (default true (use_tls (smtp_cfg (config self))));
  repeat match goal with
  | |- context [match smtp env ?n ?op with _ => _ end] =>
      destruct (smtp env n op) as [?e|] eqn:?
  end;
  repeat match goal with
  | |- context [isinstance ?e Exception_] => rewrite (isinstance_root e)
  | |- context [isinstance ?e ?c] => destruct (isinstance e c)
  end;
  cbn [calls set_calls heap trace results fst snd app attempted map];
  repeat match goal with
  | H : smtp env _ _ = _ |- _ => rewrite H
  end;
  (eexists _, _; split;
   [rewrite <- ?app_assoc; cbn [app map]; reflexivity
   | split;
     [ try discriminate; intros _; repeat constructor; assumption
     | try reflexivity; intros Hall;
       repeat (apply Forall_cons in Hall as [? Hall]); congruence ]]).
Qed.

End SessionFacts.

(** X11. A call of [send_email] performs the operations of the session in
    order (connect, STARTTLS unless TLS is switched off, login, send, quit)
    up to the first one that raises, writes one log line, and succeeds
    exactly when every operation of the session succeeds. *)
Theorem send_email_session (self : Sender) (env : Env) (to_email : value)
    (subject html_body : string) (pdf_data : option bytes)
    (pdf_filename : string) (F : string) (w : World) :
  email_cfg (config self) !! "from_name" = Some F ->
  let msg := message_of self F to_email subject html_body pdf_data
               pdf_filename in
  exists lvl line,
    trace (snd (send_email self env to_email subject html_body pdf_data
                  pdf_filename w))
    = trace w
      ++ map (EvSmtp (calls w))
           (attempted (smtp env (calls w)) (session self msg))
      ++ [EvLog lvl line]
    /\ (fst (send_email self env to_email subject html_body pdf_data
               pdf_filename w) = Ok (true, None)
        <-> Forall (fun op => smtp env (calls w) op = None)
              (session self msg)).
Proof. intros HF msg. now apply send_email_events. Qed.

Lemma send_email_session_witness :
  exists lvl line,
    trace (snd (send_email demo_sender env_down (VStr "ana@example.com")
                  "Hola" "<p>Hola</p>" None "documento.pdf" empty_world))
    = trace empty_world
      ++ map (EvSmtp (calls empty_world))
           [OpConnect "smtp.office365.com" 587; OpStartTLS;
            OpLogin "ventas@outlook.com" "secreto"]
      ++ [EvLog lvl line].
Proof.
  destruct (send_email_session demo_sender env_down (VStr "ana@example.com")
              "Hola" "<p>Hola</p>" None "documento.pdf" "Equipo" empty_world
              eq_refl) as (lvl & line & Htr & _).
  exists lvl, line. exact Htr.
Defined.

(** X12. In a call of [send_email], the credentials are sent only after
    STARTTLS succeeded (unless TLS is switched off); the only message handed
    to the server is the one the call built, and only after the login
    succeeded; [quit] is called only after the server took that message,
    and is called whenever the call succeeds. So an attempt that fails
    before [quit] never calls it: the connection is left open. *)
Theorem session_order (self : Sender) (env : Env) (to_email : value)
    (subject html_body : string) (pdf_data : option bytes)
    (pdf_filename : string) (F : string) (w : World) :
  email_cfg (config self) !! "from_name" = Some F ->
  let msg := message_of self F to_email subject html_body pdf_data
               pdf_filename in
  let login := OpLogin (email self) (password self) in
  exists tr,
    trace (snd (send_email self env to_email subject html_body pdf_data
                  pdf_filename w)) = trace w ++ tr
    /\ (In login (smtp_ops tr) ->
        use_tls (smtp_cfg (config self)) <> Some false ->
        In OpStartTLS (smtp_ops tr) /\ smtp env (calls w) OpStartTLS = None)
    /\ (forall msg', In (OpSendMessage msg') (smtp_ops tr) ->
        msg' = msg /\ In login (smtp_ops tr)
        /\ smtp env (calls w) login = None)
    /\ (In OpQuit (smtp_ops tr) ->
        In (OpSendMessage msg) (smtp_ops tr)
        /\ smtp env (calls w) (OpSendMessage msg) = None)
    /\ (fst (send_email self env to_email subject html_body pdf_data
               pdf_filename w) = Ok (true, None) ->
        In OpQuit (smtp_ops tr))
    /\ (forall op, In op (session self msg) -> op <> OpQuit ->
        smtp env (calls w) op <> None -> ~ In OpQuit (smtp_ops tr)).
Proof.
  intros HF msg login.
  destruct (send_email_events self env to_email subject html_body pdf_data
              pdf_filename F w HF) as (lvl & line & Htr & Hiff).
  fold msg in Htr, Hiff.
  eexists. split; [exact Htr |].
  rewrite smtp_ops_app, smtp_ops_map. cbn [smtp_ops omap list_omap].
  rewrite app_nil_r.
  pose proof (proj1 Hiff) as Hall. clear Hiff Htr.
  set (res := fst (send_email self env to_email subject html_body pdf_data
                     pdf_filename w)) in *.
  unfold session in *. set (call := calls w) in *.
  destruct (use_tls (smtp_cfg (config self))) as [[|]|] eqn:Htls;
    cbn [default from_option id app attempted] in *;
    repeat match goal with
    | |- context [match smtp env ?n ?op with _ => _ end] =>
        destruct (smtp env n op) as [?e|] eqn:?
    end;
    cbn [In];
    repeat split; intros;
    repeat match goal with
    | H : _ \/ _ |- _ => destruct H
    | H : False |- _ => destruct H
    | H : ?x <> ?x |- _ => now destruct H
    | H : OpSendMessage _ = OpSendMessage _ |- _ => injection H as <-
    | H : _ = _ |- _ => discriminate H
    end;
    subst;
    try reflexivity; try assumption; try congruence;
    try (cbn [In]; tauto);
    try (intros Hq; cbn [In] in Hq; intuition discriminate);
    try (specialize (Hall ltac:(assumption));
         repeat (apply Forall_cons in Hall as [? Hall]); congruence).
Qed.

Lemma session_order_witness :
  exists tr,
    trace (snd (send_email demo_sender env_down (VStr "ana@example.com")
                  "Hola" "<p>Hola</p>" None "documento.pdf" empty_world))
    = trace empty_world ++ tr
    /\ ~ In OpQuit (smtp_ops tr).
Proof.
  destruct (session_order demo_sender env_down (VStr "ana@example.com")
              "Hola" "<p>Hola</p>" None "documento.pdf" "Equipo" empty_world
              eq_refl) as (tr & Htr & _ & Hmsg & Hquit & _).
  exists tr. split; [exact Htr |].
  intros Hq. destruct (Hquit Hq) as [Hin _].
  destruct (Hmsg _ Hin) as (_ & _ & Hlogin). discriminate Hlogin.
Defined.

(** ** What the attempts of a recipient send *)

Section AttemptEvents.

Context (self : Sender) (env : Env).
Context (m : Z) (data : loc) (subject html_body : string)
        (pdf_data : option bytes) (pdf_filename : string) (to : value)
        (F : string).
Hypothesis HF : email_cfg (config self) !! "from_name" = Some F.

Lemma attempted_all (server : smtp_op -> option exn) (ops : list smtp_op) :
  Forall (fun op => server op = None) ops -> attempted server ops = ops.
Proof.
  induction 1 as [|op ops Hop _ IH]; cbn [attempted]; [reflexivity |].
  now rewrite Hop, IH.
Qed.

Lemma session_has_message (msg : Message) :
  In (OpSendMessage msg) (session self msg).
Proof.
  unfold session.
  destruct (default true (use_tls (smtp_cfg (config self)))); cbn; tauto.
Qed.

Lemma sent_messages_smtp (call : nat) (ops : list smtp_op) (msg : Message) :
  In (OpSendMessage msg) ops ->
  In msg (sent_messages (map (EvSmtp call) ops)).
Proof.
  induction ops as [|op ops IH]; [intros [] |].
  cbn [map].
  change (EvSmtp call op :: map (EvSmtp call) ops)
    with ([EvSmtp call op] ++ map (EvSmtp call) ops).
  rewrite sent_messages_app. intros [->|Hin]; apply in_or_app.
  - left. cbn. now left.
  - right. now apply IH.
Qed.

(** A call that reports success returns [(True, None)]. *)
Lemma send_email_true (w w' : World) (r : bool * option string) :
  send_email self env to subject html_body pdf_data pdf_filename w
  = (Ok r, w') ->
  fst r = true -> r = (true, None).
Proof.
  unfold send_email, bind, enter_send_email, try_except. cbv beta iota.
  destruct (send_email_try _ _ _ _ _ _ _ _ _) as [[r0|x] w1] eqn:E.
  - intros H _. injection H as <- _.
    exact (send_email_try_ok self env _ _ _ _ _ _ _ _ _ E).
  - rewrite send_email_except_run. intros H Hr. injection H as <- _.
    discriminate Hr.
Qed.

(** One call: its outcome, the session it runs, and the message a
    successful call has handed to the server. *)
Lemma send_email_step (w : World) :
  exists lvl line,
    send_email self env to subject html_body pdf_data pdf_filename w
    = (Ok (attempt_result self env (calls w) to subject html_body pdf_data
             pdf_filename),
       {| heap := heap w; calls := S (calls w);
          trace := trace w
                   ++ map (EvSmtp (calls w))
                        (attempted (smtp env (calls w))
                           (session self
                              (message_of self F to subject html_body
                                 pdf_data pdf_filename)))
                   ++ [EvLog lvl line];
          results := results w |})
    /\ (fst (attempt_result self env (calls w) to subject html_body pdf_data
               pdf_filename) = true ->
        In (message_of self F to subject html_body pdf_data pdf_filename)
          (sent_messages
             (map (EvSmtp (calls w))
                (attempted (smtp env (calls w))
                   (session self
                      (message_of self F to subject html_body pdf_data
                         pdf_filename)))))).
Proof.
  destruct (send_email_run self env to subject html_body pdf_data
              pdf_filename w) as (tr & Heq & _ & _).
  destruct (send_email_events self env to subject html_body pdf_data
              pdf_filename F w HF) as (lvl & line & Htr & Hiff).
  rewrite Heq in Htr, Hiff. cbn [fst snd trace] in Htr, Hiff.
  apply app_inv_head in Htr. subst tr.
  exists lvl, line. split; [exact Heq |].
  intros Hok. apply sent_messages_smtp.
  rewrite attempted_all; [apply session_has_message |].
  apply Hiff. f_equal. exact (send_email_true _ _ _ Heq Hok).
Qed.

(** The attempts of a recipient: the first call's session opens the
    events, and a success means that the message went to the server. *)
Lemma attempt_loop_events (attempts : list Z) :
  forall (succ : bool) (err : option string) (w : World),
  dict_get "email" (deref data w) = Some to ->
  exists r w' j tr,
    attempt_loop self env attempts m data subject html_body pdf_data
      pdf_filename succ err w = (Ok r, w')
    /\ extends w w' j tr
    /\ (attempts = [] -> r = (succ, err))
    /\ (attempts <> [] ->
        exists lvl line more,
          tr = map (EvSmtp (calls w))
                 (attempted (smtp env (calls w))
                    (session self
                       (message_of self F to subject html_body pdf_data
                          pdf_filename)))
               ++ EvLog lvl line :: more)
    /\ (attempts <> [] -> fst r = true ->
        In (message_of self F to subject html_body pdf_data pdf_filename)
          (sent_messages tr)).
Proof.
  induction attempts as [|a rest IH]; intros succ err w Hto.
  - exists (succ, err), w, 0%nat, []. split; [reflexivity |].
    split; [apply extends_refl |]. split; [reflexivity |].
    split; intros H; now destruct H.
  - destruct (send_email_step w) as (lvl & line & Hstep & Hsent).
    set (msg := message_of self F to subject html_body pdf_data pdf_filename)
      in *.
    set (tr1 := map (EvSmtp (calls w))
                  (attempted (smtp env (calls w)) (session self msg))
                ++ [EvLog lvl line]).
    set (w1 := {| heap := heap w; calls := S (calls w);
                  trace := trace w ++ tr1; results := results w |}).
    assert (Hext1 : extends w w1 1 tr1).
    { unfold extends. cbn. repeat split; try reflexivity. lia. }
    assert (Hin1 : fst (attempt_result self env (calls w) to subject html_body
                          pdf_data pdf_filename) = true ->
                   In msg (sent_messages tr1)).
    { intros Hok. unfold tr1. rewrite sent_messages_app. apply in_or_app.
      left. now apply Hsent. }
    cbn [attempt_loop]. unfold bind at 1, dict_getitem. rewrite Hto.
    unfold bind at 1. rewrite Hstep. fold tr1. fold w1.
    destruct (attempt_result self env (calls w) to subject html_body pdf_data
                pdf_filename) as [[|] e'] eqn:Ho; cbn [fst] in Hin1.
    + exists (true, e'), w1, 1%nat, tr1. split; [reflexivity |].
      split; [exact Hext1 |]. split; [discriminate |].
      split.
      { intros _. exists lvl, line, []. reflexivity. }
      intros _ _. now apply Hin1.
    + set (w2 := if a <? m - 1 then emit (EvSleep RetryBackoff 2) w1 else w1).
      assert (Hext2 : exists t2, extends w1 w2 0 t2 /\ sent_messages t2 = []).
      { subst w2. destruct (a <? m - 1).
        - eexists. split; [apply extends_emit | reflexivity].
        - eexists. split; [apply extends_refl | reflexivity]. }
      destruct Hext2 as (t2 & Hext2 & Hsm2).
      pose proof (extends_trans _ _ _ _ _ _ _ Hext1 Hext2) as Hext12.
      destruct (IH false e' w2) as (r & w' & j' & tr' & Hrun & Hext' & Hnil
                                    & _ & Hsent').
      { rewrite (deref_heap data w w2); [exact Hto | apply Hext12]. }
      exists r, w', (1 + 0 + j')%nat, ((tr1 ++ t2) ++ tr').
      split.
      { rewrite <- Hrun. subst w2. destruct (a <? m - 1); reflexivity. }
      split; [exact (extends_trans _ _ _ _ _ _ _ Hext12 Hext') |].
      split; [discriminate |].
      split.
      { intros _. exists lvl, line, (t2 ++ tr'). unfold tr1.
        rewrite <- !app_assoc. reflexivity. }
      intros _ Hr. destruct rest as [|b rest'].
      * rewrite (Hnil eq_refl) in Hr. discriminate Hr.
      * rewrite !sent_messages_app. apply in_or_app. right.
        apply Hsent'; [discriminate | exact Hr].
Qed.

(** In a bounded search, either some index is the first to pass, or none
    passes. *)
Lemma first_success_or_none (f : nat -> bool) (len : nat) :
  (exists j, (j < len)%nat /\ f j = true
             /\ forall i, (i < j)%nat -> f i = false)
  \/ (forall i, (i < len)%nat -> f i = false).
Proof.
  induction len as [|len IH]; [right; intros i Hi; lia |].
  destruct IH as [(j & Hj & Hok & Hlow) | Hnone].
  - left. exists j. split; [lia |]. now split.
  - destruct (f len) eqn:E.
    + left. exists len. split; [lia |]. now split.
    + right. intros i Hi.
      destruct (Nat.eq_dec i len) as [->|Hne]; [exact E | apply Hnone; lia].
Qed.

(** The attempts end in success exactly when one of the calls they can
    make succeeds. *)
Lemma attempt_loop_verdict (w w' : World) (r : bool * option string) :
  dict_get "email" (deref data w) = Some to ->
  attempt_loop self env (map Z.of_nat (seq 0 (Z.to_nat m))) m data subject
    html_body pdf_data pdf_filename false None w = (Ok r, w') ->
  fst r = true
  <-> exists j, (j < Z.to_nat m)%nat
                /\ fst (attempt_result self env (calls w + j)%nat to subject
                          html_body pdf_data pdf_filename) = true.
Proof.
  intros Hto Hrun.
  destruct (first_success_or_none
              (fun j => fst (attempt_result self env (calls w + j)%nat to
                               subject html_body pdf_data pdf_filename))
              (Z.to_nat m)) as [(j & Hj & Hok & Hlow) | Hnone];
    cbv beta in *.
  - destruct (attempt_loop_first_success self env m data subject html_body
                pdf_data pdf_filename to j (Z.to_nat m) 0%nat false None w
                Hto Hj ltac:(lia) Hlow Hok) as (w1 & tr & Hrun1 & _).
    rewrite Hrun1 in Hrun. injection Hrun as <- _.
    split; [intros _; exists j; now split | intros _; exact Hok].
  - split.
    + intros Hr. exfalso. destruct (Z.to_nat m) as [|len] eqn:El.
      * cbn in Hrun. unfold ret in Hrun. injection Hrun as <- _.
        discriminate Hr.
      * destruct (attempt_loop_all_fail self env m data subject html_body
                    pdf_data pdf_filename to (S len) 0%nat false None w
                    Hto ltac:(lia) Hnone) as (w1 & tr & Hrun1 & _).
        rewrite Hrun1 in Hrun. injection Hrun as <- _.
        rewrite Hnone in Hr by lia. discriminate Hr.
    + intros (j & Hj & Hok). rewrite Hnone in Hok by exact Hj.
      discriminate Hok.
Qed.

End AttemptEvents.

(** C9. When the PDF generator raises for a recipient, the pipeline logs
    the failure and goes on to send the recipient's email without
    attachment. The row is processed to the end (the run is not aborted)
    and gets exactly one ledger row. When [max_retries >= 1], the SMTP
    session of the email, built with no attachment, follows the log line
    of the failure at once. Every message handed to the server for the
    recipient is without attachment. The ledger row is a success exactly
    when one of the [max_retries] send attempts succeeds, in which case the
    message without attachment has been handed to the server: only failed
    sends make the row a failure, the failed PDF never does. *)
Theorem pdf_failure_is_not_fatal (self : Sender) (env : Env)
    (F S : string) (m d total idx : Z) (row : Row) (sc fc : Z) (w : World)
    (e n : value) (x : exn) :
  email_cfg (config self) !! "from_name" = Some F ->
  email_cfg (config self) !! "subject" = Some S ->
  settings_cfg (config self) !! "max_retries" = Some m ->
  settings_cfg (config self) !! "delay_between_emails" = Some d ->
  0 <= d ->
  dict_get "email" (record_of row) = Some e ->
  dict_get "nombre" (record_of row) = Some n ->
  generate_personalized_pdf self (record_of row) = Raise x ->
  let fields := dict_set "from_name" (VStr F) (record_of row) in
  let subject := substitute fields S in
  let html_body := substitute fields (email_template self) in
  let msg := message_of self F e subject html_body None "documento.pdf" in
  let pdf_failed :=
    EvLog ERROR ("Error generando PDF para " +:+ str e +:+ ": "
                 +:+ exn_str x) in
  exists counts w' tr r,
    process_row self env total idx row sc fc w = (Ok counts, w')
    /\ trace w' = trace w ++ tr
    /\ In pdf_failed tr
    /\ msg_attachment msg = None
    /\ (1 <= m ->
        exists lvl line more,
          tr = pdf_failed
               :: map (EvSmtp (calls w))
                    (attempted (smtp env (calls w)) (session self msg))
               ++ EvLog lvl line :: more)
    /\ (forall msg', In msg' (sent_messages tr) -> msg_attachment msg' = None)
    /\ results w' = results w ++ [r]
    /\ r_email r = e /\ r_nombre r = n
    /\ (1 <= m -> (calls w < calls w')%nat)
    /\ (r_status r = "Éxito"
        <-> exists j : nat,
              Z.of_nat j < m
              /\ fst (attempt_result self env (calls w + j)%nat e subject
                        html_body None "documento.pdf") = true)
    /\ (r_status r = "Éxito" ->
        In msg (sent_messages tr) /\ counts = (sc + 1, fc))
    /\ (r_status r <> "Éxito" ->
        r_status r = "Error" /\ counts = (sc, fc + 1)).
Proof.
  intros HF HS Hm Hd Hd0 He Hn Hgen fields subject html_body msg pdf_failed.
  destruct (process_row_run self env F S m d HF HS Hm Hd Hd0 total idx row
              sc fc w e n He Hn)
    as (att & w1 & tr_a & w3 & sent & w4 & tr_d & j & w' & Hatt & Hexta & Hns
        & Hsm & Hrec3 & Hc3 & _ & Hdel & Hext & Hrun & Hres & Htr & Hc & Hj).
  fold fields in Hrec3, Hdel. fold subject html_body in Hdel.
  set (l := fresh (dom (heap w))) in *.
  set (w0 := set_heap (<[l := record_of row]> (heap w)) w) in *.
  assert (Hrec0 : deref l w0 = record_of row) by apply deref_set_heap.
  rewrite (make_attachment_failed self l w0 x e) in Hatt
    by (rewrite Hrec0; assumption).
  injection Hatt as <- <-.
  cbn [fst snd] in Hdel.
  assert (Htra : tr_a = [pdf_failed]).
  { destruct Hexta as (_ & _ & Ht & _). cbn [trace emit] in Ht.
    now apply app_inv_head in Ht. }
  assert (Hnoatt : Forall without_attachment tr_d).
  { refine (deliver_added self env _ _ _ _ _ _ _ _ _ _ _ _ Hdel Hext).
    apply keeps_deliver.
    - now intros.
    - exact I.
    - intros call msg0 Hmsg. exact Hmsg.
    - intros call [| | |msg0|] Hop; try exact I. now destruct (Hop msg0). }
  assert (He3 : dict_get "email" (deref l w3) = Some e).
  { rewrite Hrec3. unfold fields. now rewrite dict_get_set_other. }
  rewrite (deliver_unfold self env m) in Hdel by exact Hm.
  destruct (attempt_loop_events self env m l subject html_body None
              "documento.pdf" e F HF (map Z.of_nat (seq 0 (Z.to_nat m)))
              false None w3 He3)
    as (sent' & w4' & j' & tr' & Hloop & Hext' & _ & Hshape & Hsent).
  fold msg in Hshape, Hsent.
  rewrite Hdel in Hloop. injection Hloop as <- <-.
  assert (Htr' : tr' = tr_d).
  { destruct Hext as (_ & _ & Ht & _). destruct Hext' as (_ & _ & Ht' & _).
    rewrite Ht in Ht'. now apply app_inv_head in Ht'. }
  subst tr'.
  pose proof (attempt_loop_verdict self env m l subject html_body None
                "documento.pdf" e w3 w4 sent He3 Hdel) as Hverdict.
  rewrite Hc3 in Hverdict, Hshape.
  assert (Hrange : 1 <= m -> map Z.of_nat (seq 0 (Z.to_nat m)) <> []).
  { intros Hm1. destruct (Z.to_nat m) as [|k] eqn:Hk; [lia | discriminate]. }
  set (r := {| r_email := e; r_nombre := n;
               r_status := if fst sent then "Éxito" else "Error";
               r_timestamp := now env (trace w4);
               r_error := if negb (fst sent) then snd sent else Some "" |})
    in *.
  assert (Hstatus : r_status r = "Éxito" <-> fst sent = true).
  { unfold r. cbn [r_status]. destruct (fst sent); split; intros H;
      try reflexivity; discriminate H. }
  exists (if fst sent then (sc + 1, fc) else (sc, fc + 1)), w',
    (tr_a ++ tr_d ++ (if idx <? total - 1 then [EvSleep InterRecipient d]
                      else [])), r.
  split; [exact Hrun |]. split; [exact Htr |].
  split. { rewrite Htra. now left. }
  split; [reflexivity |].
  split.
  { intros Hm1. destruct (Hshape (Hrange Hm1)) as (lvl & line & more & Hd').
    exists lvl, line,
      (more ++ (if idx <? total - 1 then [EvSleep InterRecipient d] else [])).
    rewrite Htra, Hd'. cbn [app]. rewrite <- app_assoc. reflexivity. }
  split.
  { intros msg'. rewrite !sent_messages_app, Hsm, sent_messages_delay,
      app_nil_r. cbn [app]. now apply sent_without_attachment. }
  split; [exact Hres |].
  split; [reflexivity |]. split; [reflexivity |].
  split. { intros Hm1. specialize (Hj Hm1). lia. }
  split.
  { rewrite Hstatus, Hverdict. split; intros (k & Hk & Hok); exists k;
      (split; [lia | exact Hok]). }
  split.
  { intros Hst. apply Hstatus in Hst. rewrite Hst. split; [|reflexivity].
    rewrite !sent_messages_app. apply in_or_app. right. apply in_or_app. left.
    apply Hsent; [|exact Hst].
    apply Hrange. apply Hverdict in Hst. destruct Hst as (k & Hk & _). lia. }
  intros Hst. destruct (fst sent) eqn:Hfs.
  - exfalso. apply Hst. now apply Hstatus.
  - unfold r. cbn [r_status]. rewrite ?Hfs. split; reflexivity.
Qed.

Lemma pdf_failure_is_not_fatal_witness :
  exists counts w' tr r,
    process_row sender_without_pdf env_flaky 2 0 row_ana 0 0 empty_world
    = (Ok counts, w')
    /\ trace w' = trace empty_world ++ tr
    /\ results w' = results empty_world ++ [r]
    /\ r_status r = "Éxito"
    /\ (exists msg, In msg (sent_messages tr) /\ msg_attachment msg = None)
    /\ counts = (1, 0).
Proof.
  destruct (pdf_failure_is_not_fatal sender_without_pdf env_flaky "Equipo"
              "Hola {{nombre}}" 3 1 2 0 row_ana 0 0 empty_world
              (VStr "ana@example.com") (VStr "Ana") (Exn Exception_ "no font")
              eq_refl eq_refl eq_refl eq_refl ltac:(lia) eq_refl eq_refl
              eq_refl)
    as (counts & w' & tr & r & Hrun & Htr & _ & Hnone & _ & _ & Hres & _ & _
        & _ & Hiff & Hok & _).
  assert (Hst : r_status r = "Éxito").
  { apply Hiff. exists 2%nat. split; [lia | reflexivity]. }
  destruct (Hok Hst) as [Hin Hcounts].
  exists counts, w', tr, r. repeat split; try assumption.
  eexists. split; [exact Hin | exact Hnone].
Defined.

(** ** The attachment step, case by case *)

Section AttachmentCases.

Context (self : Sender).

(** Either the PDF is generated and both parts of its name are text, or
    the step ends in its [except] clause. *)
Lemma make_attachment_cases (data : loc) (w : World) (to : value) :
  dict_get "email" (deref data w) = Some to ->
  (exists pdf t n,
     generate_personalized_pdf self (deref data w) = Ok pdf
     /\ default (VStr "documento") (dict_get "nombre_pdf" (deref data w))
        = VStr t
     /\ dict_get "nombre" (deref data w) = Some (VStr n)
     /\ make_attachment self data w
        = (Ok (Some pdf,
               map_chars clean_title_char t +:+ "_"
               +:+ map_chars clean_name_char n +:+ ".pdf"), w))
  \/ (exists line,
        make_attachment self data w
        = (Ok (None, "documento.pdf"), emit (EvLog ERROR line) w)).
Proof.
  intros Hto.
  unfold make_attachment, try_except, bind, dict_items, lift,
    dict_get_default, dict_getitem, log, ret, raise.
  destruct (generate_personalized_pdf self (deref data w)) as [pdf|e].
  2:{ rewrite isinstance_root, Hto. right. eexists. reflexivity. }
  destruct (default (VStr "documento") (dict_get "nombre_pdf" (deref data w)))
    as [t|z] eqn:Ht; cbn [value_replace].
  2:{ rewrite isinstance_root, Hto. right. eexists. reflexivity. }
  destruct (dict_get "nombre" (deref data w)) as [[n|z]|] eqn:Hn;
    cbn [value_replace]; rewrite ?isinstance_root, ?Hto.
  - left. exists pdf, t, n. repeat split.
    cbn [str]. now rewrite clean_title_replace, clean_name_replace.
  - right. eexists. reflexivity.
  - right. eexists. reflexivity.
Qed.

End AttachmentCases.

(** X13. When the document title of a record is a number, or its 'nombre'
    is missing or not text, the clean-up of the file name raises inside the
    [try] block: the PDF that was just generated is dropped. The step
    returns no PDF and the name "documento.pdf", and logs one error line,
    as it does when the generator itself fails. *)
Theorem generated_pdf_dropped (self : Sender) (data : loc) (w : World)
    (pdf : bytes) (to : value) :
  generate_personalized_pdf self (deref data w) = Ok pdf ->
  dict_get "email" (deref data w) = Some to ->
  (exists z, dict_get "nombre_pdf" (deref data w) = Some (VInt z))
  \/ (forall n, dict_get "nombre" (deref data w) <> Some (VStr n)) ->
  exists line,
    make_attachment self data w
    = (Ok (None, "documento.pdf"), emit (EvLog ERROR line) w).
Proof.
  intros Hgen Hto Hbad.
  destruct (make_attachment_cases self data w to Hto)
    as [(pdf' & t & n & _ & Ht & Hn & _) | Hfail]; [exfalso | exact Hfail].
  destruct Hbad as [[z Hz] | Hbad].
  - rewrite Hz in Ht. discriminate.
  - exact (Hbad n Hn).
Qed.

Lemma generated_pdf_dropped_witness :
  exists line,
    make_attachment demo_sender 0%nat (world_with numbered_record)
    = (Ok (None, "documento.pdf"),
       emit (EvLog ERROR line) (world_with numbered_record)).
Proof.
  apply (generated_pdf_dropped demo_sender 0%nat (world_with numbered_record)
           demo_pdf (VStr "ana@example.com")).
  - reflexivity.
  - reflexivity.
  - left. exists 2024. reflexivity.
Defined.

(** X14. For a record with an 'email', the attachment step always returns,
    whatever the generator and the record's other fields do, and the file
    name it returns ends in ".pdf" and has no '/', '\' or ':'; without a
    PDF the name is "documento.pdf". *)
Theorem attachment_name_path_free (self : Sender) (data : loc) (w : World)
    (to : value) :
  dict_get "email" (deref data w) = Some to ->
  exists pdf_data stem w',
    make_attachment self data w = (Ok (pdf_data, stem +:+ ".pdf"), w')
    /\ path_free (stem +:+ ".pdf") = true
    /\ (pdf_data = None -> stem = "documento").
Proof.
  intros Hto.
  destruct (make_attachment_cases self data w to Hto)
    as [(pdf & t & n & _ & _ & _ & Hrun) | [line Hrun]].
  - exists (Some pdf),
      (map_chars clean_title_char t +:+ "_" +:+ map_chars clean_name_char n),
      w.
    rewrite !append_assoc. split; [exact Hrun |]. split; [|discriminate].
    unfold path_free. rewrite !all_chars_append.
    rewrite (all_chars_map _ _ t clean_title_no_path_char).
    rewrite (all_chars_map _ _ n clean_name_no_path_char).
    reflexivity.
  - exists None, "documento", (emit (EvLog ERROR line) w).
    split; [exact Hrun |]. split; reflexivity.
Qed.

Lemma attachment_name_path_free_witness :
  exists pdf_data stem w',
    make_attachment demo_sender 0%nat (world_with joann_record)
    = (Ok (pdf_data, stem +:+ ".pdf"), w')
    /\ path_free (stem +:+ ".pdf") = true.
Proof.
  destruct (attachment_name_path_free demo_sender 0%nat
              (world_with joann_record) (VStr "jo@example.com") eq_refl)
    as (pdf_data & stem & w' & Hrun & Hfree & _).
  exists pdf_data, stem, w'. split; assumption.
Defined.

(** ** The preview of [main] *)

Section PreviewFacts.

Context (self : Sender) (env : Env) (address : string).

Lemma test_data_fields (F : string) :
  dict_set "from_name" (VStr F) (test_data address)
  = test_data address ++ [("from_name", VStr F)].
Proof. reflexivity. Qed.

(** The preview up to its call of [send_email]. *)
Lemma main_preview_run (pdf : bytes) (F S : string) (w : World) :
  generate_personalized_pdf self (test_data address) = Ok pdf ->
  email_cfg (config self) !! "from_name" = Some F ->
  email_cfg (config self) !! "subject" = Some S ->
  let fields := test_data address ++ [("from_name", VStr F)] in
  exists w3,
    main_preview self env address w
    = send_email self env (VStr address) (substitute fields S)
        (substitute fields (email_template self)) (Some pdf) "prueba.pdf" w3
    /\ calls w3 = calls w /\ trace w3 = trace w /\ results w3 = results w.
Proof.
  intros Hgen HF HS fields. unfold main_preview.
  set (l := fresh (dom (heap w))).
  set (w0 := set_heap (<[l := test_data address]> (heap w)) w).
  assert (Hrec : deref l w0 = test_data address) by apply deref_set_heap.
  rewrite (bind_ok _ _ w w0 l) by reflexivity.
  rewrite (bind_ok (dict_items l) _ w0 w0 (test_data address))
    by (unfold dict_items; now rewrite Hrec).
  rewrite (bind_ok (lift _) _ w0 w0 pdf) by (unfold lift; now rewrite Hgen).
  pose proof (render_run self F (email_template self) l w0 HF) as Hr1.
  rewrite Hrec, test_data_fields in Hr1. fold fields in Hr1.
  set (w1 := set_heap (<[l := fields]> (heap w0)) w0) in *.
  rewrite (bind_ok _ _ _ _ _ Hr1).
  rewrite (bind_ok (config_get _ _) _ w1 w1 S)
    by (unfold config_get; now rewrite HS).
  assert (Hrec1 : deref l w1 = fields) by apply deref_set_heap.
  pose proof (render_run self F S l w1 HF) as Hr2.
  rewrite Hrec1 in Hr2.
  assert (Hidem : dict_set "from_name" (VStr F) fields = fields)
    by reflexivity.
  rewrite Hidem in Hr2.
  rewrite (bind_ok _ _ _ _ _ Hr2).
  eexists. split; [reflexivity |]. repeat split.
Qed.

End PreviewFacts.

(** X15. In the preview of [main] a failure of the PDF generator is fatal:
    the exception leaves the branch before anything is rendered, logged or
    sent (in a bulk run the same failure only costs the attachment). *)
Theorem preview_pdf_failure_is_fatal (self : Sender) (env : Env)
    (address : string) (e : exn) (w : World) :
  generate_personalized_pdf self (test_data address) = Raise e ->
  fst (main_preview self env address w) = Raise e
  /\ calls (snd (main_preview self env address w)) = calls w
  /\ trace (snd (main_preview self env address w)) = trace w
  /\ results (snd (main_preview self env address w)) = results w.
Proof.
  intros Hgen. unfold main_preview.
  set (l := fresh (dom (heap w))).
  set (w0 := set_heap (<[l := test_data address]> (heap w)) w).
  assert (Hrec : deref l w0 = test_data address) by apply deref_set_heap.
  rewrite (bind_ok _ _ w w0 l) by reflexivity.
  rewrite (bind_ok (dict_items l) _ w0 w0 (test_data address))
    by (unfold dict_items; now rewrite Hrec).
  unfold bind at 1, lift. rewrite Hgen. repeat split.
Qed.

Lemma preview_pdf_failure_is_fatal_witness :
  fst (main_preview sender_without_pdf env_up "ana@example.com" empty_world)
  = Raise (Exn Exception_ "no font").
Proof.
  apply (preview_pdf_failure_is_fatal sender_without_pdf env_up
           "ana@example.com" (Exn Exception_ "no font") empty_world).
  reflexivity.
Defined.

(** X16. When the PDF is generated, the preview of [main] is one call of
    [send_email], hence one SMTP session: it carries the templates rendered
    over the test record and the PDF under the name "prueba.pdf"; it
    returns an outcome, waits nowhere, is not retried and leaves no row in
    the ledger. *)
Theorem preview_sends_once (self : Sender) (env : Env) (address : string)
    (pdf : bytes) (F subj : string) (w : World) :
  generate_personalized_pdf self (test_data address) = Ok pdf ->
  email_cfg (config self) !! "from_name" = Some F ->
  email_cfg (config self) !! "subject" = Some subj ->
  let fields := test_data address ++ [("from_name", VStr F)] in
  let msg := message_of self F (VStr address) (substitute fields subj)
               (substitute fields (email_template self)) (Some pdf)
               "prueba.pdf" in
  exists r w' tr,
    main_preview self env address w = (Ok r, w')
    /\ calls w' = S (calls w)
    /\ results w' = results w
    /\ trace w' = trace w ++ tr
    /\ smtp_ops tr = attempted (smtp env (calls w)) (session self msg)
    /\ forallb no_sleep tr = true.
Proof.
  intros Hgen HF HS fields msg.
  destruct (main_preview_run self env address pdf F subj w Hgen HF HS)
    as (w3 & Hrun & Hc & Ht & Hres).
  fold fields in Hrun. rewrite Hrun.
  destruct (send_email_run self env (VStr address) (substitute fields subj)
              (substitute fields (email_template self)) (Some pdf)
              "prueba.pdf" w3) as (tr & Hsend & Hns & _).
  destruct (send_email_events self env (VStr address) (substitute fields subj)
              (substitute fields (email_template self)) (Some pdf)
              "prueba.pdf" F w3 HF) as (lvl & line & Hev & _).
  rewrite Hsend in Hev. cbn [snd trace] in Hev.
  apply app_inv_head in Hev. rewrite Hsend.
  eexists _, _, tr. split; [reflexivity |]. cbn [calls results trace].
  rewrite Hc, Ht, Hres. repeat split; try assumption.
  rewrite Hev, smtp_ops_app, smtp_ops_map. cbn [smtp_ops omap list_omap].
  now rewrite app_nil_r, Hc.
Qed.

Lemma preview_sends_once_witness :
  exists r w' tr,
    main_preview demo_sender env_up "ana@example.com" empty_world = (Ok r, w')
    /\ calls w' = 1%nat
    /\ results w' = []
    /\ trace w' = tr
    /\ length (smtp_ops tr) = 5%nat.
Proof.
  destruct (preview_sends_once demo_sender env_up "ana@example.com" demo_pdf
              "Equipo" "Hola {{nombre}}" empty_world eq_refl eq_refl eq_refl)
    as (r & w' & tr & Hrun & Hc & Hres & Ht & Hops & _).
  exists r, w', tr. repeat split; try assumption.
  now rewrite Hops.
Defined.

(** ** Rows and settings outside the contract *)

Section EdgeFacts.

Context (self : Sender) (env : Env).
Context (F subj : string) (m : Z).
Hypothesis HF : email_cfg (config self) !! "from_name" = Some F.
Hypothesis HS : email_cfg (config self) !! "subject" = Some subj.
Hypothesis Hm : settings_cfg (config self) !! "max_retries" = Some m.

(** A row with an 'email' gets as far as the end of its attempts, whatever
    else it lacks. *)
Lemma process_row_prefix (total idx : Z) (row : Row) (sc fc : Z) (w : World)
    (e : value) :
  dict_get "email" (record_of row) = Some e ->
  let l := fresh (dom (heap w)) in
  let w0 := set_heap (<[l := record_of row]> (heap w)) w in
  let fields := dict_set "from_name" (VStr F) (record_of row) in
  let html_body := substitute fields (email_template self) in
  let subject := substitute fields subj in
  exists att w1 tr_a w3 sent w4 tr_d j,
    make_attachment self l w0 = (Ok att, w1)
    /\ extends w0 w1 0 tr_a
    /\ sent_messages tr_a = []
    /\ deref l w3 = fields /\ calls w3 = calls w /\ trace w3 = trace w1
    /\ results w3 = results w
    /\ deliver self env l subject html_body (fst att) (snd att) w3
       = (Ok sent, w4)
    /\ extends w3 w4 j tr_d
    /\ (1 <= m -> (1 <= j)%nat)
    /\ process_row self env total idx row sc fc w
       = after_delivery self env total idx l sent sc fc w4.
Proof.
  intros He l w0 fields html_body subject.
  assert (Hrec : deref l w0 = record_of row) by apply deref_set_heap.
  destruct (make_attachment_run self l w0 e)
    as (att & tr_a & Hatt & Hns & Hsm & _).
  { now rewrite Hrec. }
  set (w1 := {| heap := heap w0; calls := calls w0; trace := trace w0 ++ tr_a;
                results := results w0 |}) in *.
  assert (Hrec1 : deref l w1 = record_of row) by exact Hrec.
  pose proof (render_run self F (email_template self) l w1 HF) as Hr1.
  rewrite Hrec1 in Hr1. fold fields in Hr1. fold html_body in Hr1.
  set (w2 := set_heap (<[l := fields]> (heap w1)) w1) in *.
  assert (Hrec2 : deref l w2 = fields) by apply deref_set_heap.
  pose proof (render_run self F subj l w2 HF) as Hr2.
  rewrite Hrec2 in Hr2.
  assert (Hidem : dict_set "from_name" (VStr F) fields = fields)
    by apply dict_set_idem.
  rewrite Hidem in Hr2. fold subject in Hr2.
  set (w3 := set_heap (<[l := fields]> (heap w2)) w2) in *.
  assert (Hrec3 : deref l w3 = fields) by apply deref_set_heap.
  assert (He3 : dict_get "email" (deref l w3) = Some e).
  { rewrite Hrec3. unfold fields. now rewrite dict_get_set_other. }
  destruct (attempt_loop_total self env m l subject html_body (fst att)
              (snd att) e (map Z.of_nat (seq 0 (Z.to_nat m))) false None w3 He3)
    as (sent & w4 & j & tr_d & Hloop & Hext4 & Hj).
  rewrite <- (deliver_unfold self env m) in Hloop by exact Hm.
  exists att, w1, tr_a, w3, sent, w4, tr_d, j.
  split; [exact Hatt |].
  split. { unfold extends. cbn. rewrite Nat.add_0_r. repeat split; reflexivity. }
  split; [exact Hsm |].
  split; [exact Hrec3 |]. split; [reflexivity |]. split; [reflexivity |].
  split; [reflexivity |].
  split; [exact Hloop |]. split; [exact Hext4 |].
  split.
  { intros Hm1. apply Hj.
    destruct (Z.to_nat m) as [|k] eqn:Hk; [lia | discriminate]. }
  unfold process_row.
  rewrite (bind_ok _ _ w w0 l) by reflexivity.
  rewrite (bind_ok _ _ _ _ _ Hatt). destruct att as [pdf fn].
  rewrite (bind_ok _ _ _ _ _ Hr1).
  rewrite (bind_ok (config_get _ _) _ w2 w2 subj)
    by (unfold config_get; now rewrite HS).
  rewrite (bind_ok _ _ _ _ _ Hr2).
  rewrite (bind_ok _ _ _ _ _ Hloop). destruct sent as [succ err].
  reflexivity.
Qed.

(** An exception in the first row ends the run. *)
Lemma send_bulk_first_row_raises (idx : Z) (row : Row) (rest : DataFrame)
    (preview_mode : bool) (w w' : World) (x : exn) :
  process_row self env (Z.of_nat (length (processed ((idx, row) :: rest)
                                            preview_mode)))
    idx row 0 0 w = (Raise x, w') ->
  send_bulk_emails self env ((idx, row) :: rest) preview_mode w
  = (Raise x, w').
Proof.
  intros Hrow. unfold send_bulk_emails, processed in *.
  destruct preview_mode; cbn [take rows_loop] in *;
    unfold bind at 1; unfold bind at 1; now rewrite Hrow.
Qed.

End EdgeFacts.

Section MissingFields.

Context (self : Sender) (env : Env).
Context (F subj : string) (m : Z).
Hypothesis HF : email_cfg (config self) !! "from_name" = Some F.
Hypothesis HS : email_cfg (config self) !! "subject" = Some subj.
Hypothesis Hm : settings_cfg (config self) !! "max_retries" = Some m.

(** A row with an 'email' and no 'nombre': the attempts are made, without
    attachment, and the ledger row cannot be built. *)
Lemma process_row_without_name (total idx : Z) (row : Row) (sc fc : Z)
    (w : World) (e : value) :
  dict_get "email" (record_of row) = Some e ->
  dict_get "nombre" (record_of row) = None ->
  exists w' tr,
    process_row self env total idx row sc fc w
    = (Raise (key_error "nombre"), w')
    /\ results w' = results w
    /\ trace w' = trace w ++ tr
    /\ (forall msg, In msg (sent_messages tr) -> msg_attachment msg = None)
    /\ (1 <= m -> (calls w < calls w')%nat).
Proof.
  intros He Hn.
  destruct (process_row_prefix self env F subj m HF HS Hm total idx row sc fc
              w e He)
    as (att & w1 & tr_a & w3 & sent & w4 & tr_d & j & Hatt & Hexta & Hsm
        & Hrec3 & Hc3 & Ht3 & Hres3 & Hdel & Hext & Hj & Hrun).
  set (l := fresh (dom (heap w))) in *.
  set (w0 := set_heap (<[l := record_of row]> (heap w)) w) in *.
  assert (Hrec0 : deref l w0 = record_of row) by apply deref_set_heap.
  assert (Hnone : fst att = None).
  { destruct (make_attachment_cases self l w0 e)
      as [(pdf & t & n & _ & _ & Hn' & _) | [line Hfail]].
    - now rewrite Hrec0.
    - rewrite Hrec0, Hn in Hn'. discriminate.
    - rewrite Hfail in Hatt. now injection Hatt as <- _. }
  rewrite Hnone in Hdel.
  assert (Hnoatt : Forall without_attachment tr_d).
  { refine (deliver_added self env _ _ _ _ _ _ _ _ _ _ _ _ Hdel Hext).
    apply keeps_deliver.
    - now intros.
    - exact I.
    - intros call msg Hmsg. exact Hmsg.
    - intros call [| | |msg|] Hop; try exact I. now destruct (Hop msg). }
  destruct Hext as (Hh4 & Hc4 & Ht4 & Hres4).
  destruct Hexta as (_ & _ & Hta & _).
  exists w4, (tr_a ++ tr_d).
  split.
  { rewrite Hrun. unfold after_delivery, record_result.
    unfold bind at 1. unfold bind at 1. unfold dict_getitem at 1.
    assert (Hd4 : deref l w4 = deref l w3) by (unfold deref; now rewrite Hh4).
    rewrite Hd4, Hrec3, dict_get_set_other, He by discriminate.
    unfold bind at 1. unfold dict_getitem.
    rewrite Hd4, Hrec3, dict_get_set_other, Hn by discriminate.
    reflexivity. }
  split; [now rewrite Hres4, Hres3 |].
  split. { rewrite Ht4, Ht3, Hta. cbn [trace set_heap w0]. now rewrite app_assoc. }
  split.
  { intros msg. rewrite sent_messages_app, Hsm. cbn [app].
    now apply sent_without_attachment. }
  intros Hm1. specialize (Hj Hm1). rewrite Hc4, Hc3. lia.
Qed.

(** The attachment step of a record without 'email': it either works,
    silently, or ends in the [KeyError] of its [except] clause. *)
Lemma make_attachment_without_email (data : loc) (w : World) :
  dict_get "email" (deref data w) = None ->
  (exists att, make_attachment self data w = (Ok att, w))
  \/ make_attachment self data w = (Raise (key_error "email"), w).
Proof.
  intros Hto.
  unfold make_attachment, try_except, bind, dict_items, lift,
    dict_get_default, dict_getitem, log, ret, raise.
  destruct (generate_personalized_pdf self (deref data w)) as [pdf|x].
  2:{ rewrite isinstance_root, Hto. now right. }
  destruct (default (VStr "documento") (dict_get "nombre_pdf" (deref data w)))
    as [t|z]; cbn [value_replace].
  2:{ rewrite isinstance_root, Hto. now right. }
  destruct (dict_get "nombre" (deref data w)) as [[n|z]|];
    cbn [value_replace]; rewrite ?isinstance_root, ?Hto.
  - left. eexists. reflexivity.
  - now right.
  - now right.
Qed.

(** A row without 'email' raises before any call of [send_email]. *)
Lemma process_row_without_email (total idx : Z) (row : Row) (sc fc : Z)
    (w : World) :
  dict_get "email" (record_of row) = None ->
  exists w',
    process_row self env total idx row sc fc w
    = (Raise (key_error "email"), w')
    /\ calls w' = calls w /\ trace w' = trace w /\ results w' = results w.
Proof.
  intros He. unfold process_row.
  set (l := fresh (dom (heap w))).
  set (w0 := set_heap (<[l := record_of row]> (heap w)) w).
  set (fields := dict_set "from_name" (VStr F) (record_of row)).
  assert (Hrec : deref l w0 = record_of row) by apply deref_set_heap.
  rewrite (bind_ok _ _ w w0 l) by reflexivity.
  destruct (make_attachment_without_email l w0) as [[att Hatt] | Hatt].
  { now rewrite Hrec. }
  2:{ unfold bind at 1. rewrite Hatt. exists w0. repeat split. }
  rewrite (bind_ok _ _ _ _ _ Hatt). destruct att as [pdf fn].
  pose proof (render_run self F (email_template self) l w0 HF) as Hr1.
  rewrite Hrec in Hr1. fold fields in Hr1.
  set (w2 := set_heap (<[l := fields]> (heap w0)) w0) in *.
  rewrite (bind_ok _ _ _ _ _ Hr1).
  rewrite (bind_ok (config_get _ _) _ w2 w2 subj)
    by (unfold config_get; now rewrite HS).
  assert (Hrec2 : deref l w2 = fields) by apply deref_set_heap.
  pose proof (render_run self F subj l w2 HF) as Hr2.
  rewrite Hrec2 in Hr2.
  assert (Hidem : dict_set "from_name" (VStr F) fields = fields)
    by apply dict_set_idem.
  rewrite Hidem in Hr2.
  set (w3 := set_heap (<[l := fields]> (heap w2)) w2) in *.
  rewrite (bind_ok _ _ _ _ _ Hr2).
  assert (He3 : dict_get "email" (deref l w3) = None).
  { unfold w3. rewrite deref_set_heap. unfold fields.
    now rewrite dict_get_set_other. }
  exists w3. split; [|repeat split].
  unfold bind at 1. rewrite (deliver_unfold self env m) by exact Hm.
  destruct (map Z.of_nat (seq 0 (Z.to_nat m))) as [|a more];
    cbn [attempt_loop].
  - unfold ret at 1. unfold record_result. unfold bind at 1. unfold bind at 1.
    unfold dict_getitem at 1. now rewrite He3.
  - unfold bind at 1. unfold dict_getitem at 1. now rewrite He3.
Qed.

End MissingFields.

(** X17. A first row that has an 'email' but no 'nombre' ends the run with
    [KeyError: 'nombre'], and only after its attempts were made: the email
    goes out without attachment (at least one attempt when
    [max_retries >= 1]), and then no ledger row can be built for it. *)
Theorem row_without_name_aborts (self : Sender) (env : Env) (F subj : string)
    (m idx : Z) (row : Row) (rest : DataFrame) (preview_mode : bool)
    (w : World) (e : value) :
  email_cfg (config self) !! "from_name" = Some F ->
  email_cfg (config self) !! "subject" = Some subj ->
  settings_cfg (config self) !! "max_retries" = Some m ->
  dict_get "email" (record_of row) = Some e ->
  dict_get "nombre" (record_of row) = None ->
  exists w' tr,
    send_bulk_emails self env ((idx, row) :: rest) preview_mode w
    = (Raise (key_error "nombre"), w')
    /\ results w' = results w
    /\ trace w' = trace w ++ tr
    /\ (forall msg, In msg (sent_messages tr) -> msg_attachment msg = None)
    /\ (1 <= m -> (calls w < calls w')%nat).
Proof.
  intros HF HS Hm He Hn.
  destruct (process_row_without_name self env F subj m HF HS Hm
              (Z.of_nat (length (processed ((idx, row) :: rest) preview_mode)))
              idx row 0 0 w e He Hn) as (w' & tr & Hrun & Hrest).
  exists w', tr. split; [|exact Hrest].
  now apply send_bulk_first_row_raises.
Qed.

Lemma row_without_name_aborts_witness :
  exists w' tr,
    send_bulk_emails demo_sender env_up [(0, row_without_name); (1, row_luis)]
      false empty_world
    = (Raise (key_error "nombre"), w')
    /\ results w' = []
    /\ trace w' = tr
    /\ (calls empty_world < calls w')%nat.
Proof.
  destruct (row_without_name_aborts demo_sender env_up "Equipo"
              "Hola {{nombre}}" 3 0 row_without_name [(1, row_luis)] false
              empty_world (VStr "ana@example.com")
              eq_refl eq_refl eq_refl eq_refl eq_refl)
    as (w' & tr & Hrun & Hres & Htr & _ & Hc).
  exists w', tr. repeat split; try assumption. apply Hc. lia.
Defined.

(** X18. A first row without 'email' ends the run with [KeyError: 'email']
    before any call of [send_email]: nothing is sent, logged or recorded,
    whatever the PDF generator and the other fields do. *)
Theorem row_without_email_aborts (self : Sender) (env : Env)
    (F subj : string) (m idx : Z) (row : Row) (rest : DataFrame)
    (preview_mode : bool) (w : World) :
  email_cfg (config self) !! "from_name" = Some F ->
  email_cfg (config self) !! "subject" = Some subj ->
  settings_cfg (config self) !! "max_retries" = Some m ->
  dict_get "email" (record_of row) = None ->
  exists w',
    send_bulk_emails self env ((idx, row) :: rest) preview_mode w
    = (Raise (key_error "email"), w')
    /\ calls w' = calls w /\ trace w' = trace w /\ results w' = results w.
Proof.
  intros HF HS Hm He.
  destruct (process_row_without_email self env F subj m HF HS Hm
              (Z.of_nat (length (processed ((idx, row) :: rest) preview_mode)))
              idx row 0 0 w He) as (w' & Hrun & Hrest).
  exists w'. split; [|exact Hrest].
  now apply send_bulk_first_row_raises.
Qed.

Lemma row_without_email_aborts_witness :
  exists w',
    send_bulk_emails demo_sender env_up [(0, row_without_email); (1, row_luis)]
      false empty_world
    = (Raise (key_error "email"), w')
    /\ calls w' = 0%nat /\ trace w' = [] /\ results w' = [].
Proof.
  apply (row_without_email_aborts demo_sender env_up "Equipo"
           "Hola {{nombre}}" 3 0 row_without_email [(1, row_luis)] false
           empty_world eq_refl eq_refl eq_refl eq_refl).
Defined.

(** X19. With a negative 'delay_between_emails', a run over a first row
    whose index label is below [total - 1] stops at its first wait:
    [time.sleep] raises [ValueError] once the first recipient has had its
    attempts and its ledger row, and no other recipient is processed. *)
Theorem negative_delay_aborts (self : Sender) (env : Env) (F subj : string)
    (m d idx : Z) (row : Row) (rest : DataFrame) (w : World) (e n : value) :
  email_cfg (config self) !! "from_name" = Some F ->
  email_cfg (config self) !! "subject" = Some subj ->
  settings_cfg (config self) !! "max_retries" = Some m ->
  settings_cfg (config self) !! "delay_between_emails" = Some d ->
  d < 0 ->
  idx < Z.of_nat (length rest) ->
  dict_get "email" (record_of row) = Some e ->
  dict_get "nombre" (record_of row) = Some n ->
  exists w' r,
    send_bulk_emails self env ((idx, row) :: rest) false w
    = (Raise negative_sleep, w')
    /\ results w' = results w ++ [r]
    /\ r_email r = e /\ r_nombre r = n
    /\ waits InterRecipient (drop (length (trace w)) (trace w')) = 0%nat
    /\ (1 <= m -> (calls w < calls w')%nat).
Proof.
  intros HF HS Hm Hd Hneg Hidx He Hn.
  set (total := Z.of_nat (length (processed ((idx, row) :: rest) false))).
  destruct (process_row_prefix self env F subj m HF HS Hm total idx row 0 0
              w e He)
    as (att & w1 & tr_a & w3 & sent & w4 & tr_d & j & Hatt & Hexta & Hsm
        & Hrec3 & Hc3 & Ht3 & Hres3 & Hdel & Hext & Hj & Hrun).
  set (l := fresh (dom (heap w))) in *.
  set (w0 := set_heap (<[l := record_of row]> (heap w)) w) in *.
  assert (Hns : forallb no_sleep tr_a = true).
  { destruct (make_attachment_run self l w0 e)
      as (att' & tr' & Hatt' & Hns' & _).
    { unfold w0. now rewrite deref_set_heap. }
    rewrite Hatt' in Hatt. injection Hatt as _ Hw.
    destruct Hexta as (_ & _ & Hta & _). rewrite <- Hw in Hta.
    cbn [trace] in Hta. apply app_inv_head in Hta. now subst tr'. }
  assert (Hnone : waits InterRecipient tr_d = 0%nat).
  { apply waits_none.
    refine (deliver_added self env _ _ _ _ _ _ _ _ _ _ _ _ Hdel Hext).
    apply keeps_deliver; try reflexivity; intros; reflexivity. }
  destruct Hext as (Hh4 & Hc4 & Ht4 & Hres4).
  destruct Hexta as (_ & _ & Hta & _).
  assert (Hd4 : deref l w4 = deref l w3) by (unfold deref; now rewrite Hh4).
  pose proof (record_result_run env l (fst sent) (snd sent) 0 0 w4 e n) as Hrr.
  rewrite Hd4, Hrec3, !dict_get_set_other in Hrr by discriminate.
  specialize (Hrr He Hn).
  set (r := {| r_email := e; r_nombre := n;
               r_status := if fst sent then "Éxito" else "Error";
               r_timestamp := now env (trace w4);
               r_error := if negb (fst sent) then snd sent else Some "" |})
    in *.
  exists (push_result r w4), r.
  split.
  { apply send_bulk_first_row_raises. fold total. rewrite Hrun.
    unfold after_delivery. rewrite (bind_ok _ _ _ _ _ Hrr).
    assert (Hlt : (idx <? total - 1) = true).
    { apply Z.ltb_lt. unfold total, processed. cbn [length]. lia. }
    rewrite Hlt. unfold bind, config_get, sleep. rewrite Hd.
    assert (Hd0 : (d <? 0) = true) by now apply Z.ltb_lt.
    now rewrite Hd0. }
  cbn [results push_result trace calls].
  split; [now rewrite Hres4, Hres3 |].
  split; [reflexivity |]. split; [reflexivity |].
  split.
  { rewrite Ht4, Ht3, Hta. cbn [trace set_heap w0].
    rewrite <- app_assoc, drop_app_length, waits_app, Hnone.
    now rewrite (waits_no_sleep _ _ Hns). }
  intros Hm1. specialize (Hj Hm1). rewrite Hc4, Hc3. lia.
Qed.

Lemma negative_delay_aborts_witness :
  exists w' r,
    send_bulk_emails (sender_with 3 (-1)) env_up df_full false empty_world
    = (Raise negative_sleep, w')
    /\ results w' = [r]
    /\ r_email r = VStr "ana@example.com".
Proof.
  destruct (negative_delay_aborts (sender_with 3 (-1)) env_up "Equipo"
              "Hola {{nombre}}" 3 (-1) 0 row_ana [(1, row_luis)] empty_world
              (VStr "ana@example.com") (VStr "Ana")
              eq_refl eq_refl eq_refl eq_refl eq_refl eq_refl eq_refl eq_refl)
    as (w' & r & Hrun & Hres & He & _).
  exists w', r. repeat split; assumption.
Defined.

(** ** Runs without attempts *)

Section NoRetries.

Context (self : Sender) (env : Env).
Context (F subj : string) (m d : Z).
Hypothesis HF : email_cfg (config self) !! "from_name" = Some F.
Hypothesis HS : email_cfg (config self) !! "subject" = Some subj.
Hypothesis Hm : settings_cfg (config self) !! "max_retries" = Some m.
Hypothesis Hd : settings_cfg (config self) !! "delay_between_emails" = Some d.
Hypothesis Hd0 : 0 <= d.
Hypothesis Hm0 : m <= 0.

Lemma rows_loop_no_retries (total : Z) (rows : DataFrame) :
  forall (sc fc : Z) (w : World),
  Forall (fun ir => has_recipient (snd ir)) rows ->
  exists new w',
    rows_loop self env total rows sc fc w
    = (Ok (sc, fc + Z.of_nat (length rows)), w')
    /\ results w' = results w ++ new
    /\ length new = length rows
    /\ Forall never_attempted new
    /\ calls w' = calls w.
Proof.
  induction rows as [|[idx row] rest IH]; intros sc fc w Hrows.
  - exists [], w. cbn. rewrite app_nil_r, Z.add_0_r. repeat split.
    constructor.
  - apply Forall_cons in Hrows as [[[e He] [n Hn]] Hrest]. cbn [snd] in *.
    destruct (process_row_run self env F subj m d HF HS Hm Hd Hd0 total idx
                row sc fc w e n He Hn)
      as (att & w1 & tr_a & w3 & sent & w4 & tr_d & j & w' & _ & _ & _ & _
          & _ & _ & _ & Hdel & Hext & Hrun & Hres & _ & Hc & _).
    rewrite (deliver_unfold self env m) in Hdel by exact Hm.
    assert (Hz : Z.to_nat m = 0%nat) by lia.
    rewrite Hz in Hdel. cbn [seq map attempt_loop] in Hdel.
    unfold ret in Hdel. injection Hdel as <- <-.
    destruct Hext as (_ & Hc4 & _ & _).
    assert (Hj : j = 0%nat) by lia. subst j.
    cbn [fst snd negb] in *.
    destruct (IH sc (fc + 1) w' Hrest)
      as (new & w'' & Hloop & Hres' & Hlen & Hall & Hc').
    eexists (_ :: new), w''.
    split.
    { cbn [rows_loop]. rewrite (bind_ok _ _ _ _ _ Hrun). cbn [fst snd].
      rewrite Hloop. cbn [length]. do 3 f_equal. lia. }
    split. { rewrite Hres', Hres, <- app_assoc. reflexivity. }
    split. { cbn [length]. now rewrite Hlen. }
    split. { constructor; [split; reflexivity | exact Hall]. }
    rewrite Hc', Hc. lia.
Qed.

End NoRetries.

(** X20. With 'max_retries' at zero or below, a run over recipient records
    completes without a single call of [send_email]: nothing is sent, and
    yet every recipient gets a ledger row, with status "Error" and no error
    text, and the summary counts them all as failed. *)
Theorem no_retries_no_attempt (self : Sender) (env : Env) (F subj : string)
    (m d : Z) (df : DataFrame) (preview_mode : bool) (w : World) :
  email_cfg (config self) !! "from_name" = Some F ->
  email_cfg (config self) !! "subject" = Some subj ->
  settings_cfg (config self) !! "max_retries" = Some m ->
  settings_cfg (config self) !! "delay_between_emails" = Some d ->
  0 <= d ->
  m <= 0 ->
  Forall (fun ir => has_recipient (snd ir)) df ->
  let rows := processed df preview_mode in
  exists new w',
    send_bulk_emails self env df preview_mode w
    = (Ok {| total := Z.of_nat (length rows); success := 0;
             failed := Z.of_nat (length rows) |}, w')
    /\ calls w' = calls w
    /\ results w' = results w ++ new
    /\ length new = length rows
    /\ Forall never_attempted new.
Proof.
  intros HF HS Hm Hd Hd0 Hm0 Hdf rows.
  assert (Hrows : Forall (fun ir => has_recipient (snd ir)) rows).
  { unfold rows, processed. destruct preview_mode; [|exact Hdf].
    now apply Forall_take. }
  destruct (rows_loop_no_retries self env F subj m d HF HS Hm Hd Hd0 Hm0
              (Z.of_nat (length rows)) rows 0 0 w Hrows)
    as (new & w' & Hloop & Hres & Hlen & Hall & Hc).
  exists new, w'. split; [|repeat split; assumption].
  unfold send_bulk_emails. fold (processed df preview_mode). fold rows.
  cbv zeta. rewrite (bind_ok _ _ _ _ _ Hloop). reflexivity.
Qed.

Lemma no_retries_no_attempt_witness :
  exists new w',
    send_bulk_emails (sender_with 0 1) env_up df_full false empty_world
    = (Ok {| total := 2; success := 0; failed := 2 |}, w')
    /\ calls w' = 0%nat
    /\ results w' = new
    /\ length new = 2%nat.
Proof.
  assert (Hdf : Forall (fun ir => has_recipient (snd ir)) df_full).
  { repeat constructor; eexists; reflexivity. }
  destruct (no_retries_no_attempt (sender_with 0 1) env_up "Equipo"
              "Hola {{nombre}}" 0 1 df_full false empty_world
              eq_refl eq_refl eq_refl eq_refl ltac:(lia) ltac:(lia) Hdf)
    as (new & w' & Hrun & Hc & Hres & Hlen & _).
  exists new, w'. repeat split; assumption.
Defined.
